(** * GeneralExam: the learning-example store, its identifiers and the augmenter

    A shallow embedding of the parts of
    [generalexam/machine_learning/learning_examples_io.py] and
    [generalexam/machine_learning/training_validation_io.py] that build,
    persist, re-read and augment learning examples, followed by the
    properties established about them.

    Conventions.
    - Python integers are [Z]; list lengths and positions are [nat].
    - A call that may raise returns [result A]: [Ok a] or [Raises e].
    - Float payloads (predictors, normalization parameters, angles) are
      values of an abstract type; the only float operation the store itself
      performs on them is the cast to 32 bits done by the NetCDF variable.
    - The dilation distance is a rational: the only arithmetic done on it is
      the closeness test of the append path.
    - A NetCDF file carries the sizes of its fixed dimensions.  An array that
      has the shape of the slice it is assigned to is stored cell by cell;
      what netCDF4 makes of any other array, and of the creation of a file
      from arrays with an empty axis, is a parameter of the store. *)

From Stdlib Require Import List String Ascii ZArith NArith QArith Qabs Lia Bool Arith.
From Stdlib Require Import Sorted Permutation RelationClasses OrdersEx.
From Stdlib Require Import DecimalString DecimalN DecimalPos DecimalFacts.
Import ListNotations.

Local Open Scope string_scope.
Local Open Scope list_scope.
Local Open Scope Z_scope.

(** ** Exceptions and the error monad *)

Inductive exception : Type :=
| AssertionError
| IndexError
| KeyError (key : string)
| AttributeError (name : string)
| TypeError
| ShapeError
| ValueError (what : string)
| DuplicateIdsError (num_items num_unique : nat)
| MissingIdsError (num_missing num_desired : nat) (missing : list string)
| ExternalError (origin : string).

Inductive result (A : Type) : Type :=
| Ok (a : A)
| Raises (e : exception).

Arguments Ok {A} a.
Arguments Raises {A} e.

Definition bind {A B : Type} (m : result A) (k : A -> result B) : result B :=
  match m with
  | Ok a => k a
  | Raises e => Raises e
  end.

Notation "x <- m ;; k" := (bind m (fun x => k))
  (at level 61, m at next level, right associativity).
Notation "' p <- m ;; k" := (bind m (fun p => k))
  (at level 61, p pattern, m at next level, right associativity).

Fixpoint mapM {A B : Type} (f : A -> result B) (l : list A) : result (list B) :=
  match l with
  | [] => Ok []
  | a :: l' => b <- f a ;; bs <- mapM f l' ;; Ok (b :: bs)
  end.

Definition assert (b : bool) : result unit :=
  if b then Ok tt else Raises AssertionError.

(** ** Python and numpy primitives used by the source *)

Module Py.

(** [a[i]] for a Python int [i] on a sequence: negative positions count from
    the end, anything outside [-len, len) raises. *)
Definition index {A : Type} (a : list A) (i : Z) : result A :=
  let n := Z.of_nat (List.length a) in
  let j := if i <? 0 then i + n else i in
  if (j <? 0) || (n <=? j) then Raises IndexError
  else match nth_error a (Z.to_nat j) with
       | Some x => Ok x
       | None => Raises IndexError
       end.

(** [a[indices]] with an integer index array, as numpy defines it: one
    result per index, in the order of the indices, repeats included. *)
Definition take {A : Type} (a : list A) (indices : list Z) : result (list A) :=
  mapM (index a) indices.

(** [a[start:stop]] for Python ints: negative bounds count from the end and
    both bounds are clipped to the sequence. *)
Definition slice {A : Type} (a : list A) (start stop : Z) : list A :=
  let n := Z.of_nat (List.length a) in
  let clip := fun i => Z.min n (Z.max 0 (if i <? 0 then i + n else i)) in
  let lo := clip start in
  let hi := clip stop in
  firstn (Z.to_nat (hi - lo)) (skipn (Z.to_nat lo) a).

(** [numpy.where(flags)[0]]: the positions holding [true], in order. *)
Fixpoint where_from (start : nat) (flags : list bool) : list Z :=
  match flags with
  | [] => []
  | b :: flags' =>
      if b then Z.of_nat start :: where_from (S start) flags'
      else where_from (S start) flags'
  end.

Definition where_ (flags : list bool) : list Z := where_from 0 flags.

(** Decimal text of a natural number, as [str(n)] prints it. *)
Definition str_of_N (n : N) : string := NilZero.string_of_uint (N.to_uint n).

Fixpoint zeros (k : nat) : string :=
  match k with
  | O => EmptyString
  | S k' => String "0" (zeros k')
  end.

(** Left padding with ['0'] up to [width] characters. *)
Definition zfill (width : nat) (s : string) : string :=
  (zeros (width - String.length s) ++ s)%string.

(** ['{:0Wd}'.format(z)]: sign first, then zero padding to [width] characters
    in total; longer numbers are printed in full. *)
Definition format_0d (width : nat) (z : Z) : string :=
  if z <? 0 then String "-" (zfill (width - 1) (str_of_N (Z.abs_N z)))
  else zfill width (str_of_N (Z.to_N z)).

(** Text of one or more ASCII decimal digits to a number. *)
Definition digits_to_N (s : string) : option N :=
  option_map N.of_uint (NilZero.uint_of_string s).

(** [int(s)] on text made of an optional sign and ASCII decimal digits; any
    other text raises [ValueError].  (Python also accepts surrounding white
    space and digit-group underscores; identifiers never contain them.) *)
Definition int (s : string) : result Z :=
  let unsigned := fun t =>
    match digits_to_N t with
    | Some n => Ok (Z.of_N n)
    | None => Raises (ValueError "invalid literal for int()")
    end in
  match s with
  | String "-" t => n <- unsigned t ;; Ok (- n)
  | String "+" t => unsigned t
  | _ => unsigned s
  end.

(** [s.split(sep)] for a one-character separator. *)
Fixpoint split (sep : ascii) (s : string) : list string :=
  match s with
  | EmptyString => [EmptyString]
  | String a s' =>
      if Ascii.eqb a sep then EmptyString :: split sep s'
      else match split sep s' with
           | w :: ws => String a w :: ws
           | [] => [String a EmptyString]
           end
  end.

(** [s.replace(old, '')] for non-empty [old]: every occurrence found in a
    left-to-right scan is dropped; [skip] counts the characters of the current
    occurrence still to drop. *)
Fixpoint remove_from (old : string) (skip : nat) (s : string) : string :=
  match s with
  | EmptyString => EmptyString
  | String a s' =>
      match skip with
      | S k => remove_from old k s'
      | O =>
          if String.prefix old s then remove_from old (String.length old - 1) s'
          else String a (remove_from old 0 s')
      end
  end.

Definition remove (old s : string) : string := remove_from old 0 s.

(** Order of Python text: code point by code point. *)
Definition str_lt (a b : string) : bool :=
  match String_as_OT.compare a b with Lt => true | _ => false end.

Definition str_le (a b : string) : bool := negb (str_lt b a).

(** [numpy.argsort(a)]: the positions of [a] listed by increasing element.
    (An insertion sort; the order of equal elements, which numpy leaves
    unspecified, never matters below because duplicates are rejected first.) *)
Fixpoint insert_index (a : list string) (i : nat) (sorted : list nat) : list nat :=
  match sorted with
  | [] => [i]
  | j :: rest =>
      if str_le (nth i a EmptyString) (nth j a EmptyString) then i :: sorted
      else j :: insert_index a i rest
  end.

Definition argsort (a : list string) : list nat :=
  fold_right (insert_index a) [] (seq 0 (List.length a)).

(** [numpy.searchsorted(a, v, side='left')]: bisection on [lo, hi). *)
Fixpoint bisect_left (fuel : nat) (a : list string) (v : string) (lo hi : nat) : nat :=
  match fuel with
  | O => lo
  | S fuel' =>
      if (lo <? hi)%nat then
        let mid := (lo + (hi - lo) / 2)%nat in
        if str_lt (nth mid a EmptyString) v
        then bisect_left fuel' a v (S mid) hi
        else bisect_left fuel' a v lo mid
      else lo
  end.

Definition searchsorted (a : list string) (v : string) : nat :=
  bisect_left (List.length a) a v 0 (List.length a).

(** [numpy.isclose(a, b, rtol, atol)] on finite numbers:
    [|a - b| <= atol + rtol * |b|]. *)
Definition isclose (a b rtol atol : Q) : bool :=
  Qle_bool (Qabs (a - b)) (atol + rtol * Qabs b).

(** Default relative tolerance of [numpy.isclose]. *)
Definition default_rtol : Q := 1 # 100000.

(** Cast to a signed 32-bit integer, as the NetCDF [int32] variables do. *)
Definition to_int32 (z : Z) : Z := (z + 2 ^ 31) mod 2 ^ 32 - 2 ^ 31.

(** [sorted(a)] for a list of text. *)
Definition sorted (a : list string) : list string :=
  map (fun i => nth i a EmptyString) (argsort a).

(** [s.split(sep)] for a separator of one or more characters, scanning from
    the left; [skip] counts the characters of the current occurrence still to
    pass over. *)
Fixpoint split_on (sep : string) (skip : nat) (s : string) : list string :=
  match s with
  | EmptyString => [EmptyString]
  | String a s' =>
      match skip with
      | S k => split_on sep k s'
      | O =>
          if String.prefix sep s
          then EmptyString :: split_on sep (String.length sep - 1) s'
          else match split_on sep 0 s' with
               | w :: ws => String a w :: ws
               | [] => [String a EmptyString]
               end
      end
  end.

(** [os.path.split(p)[-1]] on a POSIX path: what follows the last slash. *)
Definition basename (p : string) : string := last (split "/" p) EmptyString.

(** [s.rfind(c)] for one character. *)
Fixpoint rfind_char (c : ascii) (s : string) : option nat :=
  match s with
  | EmptyString => None
  | String a s' =>
      match rfind_char c s' with
      | Some i => Some (S i)
      | None => if Ascii.eqb a c then Some O else None
      end
  end.

Fixpoint all_dots (s : string) : bool :=
  match s with
  | EmptyString => true
  | String a s' => Ascii.eqb a "." && all_dots s'
  end.

(** [os.path.splitext(p)[0]] on a name without directory part: the name up to
    its last dot, unless only dots come before that dot. *)
Definition splitext_root (p : string) : string :=
  match rfind_char "." p with
  | None => p
  | Some dot_index =>
      if all_dots (String.substring 0 dot_index p) then p
      else String.substring 0 dot_index p
  end.

End Py.

(** ** learning_examples_io.py *)

Module learning_examples_io.

Definition TOLERANCE : Q := 1 # 1000000.
Definition LARGE_INTEGER : Z := 10 ^ 11.

(** *** Example identifiers *)

Definition create_example_id (valid_time_unix_sec row_index column_index : Z)
    (check_args : bool) : result string :=
  _ <- (if check_args && (row_index <? 0)
        then Raises (ValueError "row_index") else Ok tt) ;;
  _ <- (if check_args && (column_index <? 0)
        then Raises (ValueError "column_index") else Ok tt) ;;
  Ok ("time" ++ Py.format_0d 10 valid_time_unix_sec ++
      "_row" ++ Py.format_0d 3 row_index ++
      "_column" ++ Py.format_0d 3 column_index)%string.

(** [zip] of three sequences, stopping at the shortest. *)
Fixpoint zip3 {A B C : Type} (a : list A) (b : list B) (c : list C) : list (A * B * C) :=
  match a, b, c with
  | x :: a', y :: b', z :: c' => (x, y, z) :: zip3 a' b' c'
  | _, _, _ => []
  end.

Definition create_example_ids (valid_times_unix_sec row_indices column_indices : list Z)
    : result (list string) :=
  let num_examples := List.length valid_times_unix_sec in
  _ <- (if forallb (fun r => 0 <=? r) row_indices
        then Ok tt else Raises (ValueError "row_indices")) ;;
  _ <- (if (List.length row_indices =? num_examples)%nat
        then Ok tt else Raises TypeError) ;;
  _ <- (if forallb (fun c => 0 <=? c) column_indices
        then Ok tt else Raises (ValueError "column_indices")) ;;
  _ <- (if (List.length column_indices =? num_examples)%nat
        then Ok tt else Raises TypeError) ;;
  mapM (fun '(t, r, c) => create_example_id t r c false)
       (zip3 valid_times_unix_sec row_indices column_indices).

Definition example_id_to_metadata (example_id_string : string) : result (Z * Z * Z) :=
  let words := Py.split "_" example_id_string in
  match words with
  | [w0; w1; w2] =>
      valid_time_unix_sec <- Py.int (Py.remove "time" w0) ;;
      row_index <- Py.int (Py.remove "row" w1) ;;
      column_index <- Py.int (Py.remove "column" w2) ;;
      Ok (valid_time_unix_sec, row_index, column_index)
  | _ => Raises AssertionError
  end.

(** Element-wise [a != b] on two string arrays. *)
Fixpoint differs (a b : list string) : list bool :=
  match a, b with
  | x :: a', y :: b' => negb (String.eqb x y) :: differs a' b'
  | _, _ => []
  end.

(** [a[flags]] with a boolean mask. *)
Fixpoint select {A : Type} (a : list A) (flags : list bool) : list A :=
  match a, flags with
  | x :: a', f :: flags' => if f then x :: select a' flags' else select a' flags'
  | _, _ => []
  end.

(** [a[flags] = v] with a boolean mask. *)
Fixpoint overwrite {A : Type} (a : list A) (flags : list bool) (v : A) : list A :=
  match a, flags with
  | x :: a', f :: flags' => (if f then v else x) :: overwrite a' flags' v
  | _, _ => a
  end.

Definition find_example_ids (all_id_strings desired_id_strings : list string)
    (allow_missing : bool) : result (list Z) :=
  let all_id_strings_unique := nodup string_dec all_id_strings in
  if negb (List.length all_id_strings_unique =? List.length all_id_strings)%nat
  then Raises (DuplicateIdsError (List.length all_id_strings)
                                 (List.length all_id_strings_unique))
  else
    let num_all := Z.of_nat (List.length all_id_strings) in
    let sort_indices := map Z.of_nat (Py.argsort all_id_strings) in
    sorted_id_strings <- Py.take all_id_strings sort_indices ;;
    let desired_subindices :=
      map (fun v => Z.of_nat (Py.searchsorted sorted_id_strings v))
          desired_id_strings in
    let desired_subindices :=
      map (fun i => if i <? 0 then 0 else i) desired_subindices in
    let desired_subindices :=
      map (fun i => if num_all <=? i then num_all - 1 else i) desired_subindices in
    desired_indices <- Py.take sort_indices desired_subindices ;;
    found_id_strings <- Py.take all_id_strings desired_indices ;;
    let missing_flags := differs found_id_strings desired_id_strings in
    if allow_missing then Ok (overwrite desired_indices missing_flags (-1))
    else if existsb (fun f => f) missing_flags
    then Raises (MissingIdsError (List.length (select desired_id_strings missing_flags))
                                 (List.length desired_id_strings)
                                 (select desired_id_strings missing_flags))
    else Ok desired_indices.

(** The triples are transposed with [zip] and unpacked into three names: an
    empty list of identifiers gives nothing to unpack. *)
Definition example_ids_to_metadata (example_id_strings : list string)
    : result (list Z * list Z * list Z) :=
  triples <- mapM example_id_to_metadata example_id_strings ;;
  match triples with
  | [] => Raises (ValueError "not enough values to unpack")
  | _ =>
      Ok (map (fun '(t, _, _) => t) triples,
          map (fun '(_, r, _) => r) triples,
          map (fun '(_, _, c) => c) triples)
  end.

(** *** File names *)

Definition PATHLESS_FILE_NAME_PREFIX : string := "downsized_3d_examples".
Definition TIME_FORMAT : string := "%Y%m%d%H".
Definition TIME_FORMAT_REGEX : string :=
  "[0-9][0-9][0-9][0-9][0-1][0-9][0-3][0-9][0-2][0-9]".
Definition BATCH_NUMBER_REGEX : string := "[0-9][0-9][0-9][0-9][0-9][0-9][0-9]".
Definition NUM_BATCHES_PER_DIRECTORY : Z := 1000.

Section FileNames.

(** The file system and the external collaborators of [time_conversion] and
    [number_rounding]. *)
Variable os_path_isfile : string -> bool.
Variable glob_glob : string -> list string.
Variable unix_sec_to_string : Z -> string -> result string.
Variable string_to_unix_sec : string -> string -> result Z.
Variable floor_to_nearest : Z -> Z -> Z.

Definition _file_name_to_times (example_file_name : string) : result (Z * Z) :=
  let pathless_file_name := Py.basename example_file_name in
  let extensionless_file_name := Py.splitext_root pathless_file_name in
  let valid_time_strings :=
    Py.split "-"
      (last (Py.split_on (PATHLESS_FILE_NAME_PREFIX ++ "_") 0 extensionless_file_name)
            EmptyString) in
  first_valid_time_unix_sec <-
    string_to_unix_sec (hd EmptyString valid_time_strings) TIME_FORMAT ;;
  last_valid_time_unix_sec <-
    string_to_unix_sec (last valid_time_strings EmptyString) TIME_FORMAT ;;
  Ok (first_valid_time_unix_sec, last_valid_time_unix_sec).

Definition _file_name_to_batch_number (example_file_name : string) : result Z :=
  let pathless_file_name := Py.basename example_file_name in
  let extensionless_file_name := Py.splitext_root pathless_file_name in
  let batch_string :=
    last (Py.split_on (PATHLESS_FILE_NAME_PREFIX ++ "_batch") 0 extensionless_file_name)
         EmptyString in
  match Py.int batch_string with
  | Ok batch_number => Ok batch_number
  | Raises _ => Raises (ValueError "Batch number cannot be parsed from file name")
  end.

Definition find_file (top_directory_name : string) (shuffled : bool)
    (first_valid_time_unix_sec last_valid_time_unix_sec batch_number : option Z)
    (raise_error_if_missing : bool) : result string :=
  example_file_name <-
    (if shuffled then
       match batch_number with
       | None => Raises TypeError
       | Some batch_number =>
           if batch_number <? 0 then Raises (ValueError "batch_number")
           else
             let first_batch_number :=
               floor_to_nearest batch_number NUM_BATCHES_PER_DIRECTORY in
             let last_batch_number :=
               first_batch_number + NUM_BATCHES_PER_DIRECTORY - 1 in
             Ok (top_directory_name ++ "/batches" ++
                 Py.format_0d 7 first_batch_number ++ "-" ++
                 Py.format_0d 7 last_batch_number ++ "/" ++
                 PATHLESS_FILE_NAME_PREFIX ++ "_batch" ++
                 Py.format_0d 7 batch_number ++ ".nc")%string
       end
     else
       match first_valid_time_unix_sec, last_valid_time_unix_sec with
       | Some first_time, Some last_time =>
           if last_time <? first_time
           then Raises (ValueError "last_valid_time_unix_sec")
           else
             first_string <- unix_sec_to_string first_time TIME_FORMAT ;;
             last_string <- unix_sec_to_string last_time TIME_FORMAT ;;
             Ok (top_directory_name ++ "/" ++ PATHLESS_FILE_NAME_PREFIX ++ "_" ++
                 first_string ++ "-" ++ last_string ++ ".nc")%string
       | _, _ => Raises TypeError
       end) ;;
  if raise_error_if_missing && negb (os_path_isfile example_file_name)
  then Raises (ValueError "Cannot find file")
  else Ok example_file_name.

Definition find_many_files (top_directory_name : string) (shuffled : bool)
    (first_valid_time_unix_sec last_valid_time_unix_sec
     first_batch_number last_batch_number : option Z) : result (list string) :=
  example_file_pattern <-
    (if shuffled then
       match first_batch_number, last_batch_number with
       | Some first_batch, Some last_batch =>
           if first_batch <? 0 then Raises (ValueError "first_batch_number")
           else if last_batch <? first_batch
           then Raises (ValueError "last_batch_number")
           else Ok (top_directory_name ++ "/batches" ++ BATCH_NUMBER_REGEX ++ "-" ++
                    BATCH_NUMBER_REGEX ++ "/" ++ PATHLESS_FILE_NAME_PREFIX ++
                    "_batch" ++ BATCH_NUMBER_REGEX ++ ".nc")%string
       | _, _ => Raises TypeError
       end
     else
       match first_valid_time_unix_sec, last_valid_time_unix_sec with
       | Some first_time, Some last_time =>
           if last_time <? first_time
           then Raises (ValueError "last_valid_time_unix_sec")
           else Ok (top_directory_name ++ "/" ++ PATHLESS_FILE_NAME_PREFIX ++ "_" ++
                    TIME_FORMAT_REGEX ++ "-" ++ TIME_FORMAT_REGEX ++ ".nc")%string
       | _, _ => Raises TypeError
       end) ;;
  let example_file_names := glob_glob example_file_pattern in
  if (List.length example_file_names =? 0)%nat
  then Raises (ValueError "Cannot find any files with the pattern")
  else if shuffled then
    let first_batch := match first_batch_number with Some b => b | None => 0 end in
    let last_batch := match last_batch_number with Some b => b | None => 0 end in
    batch_numbers <- mapM _file_name_to_batch_number example_file_names ;;
    let good_indices :=
      Py.where_ (map (fun b => (first_batch <=? b) && (b <=? last_batch))
                     batch_numbers) in
    if (List.length good_indices =? 0)%nat
    then Raises (ValueError "Cannot find any files with batch number in range")
    else Py.take example_file_names good_indices
  else
    let first_time := match first_valid_time_unix_sec with Some t => t | None => 0 end in
    let last_time := match last_valid_time_unix_sec with Some t => t | None => 0 end in
    let example_file_names := Py.sorted example_file_names in
    file_start_times_unix_sec <-
      mapM (fun f => '(t, _) <- _file_name_to_times f ;; Ok t) example_file_names ;;
    file_end_times_unix_sec <-
      mapM (fun f => '(_, t) <- _file_name_to_times f ;; Ok t) example_file_names ;;
    let good_indices :=
      Py.where_ (map (fun '(start_time, end_time) =>
                        negb ((last_time <? start_time) || (end_time <? first_time)))
                     (combine file_start_times_unix_sec file_end_times_unix_sec)) in
    if (List.length good_indices =? 0)%nat
    then Raises (ValueError "Cannot find any files with target time in range")
    else Py.take example_file_names good_indices.

End FileNames.

(** *** The example dictionary

    One field per dictionary key.  The four tensor keys are absent from a
    dictionary read with [metadata_only]; looking one up then raises
    [KeyError]. *)

Section Store.

(** Float payloads and the cast to 32 bits done by [float32] variables. *)
Context {F : Type}.
Variable to_float32 : F -> F.


(** Constants of [machine_learning_utils] and [predictor_utils]. *)
Variable Z_SCORE_STRING : string.
Variable MINMAX_STRING : string.
Variable HEIGHT_NAME : string.
Variable DUMMY_SURFACE_PRESSURE_MB : Z.

(** One predictor grid: rows x columns x channels. *)
Definition image : Type := list (list (list F)).

Record example_dict : Type := {
  predictor_matrix : option (list image);
  target_matrix : option (list (list Z));
  target_times_unix_sec : list Z;
  row_indices : list Z;
  column_indices : list Z;
  narr_predictor_names : list string;
  pressure_levels_mb : list Z;
  dilation_distance_metres : Q;
  narr_mask_matrix : list (list Z);
  normalization_type_string : string;
  first_normalization_param_matrix : option (list (list F));
  second_normalization_param_matrix : option (list (list F))
}.

Definition get {A : Type} (key : string) (field : option A) : result A :=
  match field with
  | Some a => Ok a
  | None => Raises (KeyError key)
  end.

Definition PREDICTOR_MATRIX_KEY := "predictor_matrix".
Definition TARGET_MATRIX_KEY := "target_matrix".
Definition FIRST_NORM_PARAM_KEY := "first_normalization_param_matrix".
Definition SECOND_NORM_PARAM_KEY := "second_normalization_param_matrix".
Definition NORMALIZATION_TYPE_KEY := "normalization_type_string".

(** *** The NetCDF file

    File-level schema, the fixed dimensions, and the records of the unlimited
    [example] dimension.  Every example-indexed variable has one cell per
    record, so the seven variables always have the same number of rows. *)

Record nc_record : Type := {
  rec_predictor : image;
  rec_target : list Z;
  rec_valid_time : Z;
  rec_row_index : Z;
  rec_column_index : Z;
  rec_first_norm_param : list F;
  rec_second_norm_param : list F
}.

(** The sizes of the fixed dimensions, under their NetCDF names. *)
Record dimensions : Type := {
  narr_row : nat;
  narr_column : nat;
  example_row : nat;
  example_column : nat;
  predictor_variable : nat;
  predictor_variable_char : nat;
  class_dimension : nat
}.

Record dataset : Type := {
  nc_dilation_distance_metres : Q;
  nc_normalization_type_string : option string;
  nc_narr_predictor_names : list string;
  nc_pressure_levels_mb : list Z;
  nc_narr_mask_matrix : list (list Z);
  nc_dimensions : dimensions;
  nc_records : list nc_record
}.

Definition NC_FILL_INT : Z := -2147483647.

(** A record none of whose cells has been written.  The shape of the unwritten
    predictor and parameter cells is that of the file's fixed dimensions, of
    which only the fill content matters here. *)
Variable fill_image : image.
Variable fill_target : list Z.
Variable fill_params : list F.

Definition fill_record : nc_record :=
  {| rec_predictor := fill_image;
     rec_target := fill_target;
     rec_valid_time := NC_FILL_INT;
     rec_row_index := NC_FILL_INT;
     rec_column_index := NC_FILL_INT;
     rec_first_norm_param := fill_params;
     rec_second_norm_param := fill_params |}.

Definition set_predictor (v : image) (r : nc_record) : nc_record :=
  {| rec_predictor := map (map (map to_float32)) v;
     rec_target := rec_target r;
     rec_valid_time := rec_valid_time r;
     rec_row_index := rec_row_index r;
     rec_column_index := rec_column_index r;
     rec_first_norm_param := rec_first_norm_param r;
     rec_second_norm_param := rec_second_norm_param r |}.

Definition set_target (v : list Z) (r : nc_record) : nc_record :=
  {| rec_predictor := rec_predictor r;
     rec_target := map Py.to_int32 v;
     rec_valid_time := rec_valid_time r;
     rec_row_index := rec_row_index r;
     rec_column_index := rec_column_index r;
     rec_first_norm_param := rec_first_norm_param r;
     rec_second_norm_param := rec_second_norm_param r |}.

Definition set_valid_time (v : Z) (r : nc_record) : nc_record :=
  {| rec_predictor := rec_predictor r;
     rec_target := rec_target r;
     rec_valid_time := Py.to_int32 v;
     rec_row_index := rec_row_index r;
     rec_column_index := rec_column_index r;
     rec_first_norm_param := rec_first_norm_param r;
     rec_second_norm_param := rec_second_norm_param r |}.

Definition set_row_index (v : Z) (r : nc_record) : nc_record :=
  {| rec_predictor := rec_predictor r;
     rec_target := rec_target r;
     rec_valid_time := rec_valid_time r;
     rec_row_index := Py.to_int32 v;
     rec_column_index := rec_column_index r;
     rec_first_norm_param := rec_first_norm_param r;
     rec_second_norm_param := rec_second_norm_param r |}.

Definition set_column_index (v : Z) (r : nc_record) : nc_record :=
  {| rec_predictor := rec_predictor r;
     rec_target := rec_target r;
     rec_valid_time := rec_valid_time r;
     rec_row_index := rec_row_index r;
     rec_column_index := Py.to_int32 v;
     rec_first_norm_param := rec_first_norm_param r;
     rec_second_norm_param := rec_second_norm_param r |}.

Definition set_first_norm_param (v : list F) (r : nc_record) : nc_record :=
  {| rec_predictor := rec_predictor r;
     rec_target := rec_target r;
     rec_valid_time := rec_valid_time r;
     rec_row_index := rec_row_index r;
     rec_column_index := rec_column_index r;
     rec_first_norm_param := map to_float32 v;
     rec_second_norm_param := rec_second_norm_param r |}.

Definition set_second_norm_param (v : list F) (r : nc_record) : nc_record :=
  {| rec_predictor := rec_predictor r;
     rec_target := rec_target r;
     rec_valid_time := rec_valid_time r;
     rec_row_index := rec_row_index r;
     rec_column_index := rec_column_index r;
     rec_first_norm_param := rec_first_norm_param r;
     rec_second_norm_param := map to_float32 v |}.

(** Cell-wise store of [data] into consecutive records. *)
Fixpoint store_cells {A : Type} (set : A -> nc_record -> nc_record)
    (data : list A) (records : list nc_record) : list nc_record :=
  match data, records with
  | v :: data', r :: records' => set v r :: store_cells set data' records'
  | _, _ => records
  end.

(** [array.shape[1:]] of an array in list form, read off its first cell.  An
    array without a first cell, or whose first cell is empty along an axis,
    does not show the sizes of its inner axes. *)
Definition image_shape (img : image) : option (nat * nat * nat) :=
  match img with
  | (channels :: _) as row :: _ =>
      Some (List.length img, List.length row, List.length channels)
  | _ => None
  end.

Definition predictor_shape (predictor_matrix : list image)
    : option (nat * nat * nat) :=
  match predictor_matrix with
  | img :: _ => image_shape img
  | [] => None
  end.

Definition class_count (target_matrix : list (list Z)) : option nat :=
  match target_matrix with
  | row :: _ => Some (List.length row)
  | [] => None
  end.

Definition mask_shape (mask : list (list Z)) : option (nat * nat) :=
  match mask with
  | (_ :: _) as row :: _ => Some (List.length mask, List.length row)
  | _ => None
  end.

(** The cell has the shape the fixed dimensions give the variable. *)
Definition has_length {A : Type} (n : nat) (cell : list A) : bool :=
  (List.length cell =? n)%nat.

Definition has_image_shape (num_rows num_columns num_channels : nat) (img : image)
    : bool :=
  has_length num_rows img &&
  forallb (fun row => has_length num_columns row &&
                      forallb (has_length num_channels) row) img.

(** netCDF4 itself, where the source leaves the outcome to it.  An array
    assigned to a slice whose shape it has not is reshaped or broadcast by the
    library, or refused, depending on the library's version: [fit_*] gives the
    cell each record of the slice then receives, from the sizes of the fixed
    dimensions of the variable, the number of records of the slice and the
    array.  [create_irregular] is the creation of a file from arrays whose
    list form does not give every dimension a positive size, or whose name,
    level and mask arrays do not fit these sizes. *)
Record netcdf4 : Type := {
  fit_predictor : nat -> nat -> nat -> nat -> list image -> result (nat -> image);
  fit_target : nat -> nat -> list (list Z) -> result (nat -> list Z);
  fit_index : nat -> list Z -> result (nat -> Z);
  fit_params : nat -> nat -> list (list F) -> result (nat -> list F);
  create_irregular : example_dict -> result dataset
}.

Variable library : netcdf4.

(** The cells that a slice of [count] records receives from [data]: the array
    itself when it has the shape of the slice, what the library makes of it
    otherwise. *)
Definition fitted {A : Type} (conforms : A -> bool)
    (fit : nat -> list A -> result (nat -> A)) (count : nat) (data : list A)
    : result (list A) :=
  if (List.length data =? count)%nat && forallb conforms data then Ok data
  else cell <- fit count data ;; Ok (map cell (seq 0 count)).

(** [variable[start:start + count, ...] = data] on a variable of the unlimited
    dimension.  The dimension grows to [start + count] records when it is
    shorter; cells of the other variables in the new records stay unwritten. *)
Definition assign_slice {A : Type} (set : A -> nc_record -> nc_record)
    (conforms : A -> bool) (fit : nat -> list A -> result (nat -> A))
    (start count : nat) (data : list A) (records : list nc_record)
    : result (list nc_record) :=
  cells <- fitted conforms fit count data ;;
  let grown :=
    records ++ repeat fill_record (start + count - List.length records) in
  Ok (firstn start grown ++ store_cells set cells (skipn start grown)).

(** [variable[:] = data] on a variable of the unlimited dimension of a file
    just created: the first axis is taken from the data. *)
Definition assign_all {A : Type} (set : A -> nc_record -> nc_record)
    (conforms : A -> bool) (fit : nat -> list A -> result (nat -> A))
    (data : list A) (records : list nc_record) : result (list nc_record) :=
  assign_slice set conforms fit 0 (List.length data) data records.

(** *** write_file *)

Fixpoint list_eqb {A : Type} (eqb : A -> A -> bool) (a b : list A) : bool :=
  match a, b with
  | [], [] => true
  | x :: a', y :: b' => eqb x y && list_eqb eqb a' b'
  | _, _ => false
  end.

(** [getattr(dataset_object, NORMALIZATION_TYPE_KEY)]. *)
Definition getattr_normalization_type (dataset_object : dataset) : result string :=
  match nc_normalization_type_string dataset_object with
  | Some s => Ok s
  | None => Raises (AttributeError NORMALIZATION_TYPE_KEY)
  end.

(** The shape tests and the library's part for each kind of variable. *)
Definition conforms_predictor (dims : dimensions) : image -> bool :=
  has_image_shape (example_row dims) (example_column dims) (predictor_variable dims).

Definition conforms_target (dims : dimensions) : list Z -> bool :=
  has_length (class_dimension dims).

Definition conforms_index (_ : Z) : bool := true.

Definition conforms_params (dims : dimensions) : list F -> bool :=
  has_length (predictor_variable dims).

Definition library_predictor (dims : dimensions) :=
  fit_predictor library (example_row dims) (example_column dims)
    (predictor_variable dims).

Definition library_target (dims : dimensions) :=
  fit_target library (class_dimension dims).

Definition library_params (dims : dimensions) :=
  fit_params library (predictor_variable dims).

(** The body of [for this_key in MAIN_KEYS], in the order of [MAIN_KEYS]. *)
Definition write_main_keys (dims : dimensions) (d : example_dict)
    (start count : nat) (records : list nc_record) : result (list nc_record) :=
  v <- get PREDICTOR_MATRIX_KEY (predictor_matrix d) ;;
  records <- assign_slice set_predictor (conforms_predictor dims)
               (library_predictor dims) start count v records ;;
  v <- get TARGET_MATRIX_KEY (target_matrix d) ;;
  records <- assign_slice set_target (conforms_target dims) (library_target dims)
               start count v records ;;
  records <- assign_slice set_valid_time conforms_index (fit_index library)
               start count (target_times_unix_sec d) records ;;
  records <- assign_slice set_row_index conforms_index (fit_index library)
               start count (row_indices d) records ;;
  records <- assign_slice set_column_index conforms_index (fit_index library)
               start count (column_indices d) records ;;
  v <- get FIRST_NORM_PARAM_KEY (first_normalization_param_matrix d) ;;
  records <- assign_slice set_first_norm_param (conforms_params dims)
               (library_params dims) start count v records ;;
  v <- get SECOND_NORM_PARAM_KEY (second_normalization_param_matrix d) ;;
  assign_slice set_second_norm_param (conforms_params dims) (library_params dims)
    start count v records.

(** [for j in range(num_predictors)]: the longest of the first
    [num_predictors] names, at least one character. *)
Fixpoint longest_name (js : list Z) (names : list string)
    (num_predictor_chars : nat) : result nat :=
  match js with
  | [] => Ok num_predictor_chars
  | j :: js' =>
      name <- Py.index names j ;;
      longest_name js' names (Nat.max num_predictor_chars (String.length name))
  end.

(** The example-indexed variables of a new file, in the order the source
    fills them. *)
Definition create_main_variables (dims : dimensions) (d : example_dict)
    (predictor : list image) (target : list (list Z)) : result (list nc_record) :=
  records <- assign_all set_predictor (conforms_predictor dims)
               (library_predictor dims) predictor [] ;;
  records <- assign_all set_target (conforms_target dims) (library_target dims)
               target records ;;
  records <- assign_all set_valid_time conforms_index (fit_index library)
               (target_times_unix_sec d) records ;;
  records <- assign_all set_row_index conforms_index (fit_index library)
               (row_indices d) records ;;
  records <- assign_all set_column_index conforms_index (fit_index library)
               (column_indices d) records ;;
  v <- get FIRST_NORM_PARAM_KEY (first_normalization_param_matrix d) ;;
  records <- assign_all set_first_norm_param (conforms_params dims)
               (library_params dims) v records ;;
  v <- get SECOND_NORM_PARAM_KEY (second_normalization_param_matrix d) ;;
  assign_all set_second_norm_param (conforms_params dims) (library_params dims)
    v records.

(** The name, level and mask arrays fill the variables that the dimensions
    give them, and no dimension has size zero. *)
Definition fits_dimensions (dims : dimensions) (d : example_dict) : bool :=
  (0 <? predictor_variable dims)%nat && (0 <? class_dimension dims)%nat &&
  has_length (predictor_variable dims) (narr_predictor_names d) &&
  has_length (predictor_variable dims) (pressure_levels_mb d) &&
  forallb (has_length (narr_column dims)) (narr_mask_matrix d).

(** [existing] is the content of the file at [netcdf_file_name], if there is
    one.  The result is the content of the file after the call. *)
Definition write_file (existing : option dataset) (d : example_dict)
    (append_to_file : bool) : result dataset :=
  if append_to_file then
    match existing with
    | None => Raises (ExternalError "netCDF4.Dataset")
    | Some dataset_object =>
        let orig_dilation_distance_metres :=
          nc_dilation_distance_metres dataset_object in
        _ <- assert (Py.isclose orig_dilation_distance_metres
                       (dilation_distance_metres d) Py.default_rtol TOLERANCE) ;;
        orig_norm_type_string <- getattr_normalization_type dataset_object ;;
        _ <- assert (String.eqb orig_norm_type_string (normalization_type_string d)) ;;
        let orig_pressure_levels_mb := nc_pressure_levels_mb dataset_object in
        _ <- assert (list_eqb Z.eqb orig_pressure_levels_mb (pressure_levels_mb d)) ;;
        let orig_predictor_names := nc_narr_predictor_names dataset_object in
        _ <- assert (list_eqb String.eqb orig_predictor_names (narr_predictor_names d)) ;;
        let orig_narr_mask_matrix := nc_narr_mask_matrix dataset_object in
        _ <- assert (list_eqb (list_eqb Z.eqb) orig_narr_mask_matrix (narr_mask_matrix d)) ;;
        let num_examples_orig :=
          List.length (map rec_valid_time (nc_records dataset_object)) in
        let num_examples_to_add := List.length (target_times_unix_sec d) in
        records <- write_main_keys (nc_dimensions dataset_object) d
                     num_examples_orig num_examples_to_add
                     (nc_records dataset_object) ;;
        Ok {| nc_dilation_distance_metres := nc_dilation_distance_metres dataset_object;
              nc_normalization_type_string := nc_normalization_type_string dataset_object;
              nc_narr_predictor_names := nc_narr_predictor_names dataset_object;
              nc_pressure_levels_mb := nc_pressure_levels_mb dataset_object;
              nc_narr_mask_matrix := nc_narr_mask_matrix dataset_object;
              nc_dimensions := nc_dimensions dataset_object;
              nc_records := records |}
    end
  else
    target <- get TARGET_MATRIX_KEY (target_matrix d) ;;
    predictor <- get PREDICTOR_MATRIX_KEY (predictor_matrix d) ;;
    match predictor_shape predictor with
    | None => create_irregular library d
    | Some (num_rows_per_example, num_columns_per_example, num_predictors) =>
        num_predictor_chars <-
          longest_name (map Z.of_nat (seq 0 num_predictors))
            (narr_predictor_names d) 1 ;;
        match class_count target, mask_shape (narr_mask_matrix d) with
        | Some num_classes, Some (num_narr_rows, num_narr_columns) =>
            let dims :=
              {| narr_row := num_narr_rows;
                 narr_column := num_narr_columns;
                 example_row := num_rows_per_example;
                 example_column := num_columns_per_example;
                 predictor_variable := num_predictors;
                 predictor_variable_char := num_predictor_chars;
                 class_dimension := num_classes |} in
            if fits_dimensions dims d then
              records <- create_main_variables dims d predictor target ;;
              Ok {| nc_dilation_distance_metres := dilation_distance_metres d;
                    nc_normalization_type_string :=
                      Some (normalization_type_string d);
                    nc_narr_predictor_names := narr_predictor_names d;
                    nc_pressure_levels_mb := map Py.to_int32 (pressure_levels_mb d);
                    nc_narr_mask_matrix :=
                      map (map Py.to_int32) (narr_mask_matrix d);
                    nc_dimensions := dims;
                    nc_records := records |}
            else create_irregular library d
        | _, _ => create_irregular library d
        end
    end.

(** *** Reading *)

(** Normalization parameters as [machine_learning_utils] passes them around:
    a dictionary of four matrices, of which two are in use. *)
Record normalization_dict : Type := {
  min_value_matrix : option (list (list F));
  max_value_matrix : option (list (list F));
  mean_value_matrix : option (list (list F));
  stdev_matrix : option (list (list F))
}.

(** External collaborators of [machine_learning_utils]. *)
Variable denormalize_predictors_nonglobal :
  list image -> normalization_dict -> result (list image).
Variable normalize_predictors_global :
  list image -> list string -> list Z -> string ->
  result (list image * normalization_dict).
Variable normalize_predictors_nonglobal :
  list image -> string -> result (list image * normalization_dict).

(** [downsize_grids_around_selected_points] applied to the static orography
    grid: row indices, column indices, half-window sizes. *)
Variable downsize_orography :
  list Z -> list Z -> Z -> Z -> result (list image).

Definition with_predictor_matrix (d : example_dict) (v : list image) : example_dict :=
  {| predictor_matrix := Some v;
     target_matrix := target_matrix d;
     target_times_unix_sec := target_times_unix_sec d;
     row_indices := row_indices d;
     column_indices := column_indices d;
     narr_predictor_names := narr_predictor_names d;
     pressure_levels_mb := pressure_levels_mb d;
     dilation_distance_metres := dilation_distance_metres d;
     narr_mask_matrix := narr_mask_matrix d;
     normalization_type_string := normalization_type_string d;
     first_normalization_param_matrix := first_normalization_param_matrix d;
     second_normalization_param_matrix := second_normalization_param_matrix d |}.

Definition with_normalization (d : example_dict) (type_string : string)
    (first second : list (list F)) : example_dict :=
  {| predictor_matrix := predictor_matrix d;
     target_matrix := target_matrix d;
     target_times_unix_sec := target_times_unix_sec d;
     row_indices := row_indices d;
     column_indices := column_indices d;
     narr_predictor_names := narr_predictor_names d;
     pressure_levels_mb := pressure_levels_mb d;
     dilation_distance_metres := dilation_distance_metres d;
     narr_mask_matrix := narr_mask_matrix d;
     normalization_type_string := type_string;
     first_normalization_param_matrix := Some first;
     second_normalization_param_matrix := Some second |}.

Definition with_channels (d : example_dict) (names : list string)
    (levels : list Z) : example_dict :=
  {| predictor_matrix := predictor_matrix d;
     target_matrix := target_matrix d;
     target_times_unix_sec := target_times_unix_sec d;
     row_indices := row_indices d;
     column_indices := column_indices d;
     narr_predictor_names := names;
     pressure_levels_mb := levels;
     dilation_distance_metres := dilation_distance_metres d;
     narr_mask_matrix := narr_mask_matrix d;
     normalization_type_string := normalization_type_string d;
     first_normalization_param_matrix := first_normalization_param_matrix d;
     second_normalization_param_matrix := second_normalization_param_matrix d |}.

Definition _read_specific_examples (netcdf_dataset_object : dataset)
    (metadata_only : bool) (indices_to_keep : list Z) : result example_dict :=
  let records := nc_records netcdf_dataset_object in
  times <- Py.take (map rec_valid_time records) indices_to_keep ;;
  rows <- Py.take (map rec_row_index records) indices_to_keep ;;
  columns <- Py.take (map rec_column_index records) indices_to_keep ;;
  let normalization_type_string :=
    match nc_normalization_type_string netcdf_dataset_object with
    | Some s => s
    | None => Z_SCORE_STRING
    end in
  let example_dict :=
    {| predictor_matrix := None;
       target_matrix := None;
       target_times_unix_sec := times;
       row_indices := rows;
       column_indices := columns;
       narr_predictor_names := nc_narr_predictor_names netcdf_dataset_object;
       pressure_levels_mb := nc_pressure_levels_mb netcdf_dataset_object;
       dilation_distance_metres := nc_dilation_distance_metres netcdf_dataset_object;
       narr_mask_matrix := nc_narr_mask_matrix netcdf_dataset_object;
       normalization_type_string := normalization_type_string;
       first_normalization_param_matrix := None;
       second_normalization_param_matrix := None |} in
  if metadata_only then Ok example_dict
  else
    first <- Py.take (map rec_first_norm_param records) indices_to_keep ;;
    second <- Py.take (map rec_second_norm_param records) indices_to_keep ;;
    predictor <- Py.take (map rec_predictor records) indices_to_keep ;;
    target <- Py.take (map rec_target records) indices_to_keep ;;
    Ok {| predictor_matrix := Some predictor;
          target_matrix := Some target;
          target_times_unix_sec := times;
          row_indices := rows;
          column_indices := columns;
          narr_predictor_names := nc_narr_predictor_names netcdf_dataset_object;
          pressure_levels_mb := nc_pressure_levels_mb netcdf_dataset_object;
          dilation_distance_metres := nc_dilation_distance_metres netcdf_dataset_object;
          narr_mask_matrix := nc_narr_mask_matrix netcdf_dataset_object;
          normalization_type_string := normalization_type_string;
          first_normalization_param_matrix := Some first;
          second_normalization_param_matrix := Some second |}.

(** [predictor_matrix.shape[1]] and [predictor_matrix.shape[2]] of a
    rectangular array with at least one example. *)
Definition shape1 (predictor_matrix : list image) : Z :=
  match predictor_matrix with
  | img :: _ => Z.of_nat (List.length img)
  | [] => 0
  end.

Definition shape2 (predictor_matrix : list image) : Z :=
  match predictor_matrix with
  | (row :: _) :: _ => Z.of_nat (List.length row)
  | _ => 0
  end.

Definition _shrink_predictor_grid (predictor_matrix : list image)
    (num_half_rows num_half_columns : option Z) : result (list image) :=
  predictor_matrix <-
    match num_half_rows with
    | None => Ok predictor_matrix
    | Some num_half_rows =>
        if num_half_rows <=? 0 then Raises (ValueError "num_half_rows")
        else
          let center_row_index := shape1 predictor_matrix / 2 in
          let first_row_index := center_row_index - num_half_rows in
          let last_row_index := center_row_index + num_half_rows in
          Ok (map (fun img => Py.slice img first_row_index (last_row_index + 1))
                  predictor_matrix)
    end ;;
  match num_half_columns with
  | None => Ok predictor_matrix
  | Some num_half_columns =>
      if num_half_columns <=? 0 then Raises (ValueError "num_half_columns")
      else
        let center_column_index := shape2 predictor_matrix / 2 in
        let first_column_index := center_column_index - num_half_columns in
        let last_column_index := center_column_index + num_half_columns in
        Ok (map (map (fun row =>
                        Py.slice row first_column_index (last_column_index + 1)))
                predictor_matrix)
  end.

(** [numpy.concatenate((a, b), axis=-1)]: the leading axes must agree. *)
Fixpoint zip_with_m {A B C : Type} (f : A -> B -> result C) (a : list A)
    (b : list B) : result (list C) :=
  match a, b with
  | [], [] => Ok []
  | x :: a', y :: b' => z <- f x y ;; rest <- zip_with_m f a' b' ;; Ok (z :: rest)
  | _, _ => Raises ShapeError
  end.

Definition concatenate_last_2d {A : Type} (a b : list (list A)) : result (list (list A)) :=
  zip_with_m (fun x y => Ok (x ++ y)) a b.

Definition concatenate_last_4d (a b : list image) : result (list image) :=
  zip_with_m (zip_with_m concatenate_last_2d) a b.

Definition _add_orography_to_examples (d : example_dict)
    (normalization_file_name : option string) : result example_dict :=
  predictor <- get PREDICTOR_MATRIX_KEY (predictor_matrix d) ;;
  let num_half_rows := shape1 predictor / 2 in
  let num_half_columns := shape2 predictor / 2 in
  orography_matrix_m_asl <-
    downsize_orography (row_indices d) (column_indices d)
      num_half_rows num_half_columns ;;
  let norm_type_string := normalization_type_string d in
  let dummy_pressure_levels_mb := [DUMMY_SURFACE_PRESSURE_MB] in
  '(orography_matrix_m_asl, orography_norm_dict) <-
    match normalization_file_name with
    | None => normalize_predictors_nonglobal orography_matrix_m_asl norm_type_string
    | Some file_name =>
        normalize_predictors_global orography_matrix_m_asl [HEIGHT_NAME]
          dummy_pressure_levels_mb file_name
    end ;;
  '(first, second) <-
    (if String.eqb norm_type_string Z_SCORE_STRING then
       a <- get FIRST_NORM_PARAM_KEY (first_normalization_param_matrix d) ;;
       b <- get "mean_value_matrix" (mean_value_matrix orography_norm_dict) ;;
       first <- concatenate_last_2d a b ;;
       a <- get SECOND_NORM_PARAM_KEY (second_normalization_param_matrix d) ;;
       b <- get "stdev_matrix" (stdev_matrix orography_norm_dict) ;;
       second <- concatenate_last_2d a b ;;
       Ok (first, second)
     else
       a <- get FIRST_NORM_PARAM_KEY (first_normalization_param_matrix d) ;;
       b <- get "min_value_matrix" (min_value_matrix orography_norm_dict) ;;
       first <- concatenate_last_2d a b ;;
       a <- get SECOND_NORM_PARAM_KEY (second_normalization_param_matrix d) ;;
       b <- get "max_value_matrix" (max_value_matrix orography_norm_dict) ;;
       second <- concatenate_last_2d a b ;;
       Ok (first, second)) ;;
  predictor <- concatenate_last_4d predictor orography_matrix_m_asl ;;
  Ok (with_channels
        (with_predictor_matrix (with_normalization d norm_type_string first second)
           predictor)
        (narr_predictor_names d ++ [HEIGHT_NAME])
        (pressure_levels_mb d ++ dummy_pressure_levels_mb)).

(** [numpy.where(all_names == n and all_levels == l)[0][0]]. *)
Definition find_channel (all_predictor_names : list string)
    (all_pressure_levels_mb : list Z) (n : string) (l : Z) : result Z :=
  match Py.where_ (map (fun '(an, al) => String.eqb an n && (al =? l))
                       (combine all_predictor_names all_pressure_levels_mb)) with
  | k :: _ => Ok k
  | [] => Raises IndexError
  end.

Definition _subset_channels (d : example_dict) (metadata_only : bool)
    (predictor_names : list string) (pressure_levels_mb_to_keep : list Z)
    (normalization_file_name : option string) : result example_dict :=
  let num_channels := List.length predictor_names in
  _ <- (if (List.length pressure_levels_mb_to_keep =? num_channels)%nat
        then Ok tt else Raises TypeError) ;;
  let orography_flags :=
    map (fun '(n, l) => String.eqb n HEIGHT_NAME && (l =? DUMMY_SURFACE_PRESSURE_MB))
        (combine predictor_names pressure_levels_mb_to_keep) in
  let add_orography := existsb (fun f => f) orography_flags in
  let predictor_names :=
    if add_orography then select predictor_names (map negb orography_flags)
    else predictor_names in
  let pressure_levels_mb_to_keep :=
    if add_orography then select pressure_levels_mb_to_keep (map negb orography_flags)
    else pressure_levels_mb_to_keep in
  let all_predictor_names := narr_predictor_names d in
  let all_pressure_levels_mb := pressure_levels_mb d in
  indices_to_keep <-
    mapM (fun '(n, l) => find_channel all_predictor_names all_pressure_levels_mb n l)
         (combine predictor_names pressure_levels_mb_to_keep) ;;
  names <- Py.take (narr_predictor_names d) indices_to_keep ;;
  levels <- Py.take (pressure_levels_mb d) indices_to_keep ;;
  let d := with_channels d names levels in
  if metadata_only then
    if add_orography
    then Ok (with_channels d (names ++ [HEIGHT_NAME])
                           (levels ++ [DUMMY_SURFACE_PRESSURE_MB]))
    else Ok d
  else
    predictor <- get PREDICTOR_MATRIX_KEY (predictor_matrix d) ;;
    predictor <-
      mapM (mapM (mapM (fun channels => Py.take channels indices_to_keep))) predictor ;;
    let d := with_predictor_matrix d predictor in
    first <- get FIRST_NORM_PARAM_KEY (first_normalization_param_matrix d) ;;
    first <- mapM (fun params => Py.take params indices_to_keep) first ;;
    second <- get SECOND_NORM_PARAM_KEY (second_normalization_param_matrix d) ;;
    second <- mapM (fun params => Py.take params indices_to_keep) second ;;
    let d := with_normalization d (normalization_type_string d) first second in
    if negb add_orography then Ok d
    else _add_orography_to_examples d normalization_file_name.

Definition denormalize_examples (d : example_dict) : result example_dict :=
  first <- get FIRST_NORM_PARAM_KEY (first_normalization_param_matrix d) ;;
  second <- get SECOND_NORM_PARAM_KEY (second_normalization_param_matrix d) ;;
  let normalization_dict :=
    if String.eqb (normalization_type_string d) Z_SCORE_STRING then
      {| min_value_matrix := None; max_value_matrix := None;
         mean_value_matrix := Some first; stdev_matrix := Some second |}
    else
      {| min_value_matrix := Some first; max_value_matrix := Some second;
         mean_value_matrix := None; stdev_matrix := None |} in
  predictor <- get PREDICTOR_MATRIX_KEY (predictor_matrix d) ;;
  predictor <- denormalize_predictors_nonglobal predictor normalization_dict ;;
  Ok (with_predictor_matrix d predictor).

(** The result is [None] where the source returns [None]. *)
Definition read_file (dataset_object : dataset) (metadata_only : bool)
    (predictor_names_to_keep : option (list string))
    (pressure_levels_to_keep_mb : option (list Z))
    (num_half_rows_to_keep num_half_columns_to_keep : option Z)
    (id_strings_to_keep : option (list string))
    (first_time_to_keep_unix_sec last_time_to_keep_unix_sec : option Z)
    (normalization_file_name : option string) : result (option example_dict) :=
  let records := nc_records dataset_object in
  good_example_indices <-
    match id_strings_to_keep with
    | None =>
        let first_time_to_keep_unix_sec :=
          match first_time_to_keep_unix_sec with Some t => t | None => 0 end in
        let last_time_to_keep_unix_sec :=
          match last_time_to_keep_unix_sec with Some t => t | None => LARGE_INTEGER end in
        if last_time_to_keep_unix_sec <? first_time_to_keep_unix_sec
        then Raises (ValueError "last_time_to_keep_unix_sec")
        else
          let valid_times_unix_sec := map rec_valid_time records in
          Ok (Py.where_
                (map (fun t => (first_time_to_keep_unix_sec <=? t) &&
                               (t <=? last_time_to_keep_unix_sec))
                     valid_times_unix_sec))
    | Some id_strings_to_keep =>
        all_id_strings <-
          create_example_ids (map rec_valid_time records)
            (map rec_row_index records) (map rec_column_index records) ;;
        find_example_ids all_id_strings id_strings_to_keep false
    end ;;
  if (List.length good_example_indices =? 0)%nat then Ok None
  else
    example_dict <-
      _read_specific_examples dataset_object metadata_only good_example_indices ;;
    example_dict <-
      (if metadata_only then Ok example_dict
       else
         predictor <- get PREDICTOR_MATRIX_KEY (predictor_matrix example_dict) ;;
         predictor <-
           _shrink_predictor_grid predictor num_half_rows_to_keep
             num_half_columns_to_keep ;;
         let example_dict := with_predictor_matrix example_dict predictor in
         match normalization_file_name with
         | None => Ok example_dict
         | Some file_name =>
             example_dict <- denormalize_examples example_dict ;;
             predictor <- get PREDICTOR_MATRIX_KEY (predictor_matrix example_dict) ;;
             '(predictor, norm_dict) <-
               normalize_predictors_global predictor
                 (narr_predictor_names example_dict)
                 (pressure_levels_mb example_dict) file_name ;;
             mean <- get "mean_value_matrix" (mean_value_matrix norm_dict) ;;
             stdev <- get "stdev_matrix" (stdev_matrix norm_dict) ;;
             Ok (with_normalization (with_predictor_matrix example_dict predictor)
                   Z_SCORE_STRING mean stdev)
         end) ;;
    match predictor_names_to_keep, pressure_levels_to_keep_mb with
    | Some names, Some levels =>
        example_dict <-
          _subset_channels example_dict metadata_only names levels
            normalization_file_name ;;
        Ok (Some example_dict)
    | _, _ => Ok (Some example_dict)
    end.

(** *** subset_examples *)

Definition subset_examples (d : example_dict) (desired_indices : list Z)
    : result example_dict :=
  match predictor_matrix d, target_matrix d,
        first_normalization_param_matrix d, second_normalization_param_matrix d with
  | Some predictor, Some target, Some first, Some second =>
      predictor <- Py.take predictor desired_indices ;;
      target <- Py.take target desired_indices ;;
      times <- Py.take (target_times_unix_sec d) desired_indices ;;
      rows <- Py.take (row_indices d) desired_indices ;;
      columns <- Py.take (column_indices d) desired_indices ;;
      first <- Py.take first desired_indices ;;
      second <- Py.take second desired_indices ;;
      Ok {| predictor_matrix := Some predictor;
            target_matrix := Some target;
            target_times_unix_sec := times;
            row_indices := rows;
            column_indices := columns;
            narr_predictor_names := narr_predictor_names d;
            pressure_levels_mb := pressure_levels_mb d;
            dilation_distance_metres := dilation_distance_metres d;
            narr_mask_matrix := narr_mask_matrix d;
            normalization_type_string := normalization_type_string d;
            first_normalization_param_matrix := Some first;
            second_normalization_param_matrix := Some second |}
  | _, _, _, _ => Raises (ValueError "Keys were expected, but not found, in dictionary")
  end.

(** *** create_examples *)

(** External collaborators of [fronts_io], [predictor_io],
    [machine_learning_utils], [keras] and [numpy.random]. *)
Context {front_table : Type}.
Variable fronts_io_find_gridded_file : string -> Z -> string.
Variable os_path_isfile : string -> bool.
Variable predictor_io_find_file : string -> Z -> result string.
Variable predictor_io_read_file :
  string -> list Z -> list string -> result (list image).
Variable fill_nans_in_predictor_images :
  list (list (list F)) -> result (list (list (list F))).
Variable check_narr_mask : list (list Z) -> result unit.
Variable fronts_io_read_grid_from_file : string -> result front_table.
Variable front_table_to_images :
  front_table -> Z -> Z -> result (list (list (list Z))).
Variable dilate_ternary_target_images :
  list (list (list Z)) -> Q -> result (list (list (list Z))).
Variable random_shuffle : list Z -> list Z.
Variable to_categorical : list Z -> Z -> result (list (list Z)).

Record target_point_dict : Type := {
  row_indices_by_time : list (list Z);
  column_indices_by_time : list (list Z)
}.

Variable sample_target_points :
  list (list (list Z)) -> list Q -> Z -> list (list Z) ->
  result (option target_point_dict).
Variable downsize_grids_around_selected_points :
  list image -> list (list (list Z)) -> Z -> Z -> target_point_dict ->
  result (list image * list Z * list Z * list Z * list Z).

(** [predictor_matrix[..., j]] and [predictor_matrix[..., j] = values]. *)
Definition get_channel (j : Z) (predictor_matrix : list image)
    : result (list (list (list F))) :=
  mapM (mapM (mapM (fun channels => Py.index channels j))) predictor_matrix.

Definition set_nth {A : Type} (j : Z) (v : A) (a : list A) : result (list A) :=
  _ <- Py.index a j ;;
  let k := Z.to_nat (if j <? 0 then j + Z.of_nat (List.length a) else j) in
  Ok (firstn k a ++ v :: skipn (S k) a).

Definition set_channel (j : Z) (predictor_matrix : list image)
    (values : list (list (list F))) : result (list image) :=
  zip_with_m (zip_with_m (zip_with_m (fun channels v => set_nth j v channels)))
    predictor_matrix values.

Fixpoint fill_nans_loop (js : list Z) (predictor_matrix : list image)
    : result (list image) :=
  match js with
  | [] => Ok predictor_matrix
  | j :: js' =>
      channel <- get_channel j predictor_matrix ;;
      channel <- fill_nans_in_predictor_images channel ;;
      predictor_matrix <- set_channel j predictor_matrix channel ;;
      fill_nans_loop js' predictor_matrix
  end.

(** [numpy.where(mask == 1)] on a matrix: row and column of every cell equal
    to one, row by row. *)
Fixpoint where_row (i : Z) (j : Z) (row : list Z) : list (Z * Z) :=
  match row with
  | [] => []
  | v :: row' =>
      if v =? 1 then (i, j) :: where_row i (j + 1) row' else where_row i (j + 1) row'
  end.

Fixpoint where_matrix (i : Z) (mask : list (list Z)) : list (Z * Z) :=
  match mask with
  | [] => []
  | row :: mask' => where_row i 0 row ++ where_matrix (i + 1) mask'
  end.

Definition create_examples (top_predictor_dir_name top_gridded_front_dir_name : string)
    (valid_time_unix_sec : Z) (predictor_names : list string)
    (pressure_levels_mb_arg : list Z) (num_half_rows num_half_columns : Z)
    (dilation_distance_metres_arg : Q) (class_fractions : option (list Q))
    (max_num_examples : Z) (normalization_type_string_arg : string)
    (narr_mask_matrix_arg : option (list (list Z)))
    : result (option example_dict) :=
  _ <- match class_fractions with
       | Some fractions =>
           if (List.length fractions =? 3)%nat then Ok tt else Raises TypeError
       | None => Ok tt
       end ;;
  _ <- match narr_mask_matrix_arg with
       | Some mask => check_narr_mask mask
       | None => Ok tt
       end ;;
  let gridded_front_file_name :=
    fronts_io_find_gridded_file top_gridded_front_dir_name valid_time_unix_sec in
  if negb (os_path_isfile gridded_front_file_name) then Ok None
  else
    predictor_file_name <-
      predictor_io_find_file top_predictor_dir_name valid_time_unix_sec ;;
    all_times <-
      predictor_io_read_file predictor_file_name pressure_levels_mb_arg predictor_names ;;
    first_time <- Py.index all_times 0 ;;
    let predictor_matrix := [first_time] in
    predictor_matrix <-
      fill_nans_loop (map Z.of_nat (seq 0 (List.length predictor_names)))
        predictor_matrix ;;
    let narr_mask_matrix_arg :=
      match narr_mask_matrix_arg with
      | Some mask => mask
      | None => map (map (fun _ => 1)) first_time
      end in
    '(predictor_matrix, normalization_dict) <-
      normalize_predictors_nonglobal predictor_matrix normalization_type_string_arg ;;
    gridded_front_table <- fronts_io_read_grid_from_file gridded_front_file_name ;;
    target_images <-
      front_table_to_images gridded_front_table (shape1 predictor_matrix)
        (shape2 predictor_matrix) ;;
    target_images <-
      dilate_ternary_target_images target_images dilation_distance_metres_arg ;;
    sampled_target_point_dict <-
      match class_fractions with
      | None =>
          let cells := where_matrix 0 narr_mask_matrix_arg in
          let row_indices := map fst cells in
          let column_indices := map snd cells in
          let linear_indices :=
            random_shuffle (map Z.of_nat (seq 0 (List.length row_indices))) in
          let linear_indices :=
            if max_num_examples <? Z.of_nat (List.length linear_indices)
            then Py.slice linear_indices 0 max_num_examples
            else linear_indices in
          rows <- Py.take row_indices linear_indices ;;
          columns <- Py.take column_indices linear_indices ;;
          Ok (Some {| row_indices_by_time := [rows];
                      column_indices_by_time := [columns] |})
      | Some fractions =>
          sample_target_points target_images fractions max_num_examples
            narr_mask_matrix_arg
      end ;;
    match sampled_target_point_dict with
    | None => Ok None
    | Some sampled_target_point_dict =>
        '(predictor_matrix, target_values, time_indices, row_indices, column_indices) <-
          downsize_grids_around_selected_points predictor_matrix target_images
            num_half_rows num_half_columns sampled_target_point_dict ;;
        target_matrix <- to_categorical target_values 3 ;;
        '(first, second) <-
          (if String.eqb normalization_type_string_arg MINMAX_STRING then
             a <- get "min_value_matrix" (min_value_matrix normalization_dict) ;;
             a <- Py.take a time_indices ;;
             b <- get "max_value_matrix" (max_value_matrix normalization_dict) ;;
             b <- Py.take b time_indices ;;
             Ok (a, b)
           else
             a <- get "mean_value_matrix" (mean_value_matrix normalization_dict) ;;
             a <- Py.take a time_indices ;;
             b <- get "stdev_matrix" (stdev_matrix normalization_dict) ;;
             b <- Py.take b time_indices ;;
             Ok (a, b)) ;;
        Ok (Some
              {| predictor_matrix := Some predictor_matrix;
                 target_matrix := Some target_matrix;
                 target_times_unix_sec :=
                   repeat valid_time_unix_sec (List.length row_indices);
                 row_indices := row_indices;
                 column_indices := column_indices;
                 narr_predictor_names := predictor_names;
                 pressure_levels_mb := pressure_levels_mb_arg;
                 dilation_distance_metres := dilation_distance_metres_arg;
                 narr_mask_matrix := narr_mask_matrix_arg;
                 normalization_type_string := normalization_type_string_arg;
                 first_normalization_param_matrix := Some first;
                 second_normalization_param_matrix := Some second |})
    end.

End Store.

End learning_examples_io.

(** ** training_validation_io.py *)

Module training_validation_io.

Section Augmentation.

(** One example's predictor grid, one example's target row, a float (rotation
    angle or noise standard deviation) and the state of the numpy random
    generator. *)
Context {Img Label Float Rng : Type}.

Variable is_nan : Float -> bool.

(** External collaborators of [gewittergefahr.deep_learning.data_augmentation]. *)
Variable shift_radar_images : list Img -> Z -> Z -> result (list Img).
Variable rotate_radar_images : list Img -> Float -> result (list Img).
Variable noise_radar_images :
  Rng -> list Img -> option Float -> result (list Img * Rng).

(** [for i in range(num_translations)]. *)
Fixpoint translation_loop (orig_num_examples : nat) (offsets : list (Z * Z))
    (predictor_matrix : list Img) (target_matrix : list Label)
    : result (list Img * list Label) :=
  match offsets with
  | [] => Ok (predictor_matrix, target_matrix)
  | (x_offset_pixels, y_offset_pixels) :: offsets' =>
      this_predictor_matrix <-
        shift_radar_images (firstn orig_num_examples predictor_matrix)
          x_offset_pixels y_offset_pixels ;;
      translation_loop orig_num_examples offsets'
        (predictor_matrix ++ this_predictor_matrix)
        (target_matrix ++ firstn orig_num_examples target_matrix)
  end.

(** [for i in range(num_rotations)]. *)
Fixpoint rotation_loop (orig_num_examples : nat) (angles : list Float)
    (predictor_matrix : list Img) (target_matrix : list Label)
    : result (list Img * list Label) :=
  match angles with
  | [] => Ok (predictor_matrix, target_matrix)
  | ccw_rotation_angle_deg :: angles' =>
      this_predictor_matrix <-
        rotate_radar_images (firstn orig_num_examples predictor_matrix)
          ccw_rotation_angle_deg ;;
      rotation_loop orig_num_examples angles'
        (predictor_matrix ++ this_predictor_matrix)
        (target_matrix ++ firstn orig_num_examples target_matrix)
  end.

(** [for i in range(num_noisings)]. *)
Fixpoint noising_loop (orig_num_examples : nat) (num_noisings : nat)
    (noise_standard_deviation : option Float) (rng : Rng)
    (predictor_matrix : list Img) (target_matrix : list Label)
    : result (list Img * list Label * Rng) :=
  match num_noisings with
  | O => Ok (predictor_matrix, target_matrix, rng)
  | S num_noisings' =>
      '(this_predictor_matrix, rng) <-
        noise_radar_images rng (firstn orig_num_examples predictor_matrix)
          noise_standard_deviation ;;
      noising_loop orig_num_examples num_noisings' noise_standard_deviation rng
        (predictor_matrix ++ this_predictor_matrix)
        (target_matrix ++ firstn orig_num_examples target_matrix)
  end.

(** The argument checks on the translations; the result is the list of offset
    pairs the first loop runs over. *)
Definition check_translations (x_translations_pixels y_translations_pixels : option (list Z))
    : result (list (Z * Z)) :=
  match x_translations_pixels, y_translations_pixels with
  | None, None => Ok []
  | None, Some _ => Raises TypeError
  | Some _, None => Raises TypeError
  | Some xs, Some ys =>
      let num_translations := List.length xs in
      if negb (List.length ys =? num_translations)%nat then Raises TypeError
      else if negb (forallb (fun '(x, y) => 0 <? Z.abs x + Z.abs y) (combine xs ys))
      then Raises (ValueError "translations")
      else Ok (combine xs ys)
  end.

Definition check_rotations (ccw_rotation_angles_deg : option (list Float))
    : result (list Float) :=
  match ccw_rotation_angles_deg with
  | None => Ok []
  | Some angles =>
      if existsb is_nan angles then Raises (ValueError "ccw_rotation_angles_deg")
      else Ok angles
  end.

Definition _do_data_augmentation (rng : Rng) (predictor_matrix : list Img)
    (target_matrix : list Label)
    (x_translations_pixels y_translations_pixels : option (list Z))
    (ccw_rotation_angles_deg : option (list Float))
    (noise_standard_deviation : option Float) (num_noisings : Z)
    : result (list Img * list Label * Rng) :=
  offsets <- check_translations x_translations_pixels y_translations_pixels ;;
  angles <- check_rotations ccw_rotation_angles_deg ;;
  _ <- (if num_noisings <? 0 then Raises (ValueError "num_noisings") else Ok tt) ;;
  let orig_num_examples := List.length predictor_matrix in
  '(predictor_matrix, target_matrix) <-
    translation_loop orig_num_examples offsets predictor_matrix target_matrix ;;
  '(predictor_matrix, target_matrix) <-
    rotation_loop orig_num_examples angles predictor_matrix target_matrix ;;
  noising_loop orig_num_examples (Z.to_nat num_noisings) noise_standard_deviation
    rng predictor_matrix target_matrix.

End Augmentation.

End training_validation_io.

(** * Properties *)

Import learning_examples_io.

(** ** Text primitives *)

Fixpoint all_chars (p : ascii -> bool) (s : string) : bool :=
  match s with
  | EmptyString => true
  | String a s' => p a && all_chars p s'
  end.

Definition is_digit (a : ascii) : bool :=
  match uint_of_char a (Some Decimal.Nil) with
  | Some _ => true
  | None => false
  end.

Lemma all_chars_app p s t :
  all_chars p (s ++ t)%string = all_chars p s && all_chars p t.
Proof.
  induction s as [|a s IH]; simpl; [reflexivity|].
  now rewrite IH, andb_assoc.
Qed.

Lemma all_chars_weaken (p q : ascii -> bool) s :
  (forall a, p a = true -> q a = true) ->
  all_chars p s = true -> all_chars q s = true.
Proof.
  intros Hpq. induction s as [|a s IH]; simpl; [reflexivity|].
  intros H. apply andb_true_iff in H as [Ha Hs].
  now rewrite (Hpq _ Ha), IH.
Qed.

Lemma digits_string_of_uint d :
  all_chars is_digit (NilEmpty.string_of_uint d) = true.
Proof. induction d; simpl; auto. Qed.

Lemma digits_zeros k : all_chars is_digit (Py.zeros k) = true.
Proof. induction k; simpl; auto. Qed.

Lemma to_uint_not_nil n : N.to_uint n <> Decimal.Nil.
Proof.
  destruct n as [|p]; [discriminate|].
  apply DecimalPos.Unsigned.to_uint_nonnil.
Qed.

Lemma str_of_N_unfold n :
  Py.str_of_N n = NilEmpty.string_of_uint (N.to_uint n).
Proof.
  unfold Py.str_of_N, NilZero.string_of_uint.
  pose proof (to_uint_not_nil n) as H.
  destruct (N.to_uint n); [congruence | reflexivity ..].
Qed.

Lemma digits_zfill w n : all_chars is_digit (Py.zfill w (Py.str_of_N n)) = true.
Proof.
  unfold Py.zfill. rewrite all_chars_app, digits_zeros, str_of_N_unfold.
  apply digits_string_of_uint.
Qed.

Lemma string_of_uint_not_empty d :
  d <> Decimal.Nil -> NilEmpty.string_of_uint d <> EmptyString.
Proof. destruct d; simpl; congruence. Qed.

Lemma uint_of_zeros_app k s d :
  NilEmpty.uint_of_string s = Some d ->
  exists d', NilEmpty.uint_of_string (Py.zeros k ++ s) = Some d' /\
             N.of_uint d' = N.of_uint d.
Proof.
  intros Hs. induction k as [|k [d' [Hk Hd']]]; simpl.
  - now exists d.
  - exists (Decimal.D0 d'). rewrite Hk. simpl. split; [reflexivity | exact Hd'].
Qed.

Lemma digits_to_N_zfill w n :
  Py.digits_to_N (Py.zfill w (Py.str_of_N n)) = Some n.
Proof.
  unfold Py.digits_to_N, Py.zfill. rewrite str_of_N_unfold.
  destruct (uint_of_zeros_app (w - String.length (NilEmpty.string_of_uint (N.to_uint n)))
              _ _ (NilEmpty.usu (N.to_uint n))) as [d' [Hd' Hn]].
  unfold NilZero.uint_of_string.
  destruct (Py.zeros _ ++ NilEmpty.string_of_uint (N.to_uint n))%string eqn:E.
  - exfalso. destruct (w - _)%nat; simpl in E.
    + now apply (string_of_uint_not_empty _ (to_uint_not_nil n)).
    + discriminate.
  - rewrite Hd'. simpl. now rewrite Hn, DecimalN.Unsigned.of_to.
Qed.

Lemma digit_not_sign a :
  is_digit a = true -> a <> "-"%char /\ a <> "+"%char.
Proof. intros H; split; intros ->; discriminate H. Qed.

Lemma int_of_digits s n :
  all_chars is_digit s = true -> Py.digits_to_N s = Some n ->
  Py.int s = Ok (Z.of_N n).
Proof.
  intros Hd Hn. unfold Py.int.
  destruct s as [|a s].
  - now rewrite Hn.
  - simpl in Hd. apply andb_true_iff in Hd as [Ha _].
    destruct (digit_not_sign a Ha) as [Hm Hp].
    destruct (Ascii.eqb_spec a "-"); [contradiction|].
    destruct (Ascii.eqb_spec a "+"); [contradiction|].
    assert (E : forall (X : Type) (x y z : X),
               match a with
               | "-"%char => x | "+"%char => y | _ => z end = z).
    { intros X x y z.
      destruct a as [[] [] [] [] [] [] [] []]; try reflexivity; congruence. }
    rewrite E. now rewrite Hn.
Qed.

Lemma int_format_0d w z : 0 <= z -> Py.int (Py.format_0d w z) = Ok z.
Proof.
  intros Hz. unfold Py.format_0d.
  destruct (Z.ltb_spec z 0); [lia|].
  rewrite (int_of_digits _ (Z.to_N z)).
  - now rewrite Z2N.id.
  - apply digits_zfill.
  - apply digits_to_N_zfill.
Qed.

Lemma split_no_sep sep w :
  all_chars (fun a => negb (Ascii.eqb a sep)) w = true -> Py.split sep w = [w].
Proof.
  induction w as [|a w IH]; simpl; [reflexivity|].
  intros H. apply andb_true_iff in H as [Ha Hw].
  apply negb_true_iff in Ha. rewrite Ha, (IH Hw). reflexivity.
Qed.

Lemma split_app sep w rest :
  all_chars (fun a => negb (Ascii.eqb a sep)) w = true ->
  Py.split sep (w ++ String sep rest) = w :: Py.split sep rest.
Proof.
  induction w as [|a w IH]; simpl.
  - now rewrite Ascii.eqb_refl.
  - intros H. apply andb_true_iff in H as [Ha Hw].
    apply negb_true_iff in Ha. rewrite Ha, (IH Hw). reflexivity.
Qed.

Lemma remove_from_absent old c s :
  (exists old', old = String c old') ->
  all_chars (fun a => negb (Ascii.eqb a c)) s = true ->
  Py.remove_from old 0 s = s.
Proof.
  intros [old' ->]. induction s as [|a s IH]; [reflexivity|].
  intros H. simpl in H. apply andb_true_iff in H as [Ha Hs].
  apply negb_true_iff in Ha.
  cbn [Py.remove_from String.prefix].
  destruct (ascii_dec c a) as [->|Hne].
  - now rewrite Ascii.eqb_refl in Ha.
  - now rewrite (IH Hs).
Qed.

Lemma prefix_empty s : String.prefix EmptyString s = true.
Proof. destruct s; reflexivity. Qed.

Lemma digit_neq (c : ascii) a :
  is_digit c = false -> is_digit a = true -> negb (Ascii.eqb a c) = true.
Proof.
  intros Hc Ha. apply negb_true_iff. destruct (Ascii.eqb_spec a c); [|reflexivity].
  subst. congruence.
Qed.

Lemma digits_avoid (c : ascii) s :
  is_digit c = false -> all_chars is_digit s = true ->
  all_chars (fun a => negb (Ascii.eqb a c)) s = true.
Proof.
  intros Hc. apply all_chars_weaken. intros a. now apply digit_neq.
Qed.

Lemma digits_format_0d w z :
  0 <= z -> all_chars is_digit (Py.format_0d w z) = true.
Proof.
  intros Hz. unfold Py.format_0d. destruct (Z.ltb_spec z 0); [lia|].
  apply digits_zfill.
Qed.

(** Decoding undoes encoding for every non-negative triple, whatever its
    size and whether or not the arguments are checked. *)
Lemma decode_encode (t r c : Z) (check_args : bool) :
  0 <= t -> 0 <= r -> 0 <= c ->
  (s <- create_example_id t r c check_args ;; example_id_to_metadata s)
  = Ok (t, r, c).
Proof.
  intros Ht Hr Hc. unfold create_example_id.
  destruct (Z.ltb_spec r 0); [lia|]. destruct (Z.ltb_spec c 0); [lia|].
  rewrite !andb_false_r. cbn [bind].
  unfold example_id_to_metadata.
  pose proof (digits_format_0d 10 t Ht) as Dt.
  pose proof (digits_format_0d 3 r Hr) as Dr.
  pose proof (digits_format_0d 3 c Hc) as Dc.
  set (ft := Py.format_0d 10 t) in *.
  set (fr := Py.format_0d 3 r) in *.
  set (fc := Py.format_0d 3 c) in *.
  assert (U : forall s, all_chars is_digit s = true ->
                        all_chars (fun a => negb (Ascii.eqb a "_")) s = true).
  { intros s. now apply digits_avoid. }
  replace ("time" ++ ft ++ "_row" ++ fr ++ "_column" ++ fc)%string
    with (("time" ++ ft) ++ String "_" (("row" ++ fr) ++ String "_" ("column" ++ fc)))%string.
  2: reflexivity.
  rewrite split_app.
  2:{ rewrite all_chars_app, (U _ Dt). reflexivity. }
  rewrite split_app.
  2:{ rewrite all_chars_app, (U _ Dr). reflexivity. }
  rewrite split_no_sep.
  2:{ rewrite all_chars_app, (U _ Dc). reflexivity. }
  assert (Rt : Py.remove "time" ("time" ++ ft) = ft).
  { unfold Py.remove. cbn. rewrite prefix_empty.
    apply (remove_from_absent "time" "t"); [now eexists|].
    now apply digits_avoid. }
  assert (Rr : Py.remove "row" ("row" ++ fr) = fr).
  { unfold Py.remove. cbn. rewrite prefix_empty.
    apply (remove_from_absent "row" "r"); [now eexists|].
    now apply digits_avoid. }
  assert (Rc : Py.remove "column" ("column" ++ fc) = fc).
  { unfold Py.remove. cbn. rewrite prefix_empty.
    apply (remove_from_absent "column" "c"); [now eexists|].
    now apply digits_avoid. }
  rewrite Rt, Rr, Rc. subst ft fr fc.
  rewrite !int_format_0d by assumption. reflexivity.
Qed.

(** C6. For every non-negative [valid_time < 10^10], [row < 1000] and
    [column < 1000], [create_example_id] returns an identifier from which
    [example_id_to_metadata] returns exactly [(valid_time, row, column)]. *)
Theorem example_id_round_trip (valid_time row column : Z) :
  0 <= valid_time < 10 ^ 10 -> 0 <= row < 1000 -> 0 <= column < 1000 ->
  exists id_string,
    create_example_id valid_time row column true = Ok id_string /\
    example_id_to_metadata id_string = Ok (valid_time, row, column).
Proof.
  intros Ht Hr Hc.
  pose proof (decode_encode valid_time row column true
                ltac:(lia) ltac:(lia) ltac:(lia)) as H.
  destruct (create_example_id valid_time row column true) as [s|e] eqn:E.
  - exists s. split; [reflexivity | exact H].
  - discriminate H.
Qed.

Lemma example_id_round_trip_witness :
  exists id_string,
    create_example_id 1234567890 5 17 true = Ok id_string /\
    example_id_to_metadata id_string = Ok (1234567890, 5, 17).
Proof.
  apply (example_id_round_trip 1234567890 5 17); lia.
Defined.

(** ** Order of identifiers, sorting and bisection *)

Lemma str_lt_iff a b : Py.str_lt a b = true <-> String_as_OT.lt a b.
Proof.
  unfold Py.str_lt, String_as_OT.lt.
  destruct (String_as_OT.compare a b); split; congruence.
Qed.

Lemma str_lt_irrefl a : Py.str_lt a a = false.
Proof.
  destruct (Py.str_lt a a) eqn:E; [|reflexivity].
  apply str_lt_iff in E. exfalso.
  exact (StrictOrder_Irreflexive (R := String_as_OT.lt) a E).
Qed.

Lemma str_lt_trans a b c :
  Py.str_lt a b = true -> Py.str_lt b c = true -> Py.str_lt a c = true.
Proof.
  rewrite !str_lt_iff. apply (StrictOrder_Transitive (R := String_as_OT.lt)).
Qed.

Lemma str_lt_trichotomy a b :
  Py.str_lt a b = true \/ a = b \/ Py.str_lt b a = true.
Proof.
  rewrite !str_lt_iff.
  destruct (String_as_OT.compare_spec a b) as [E|L|G]; auto.
Qed.

Lemma str_le_iff a b : Py.str_le a b = true <-> a = b \/ Py.str_lt a b = true.
Proof.
  unfold Py.str_le. rewrite negb_true_iff. split.
  - intros H. destruct (str_lt_trichotomy a b) as [L|[E|G]]; auto; congruence.
  - intros [->|L]; [apply str_lt_irrefl|].
    destruct (Py.str_lt b a) eqn:G; [|reflexivity].
    pose proof (str_lt_trans _ _ _ L G) as C. now rewrite str_lt_irrefl in C.
Qed.

Lemma str_le_trans a b c :
  Py.str_le a b = true -> Py.str_le b c = true -> Py.str_le a c = true.
Proof.
  rewrite !str_le_iff. intros [->|L1] [->|L2]; auto.
  right. eapply str_lt_trans; eauto.
Qed.

Lemma str_le_total a b : Py.str_le a b = false -> Py.str_le b a = true.
Proof.
  unfold Py.str_le. rewrite negb_false_iff. intros G.
  apply str_le_iff. now right.
Qed.

Lemma str_le_antisym a b :
  Py.str_le a b = true -> Py.str_le b a = true -> a = b.
Proof.
  rewrite !str_le_iff. intros [->|L1] [E|L2]; auto.
  pose proof (str_lt_trans _ _ _ L1 L2) as C. now rewrite str_lt_irrefl in C.
Qed.

Section Sorting.

Variable a : list string.

Let key (i : nat) : string := nth i a EmptyString.
Let le_key (i j : nat) : Prop := Py.str_le (key i) (key j) = true.

Lemma insert_index_perm i l : Permutation (Py.insert_index a i l) (i :: l).
Proof.
  induction l as [|j l IH]; simpl; [reflexivity|].
  destruct (Py.str_le _ _); [reflexivity|].
  rewrite IH. apply perm_swap.
Qed.

Lemma insert_index_sorted i l :
  StronglySorted le_key l -> StronglySorted le_key (Py.insert_index a i l).
Proof.
  induction l as [|j l IH]; simpl; intros S.
  - repeat constructor.
  - destruct (Py.str_le (nth i a EmptyString) (nth j a EmptyString)) eqn:E.
    + constructor; [exact S|].
      apply StronglySorted_inv in S as [_ F].
      constructor; [exact E|].
      eapply Forall_impl; [|exact F].
      intros k Hk. unfold le_key, key in *. eapply str_le_trans; eauto.
    + apply StronglySorted_inv in S as [S F].
      constructor; [now apply IH|].
      eapply Permutation_Forall; [symmetry; apply insert_index_perm|].
      constructor; [|exact F].
      now apply str_le_total.
Qed.

Lemma argsort_perm : Permutation (Py.argsort a) (seq 0 (List.length a)).
Proof.
  unfold Py.argsort. induction (seq 0 (List.length a)) as [|i l IH]; simpl.
  - reflexivity.
  - rewrite insert_index_perm. now constructor.
Qed.

Lemma argsort_sorted : StronglySorted le_key (Py.argsort a).
Proof.
  unfold Py.argsort. induction (seq 0 (List.length a)) as [|i l IH]; simpl.
  - constructor.
  - now apply insert_index_sorted.
Qed.

Lemma argsort_length : List.length (Py.argsort a) = List.length a.
Proof. now rewrite (Permutation_length argsort_perm), length_seq. Qed.

Lemma argsort_in i : In i (Py.argsort a) <-> (i < List.length a)%nat.
Proof.
  split; intros H.
  - apply (Permutation_in _ argsort_perm) in H. apply in_seq in H. lia.
  - apply (Permutation_in _ (Permutation_sym argsort_perm)).
    apply in_seq. lia.
Qed.

End Sorting.

Lemma strongly_sorted_nth {A : Type} (R : A -> A -> Prop) (l : list A) (d : A) :
  StronglySorted R l ->
  forall i j, (i < j < List.length l)%nat -> R (nth i l d) (nth j l d).
Proof.
  induction 1 as [|x l S IH F]; simpl; intros i j Hij; [lia|].
  destruct j as [|j]; [lia|]. destruct i as [|i].
  - rewrite Forall_forall in F. apply F, nth_In. lia.
  - apply IH. lia.
Qed.

(** The identifiers in sorted order, as [all_id_strings_numpy[sort_indices]]. *)
Definition sorted_ids (a : list string) : list string :=
  map (fun i => nth i a EmptyString) (Py.argsort a).

Lemma sorted_ids_length a : List.length (sorted_ids a) = List.length a.
Proof. unfold sorted_ids. now rewrite length_map, argsort_length. Qed.

Lemma sorted_ids_nth a r :
  (r < List.length a)%nat ->
  nth r (sorted_ids a) EmptyString = nth (nth r (Py.argsort a) O) a EmptyString.
Proof.
  intros Hr. unfold sorted_ids.
  rewrite (nth_indep _ EmptyString (nth O a EmptyString)).
  2:{ now rewrite length_map, argsort_length. }
  now rewrite (map_nth (fun i => nth i a EmptyString)).
Qed.

Lemma sorted_ids_le a i j :
  (i <= j < List.length a)%nat ->
  Py.str_le (nth i (sorted_ids a) EmptyString) (nth j (sorted_ids a) EmptyString) = true.
Proof.
  intros Hij. destruct (Nat.eq_dec i j) as [->|Hne].
  - apply str_le_iff. now left.
  - rewrite !sorted_ids_nth by lia.
    apply (strongly_sorted_nth _ _ O (argsort_sorted a)).
    rewrite argsort_length. lia.
Qed.

Lemma sorted_ids_in a v :
  In v a -> exists p, (p < List.length a)%nat /\ nth p (sorted_ids a) EmptyString = v.
Proof.
  intros Hv. destruct (In_nth _ _ EmptyString Hv) as [i [Hi Hn]].
  apply argsort_in in Hi.
  destruct (In_nth _ _ O Hi) as [p [Hp Hq]].
  rewrite argsort_length in Hp.
  exists p. split; [exact Hp|]. rewrite sorted_ids_nth by exact Hp.
  now rewrite Hq.
Qed.

(** Bisection returns the leftmost insertion point in a sorted array. *)
Lemma bisect_left_spec (s : list string) (v : string) :
  (forall i j, (i <= j < List.length s)%nat ->
               Py.str_le (nth i s EmptyString) (nth j s EmptyString) = true) ->
  forall fuel lo hi,
    (lo <= hi <= List.length s)%nat -> (hi - lo <= fuel)%nat ->
    (forall i, (i < lo)%nat -> Py.str_lt (nth i s EmptyString) v = true) ->
    (forall i, (hi <= i < List.length s)%nat ->
               Py.str_lt (nth i s EmptyString) v = false) ->
    (Py.bisect_left fuel s v lo hi <= List.length s)%nat /\
    (forall i, (i < Py.bisect_left fuel s v lo hi)%nat ->
               Py.str_lt (nth i s EmptyString) v = true) /\
    (forall i, (Py.bisect_left fuel s v lo hi <= i < List.length s)%nat ->
               Py.str_lt (nth i s EmptyString) v = false).
Proof.
  intros Hsorted. induction fuel as [|fuel IH]; intros lo hi Hb Hf Hlo Hhi;
    cbn [Py.bisect_left].
  - assert (lo = hi) by lia. subst. repeat split; auto; lia.
  - destruct (Nat.ltb_spec lo hi) as [Hlt|Hge].
    + cbv zeta. set (mid := (lo + (hi - lo) / 2)%nat).
      assert (Hmid : (lo <= mid < hi)%nat).
      { unfold mid. pose proof (Nat.div_lt (hi - lo) 2). lia. }
      clearbody mid.
      destruct (Py.str_lt (nth mid s EmptyString) v) eqn:E.
      * apply IH; [lia | lia | | exact Hhi].
        intros i Hi.
        assert (L : Py.str_le (nth i s EmptyString) (nth mid s EmptyString) = true)
          by (apply Hsorted; lia).
        apply str_le_iff in L as [->|L]; [exact E|].
        eapply str_lt_trans; eauto.
      * apply IH; [lia | lia | exact Hlo | ].
        intros i Hi.
        assert (L : Py.str_le (nth mid s EmptyString) (nth i s EmptyString) = true)
          by (apply Hsorted; lia).
        destruct (Py.str_lt (nth i s EmptyString) v) eqn:G; [|reflexivity].
        apply str_le_iff in L as [L|L].
        -- rewrite L in E. congruence.
        -- rewrite (str_lt_trans _ _ _ L G) in E. discriminate.
    + assert (lo = hi) by lia. subst. repeat split; auto; lia.
Qed.

Lemma searchsorted_spec a v :
  (Py.searchsorted (sorted_ids a) v <= List.length a)%nat /\
  (forall i, (i < Py.searchsorted (sorted_ids a) v)%nat ->
             Py.str_lt (nth i (sorted_ids a) EmptyString) v = true) /\
  (forall i, (Py.searchsorted (sorted_ids a) v <= i < List.length a)%nat ->
             Py.str_lt (nth i (sorted_ids a) EmptyString) v = false).
Proof.
  unfold Py.searchsorted.
  pose proof (bisect_left_spec (sorted_ids a) v) as H.
  rewrite sorted_ids_length in H.
  rewrite sorted_ids_length.
  apply H; try lia.
  - intros i j Hij. now apply sorted_ids_le.
Qed.

(** ** The lookup of identifiers *)

Lemma mapM_ok {A B : Type} (f : A -> result B) (g : A -> B) (l : list A) :
  (forall x, In x l -> f x = Ok (g x)) -> mapM f l = Ok (map g l).
Proof.
  induction l as [|x l IH]; simpl; intros H; [reflexivity|].
  rewrite (H x (or_introl eq_refl)). simpl.
  rewrite IH by (intros y Hy; apply H; now right). reflexivity.
Qed.

Lemma index_of_nat {A : Type} (a : list A) (i : nat) (d : A) :
  (i < List.length a)%nat -> Py.index a (Z.of_nat i) = Ok (nth i a d).
Proof.
  intros Hi. unfold Py.index.
  destruct (Z.ltb_spec (Z.of_nat i) 0); [lia|].
  destruct (Z.ltb_spec (Z.of_nat i) 0); [lia|].
  destruct (Z.leb_spec (Z.of_nat (List.length a)) (Z.of_nat i)); [lia|].
  simpl. rewrite Nat2Z.id.
  destruct (nth_error a i) eqn:E.
  - now rewrite (nth_error_nth _ _ d E).
  - apply nth_error_None in E. lia.
Qed.

Lemma take_of_nats {A : Type} (a : list A) (l : list nat) (d : A) :
  Forall (fun i => (i < List.length a)%nat) l ->
  Py.take a (map Z.of_nat l) = Ok (map (fun i => nth i a d) l).
Proof.
  unfold Py.take. induction 1 as [|i l Hi _ IH]; simpl; [reflexivity|].
  rewrite (index_of_nat a i d Hi). simpl. rewrite IH. reflexivity.
Qed.

Lemma take_map_ok {A B : Type} (a : list A) (f : B -> Z) (g : B -> A) (l : list B) :
  (forall x, In x l -> Py.index a (f x) = Ok (g x)) ->
  Py.take a (map f l) = Ok (map g l).
Proof.
  intros H. unfold Py.take. induction l as [|x l IH]; simpl; [reflexivity|].
  rewrite (H x (or_introl eq_refl)). simpl.
  rewrite IH by (intros y Hy; apply H; now right). reflexivity.
Qed.

(** The position [find_example_ids] computes for one desired identifier: the
    insertion point, clamped to the array, mapped back through the sort. *)
Definition resolve (a : list string) (v : string) : nat :=
  nth (Nat.min (Py.searchsorted (sorted_ids a) v) (List.length a - 1))
      (Py.argsort a) O.

Lemma resolve_lt a v : a <> [] -> (resolve a v < List.length a)%nat.
Proof.
  intros Ha. unfold resolve. apply argsort_in, nth_In.
  rewrite argsort_length. destruct a; [congruence|]. simpl. lia.
Qed.

Lemma resolve_found a v : In v a -> nth (resolve a v) a EmptyString = v.
Proof.
  intros Hv. destruct (sorted_ids_in a v Hv) as [p [Hp Hpv]].
  destruct (searchsorted_spec a v) as [Hr [Hbelow Hfrom]].
  set (r := Py.searchsorted (sorted_ids a) v) in *.
  assert (Hrp : (r <= p)%nat).
  { destruct (Nat.le_gt_cases r p) as [|Hlt]; [assumption|].
    specialize (Hbelow p Hlt). rewrite Hpv, str_lt_irrefl in Hbelow. discriminate. }
  unfold resolve. fold r. rewrite Nat.min_l by lia.
  rewrite <- sorted_ids_nth by lia.
  apply str_le_antisym.
  - pose proof (sorted_ids_le a r p ltac:(lia)) as L. now rewrite Hpv in L.
  - unfold Py.str_le. rewrite Hfrom by lia. reflexivity.
Qed.

Lemma resolve_absent a v :
  a <> [] -> ~ In v a -> nth (resolve a v) a EmptyString <> v.
Proof.
  intros Ha Hv E. apply Hv. rewrite <- E. apply nth_In. now apply resolve_lt.
Qed.

Definition is_missing (a : list string) (v : string) : bool :=
  negb (String.eqb (nth (resolve a v) a EmptyString) v).

Lemma is_missing_iff a v : a <> [] -> is_missing a v = true <-> ~ In v a.
Proof.
  intros Ha. unfold is_missing. rewrite negb_true_iff. split.
  - intros E Hv. rewrite (resolve_found a v Hv), String.eqb_refl in E. discriminate.
  - intros Hv. apply String.eqb_neq. now apply resolve_absent.
Qed.

Lemma nodup_length_le (l : list string) :
  (List.length (nodup string_dec l) <= List.length l)%nat.
Proof.
  induction l as [|x l IH]; simpl; [lia|].
  destruct (in_dec string_dec x l); simpl; lia.
Qed.

Lemma nodup_length_iff (l : list string) :
  List.length (nodup string_dec l) = List.length l <-> NoDup l.
Proof.
  split.
  - induction l as [|x l IH]; simpl; intros H; [constructor|].
    pose proof (nodup_length_le l).
    destruct (in_dec string_dec x l); simpl in H; [lia|].
    constructor; [assumption | apply IH; lia].
  - intros H. now rewrite nodup_fixed_point.
Qed.

Lemma differs_map (f : string -> string) (l : list string) :
  differs (map f l) l = map (fun v => negb (String.eqb (f v) v)) l.
Proof. induction l as [|x l IH]; simpl; [reflexivity | now rewrite IH]. Qed.

Lemma overwrite_map {A B : Type} (f : A -> B) (g : A -> bool) (c : B) (l : list A) :
  overwrite (map f l) (map g l) c = map (fun v => if g v then c else f v) l.
Proof. induction l as [|x l IH]; simpl; [reflexivity | now rewrite IH]. Qed.

Lemma select_map {A : Type} (g : A -> bool) (l : list A) :
  select l (map g l) = filter g l.
Proof.
  induction l as [|x l IH]; simpl; [reflexivity|].
  destruct (g x); now rewrite IH.
Qed.

Lemma existsb_map_id {A : Type} (g : A -> bool) (l : list A) :
  existsb (fun f => f) (map g l) = existsb g l.
Proof. induction l as [|x l IH]; simpl; [reflexivity | now rewrite IH]. Qed.

(** What [find_example_ids] computes on a duplicate-free, non-empty universe. *)
Lemma find_example_ids_unfold (all_id_strings desired_id_strings : list string)
    (allow_missing : bool) :
  NoDup all_id_strings -> all_id_strings <> [] ->
  find_example_ids all_id_strings desired_id_strings allow_missing =
  if allow_missing then
    Ok (map (fun v => if is_missing all_id_strings v then -1
                      else Z.of_nat (resolve all_id_strings v))
            desired_id_strings)
  else if existsb (is_missing all_id_strings) desired_id_strings then
    Raises (MissingIdsError
              (List.length (filter (is_missing all_id_strings) desired_id_strings))
              (List.length desired_id_strings)
              (filter (is_missing all_id_strings) desired_id_strings))
  else Ok (map (fun v => Z.of_nat (resolve all_id_strings v)) desired_id_strings).
Proof.
  intros Hnodup Hne. unfold find_example_ids.
  rewrite (proj2 (nodup_length_iff _) Hnodup), Nat.eqb_refl. cbn [negb].
  set (n := List.length all_id_strings).
  assert (Hn : (0 < n)%nat).
  { unfold n. destruct all_id_strings; [congruence | simpl; lia]. }
  rewrite (take_of_nats all_id_strings (Py.argsort all_id_strings) EmptyString).
  2:{ apply Forall_forall. intros i Hi. now apply argsort_in. }
  cbn [bind]. fold (sorted_ids all_id_strings).
  rewrite !map_map.
  rewrite (take_map_ok _ _ (fun v => Z.of_nat (resolve all_id_strings v))).
  2:{ intros v _.
      destruct (searchsorted_spec all_id_strings v) as [Hr _].
      set (r := Py.searchsorted (sorted_ids all_id_strings) v) in *.
      fold n in Hr.
      destruct (Z.ltb_spec (Z.of_nat r) 0); [lia|].
      replace (if Z.of_nat n <=? Z.of_nat r then Z.of_nat n - 1 else Z.of_nat r)
        with (Z.of_nat (Nat.min r (n - 1))).
      2:{ destruct (Z.leb_spec (Z.of_nat n) (Z.of_nat r)); lia. }
      rewrite (index_of_nat _ _ (Z.of_nat O)).
      2:{ rewrite length_map, argsort_length. fold n. lia. }
      rewrite (map_nth Z.of_nat). unfold resolve. fold r. fold n. reflexivity. }
  cbn [bind].
  rewrite <- (map_map (resolve all_id_strings) Z.of_nat).
  rewrite (take_of_nats all_id_strings _ EmptyString).
  2:{ apply Forall_forall. intros i Hi. apply in_map_iff in Hi as [v [<- _]].
      now apply resolve_lt. }
  cbn [bind]. rewrite !map_map.
  rewrite (differs_map (fun v => nth (resolve all_id_strings v) all_id_strings EmptyString)).
  fold (is_missing all_id_strings).
  destruct allow_missing.
  - rewrite <- (map_map (resolve all_id_strings) Z.of_nat) at 1.
    rewrite map_map.
    now rewrite (overwrite_map (fun v => Z.of_nat (resolve all_id_strings v))).
  - rewrite existsb_map_id, select_map. reflexivity.
Qed.

(** On a duplicate-free, non-empty universe the lookup honours its contract:
    with [allow_missing] every desired identifier gets the position of its
    occurrence, or [-1] when it has none; without it the call either returns
    the positions of all of them or raises, listing exactly the absent ones. *)
Lemma find_example_ids_allow_missing (all_id_strings desired_id_strings : list string) :
  NoDup all_id_strings -> all_id_strings <> [] ->
  exists indices,
    find_example_ids all_id_strings desired_id_strings true = Ok indices /\
    List.length indices = List.length desired_id_strings /\
    forall k v, nth_error desired_id_strings k = Some v ->
      (In v all_id_strings ->
         exists i, nth_error indices k = Some (Z.of_nat i) /\
                   nth_error all_id_strings i = Some v) /\
      (~ In v all_id_strings -> nth_error indices k = Some (-1)).
Proof.
  intros Hnodup Hne. eexists.
  split; [exact (find_example_ids_unfold _ _ true Hnodup Hne)|].
  split; [now rewrite length_map|].
  intros k v Hk. rewrite nth_error_map, Hk. cbn [option_map]. split; intros Hv.
  - destruct (is_missing all_id_strings v) eqn:M.
    + apply is_missing_iff in M; [contradiction | assumption].
    + exists (resolve all_id_strings v). split; [reflexivity|].
      rewrite <- (resolve_found _ _ Hv) at 2.
      apply nth_error_nth'. now apply resolve_lt.
  - apply (is_missing_iff _ _ Hne) in Hv. now rewrite Hv.
Qed.

Lemma find_example_ids_all_present (all_id_strings desired_id_strings : list string) :
  NoDup all_id_strings -> all_id_strings <> [] ->
  (forall v, In v desired_id_strings -> In v all_id_strings) ->
  find_example_ids all_id_strings desired_id_strings false =
  Ok (map (fun v => Z.of_nat (resolve all_id_strings v)) desired_id_strings).
Proof.
  intros Hnodup Hne Hall. rewrite find_example_ids_unfold by assumption.
  destruct (existsb _ _) eqn:E; [|reflexivity].
  apply existsb_exists in E as [v [Hv M]].
  apply (is_missing_iff _ _ Hne) in M. exfalso. now apply M, Hall.
Qed.


(** Whenever the strict lookup returns, it returns one valid position per
    desired identifier, and the universe holds that identifier there. *)
Lemma find_example_ids_ok_inv (all_id_strings desired_id_strings : list string)
    (indices : list Z) :
  find_example_ids all_id_strings desired_id_strings false = Ok indices ->
  indices = map (fun v => Z.of_nat (resolve all_id_strings v)) desired_id_strings /\
  forall v, In v desired_id_strings ->
    (resolve all_id_strings v < List.length all_id_strings)%nat /\
    nth (resolve all_id_strings v) all_id_strings EmptyString = v.
Proof.
  intros H.
  destruct (Nat.eq_dec (List.length (nodup string_dec all_id_strings))
                       (List.length all_id_strings)) as [Hlen|Hlen].
  2:{ unfold find_example_ids in H. apply Nat.eqb_neq in Hlen.
      rewrite Hlen in H. discriminate. }
  apply nodup_length_iff in Hlen.
  destruct all_id_strings as [|a0 rest] eqn:Eall.
  - destruct desired_id_strings as [|v vs].
    + inversion H; subst. split; [reflexivity | intros v []].
    + discriminate H.
  - rewrite <- Eall in *.
    assert (Hne : all_id_strings <> []) by (rewrite Eall; discriminate).
    rewrite find_example_ids_unfold in H by assumption.
    destruct (existsb _ _) eqn:E; [discriminate|].
    inversion H; subst indices. split; [reflexivity|].
    intros v Hv. split; [now apply resolve_lt|].
    destruct (is_missing all_id_strings v) eqn:M.
    + rewrite <- not_true_iff_false in E. exfalso. apply E.
      apply existsb_exists. now exists v.
    + unfold is_missing in M. apply negb_false_iff in M.
      now apply String.eqb_eq in M.
Qed.

(** C4 (the case the code misses).  With an empty universe and one desired
    identifier, the lookup with [allow_missing] raises [IndexError] instead of
    returning the sentinel: the insertion point is clamped to
    [len(all_id_strings) - 1 = -1], which indexes an empty array. *)
Theorem find_example_ids_empty_universe :
  find_example_ids [] ["time0000000000_row000_column000"] true = Raises IndexError /\
  find_example_ids [] ["time0000000000_row000_column000"] false = Raises IndexError.
Proof. split; reflexivity. Qed.

Lemma duplicate_ids_rejected
    (all_id_strings desired_id_strings : list string) (allow_missing : bool) :
  ~ NoDup all_id_strings ->
  find_example_ids all_id_strings desired_id_strings allow_missing =
  Raises (DuplicateIdsError (List.length all_id_strings)
            (List.length (nodup string_dec all_id_strings))).
Proof.
  intros Hdup. unfold find_example_ids.
  destruct (Nat.eqb_spec (List.length (nodup string_dec all_id_strings))
                         (List.length all_id_strings)) as [E|E].
  - exfalso. now apply Hdup, nodup_length_iff.
  - reflexivity.
Qed.

(** C5. Whenever [all_id_strings] holds a duplicate, [find_example_ids] raises
    the duplicate error, whatever the desired identifiers and the
    [allow_missing] flag: the error is decided by [all_id_strings] alone. *)
Theorem find_example_ids_rejects_duplicates
    (all_id_strings desired_id_strings : list string) (allow_missing : bool) :
  ~ NoDup all_id_strings ->
  find_example_ids all_id_strings desired_id_strings allow_missing =
  Raises (DuplicateIdsError (List.length all_id_strings)
            (List.length (nodup string_dec all_id_strings))).
Proof. apply duplicate_ids_rejected. Qed.

Lemma find_example_ids_rejects_duplicates_witness :
  ~ NoDup ["time0000000000_row001_column002"; "time0000000000_row001_column002"] /\
  find_example_ids
    ["time0000000000_row001_column002"; "time0000000000_row001_column002"]
    ["time0000000000_row009_column009"] true =
  Raises (DuplicateIdsError 2 1).
Proof.
  assert (H : ~ NoDup ["time0000000000_row001_column002";
                       "time0000000000_row001_column002"]).
  { intros H. inversion H as [|x l Hin _]; subst. apply Hin. now left. }
  split; [exact H|].
  exact (find_example_ids_rejects_duplicates _ ["time0000000000_row009_column009"]
           true H).
Defined.

(** ** The example store *)

(** Inversion of a successful monadic computation, one step at a time. *)
Ltac inv_ok H :=
  repeat match type of H with
    | bind ?m _ = Ok _ =>
        let E := fresh "E" in
        destruct m eqn:E; [cbn [bind] in H | discriminate H]
    | (if ?b then _ else _) = Ok _ =>
        let E := fresh "E" in destruct b eqn:E; try discriminate H
    | match ?x with _ => _ end = Ok _ =>
        let E := fresh "E" in destruct x eqn:E; try discriminate H
    end.

Section StoreProperties.

Context {F : Type}.

Local Abbreviation image := (image (F := F)).
Local Abbreviation normalization_dict := (normalization_dict (F := F)).
Local Abbreviation example_dict := (example_dict (F := F)).
Local Abbreviation nc_record := (nc_record (F := F)).
Local Abbreviation dataset := (dataset (F := F)).

Variable to_float32 : F -> F.
Variable fill_image : image.
Variable fill_target : list Z.
Variable fill_params : list F.
Variable Z_SCORE_STRING : string.
Variable HEIGHT_NAME : string.
Variable DUMMY_SURFACE_PRESSURE_MB : Z.
Variable denormalize_predictors_nonglobal :
  list image -> normalization_dict -> result (list image).
Variable normalize_predictors_global :
  list image -> list string -> list Z -> string ->
  result (list image * normalization_dict).
Variable normalize_predictors_nonglobal :
  list image -> string -> result (list image * normalization_dict).
Variable downsize_orography :
  list Z -> list Z -> Z -> Z -> result (list image).
Variable library : netcdf4 (F := F).

Local Abbreviation fill := (fill_record fill_image fill_target fill_params).
Local Abbreviation assign := (assign_slice fill_image fill_target fill_params).
Local Abbreviation write :=
  (write_file to_float32 fill_image fill_target fill_params library).
Local Abbreviation read :=
  (read_file Z_SCORE_STRING HEIGHT_NAME DUMMY_SURFACE_PRESSURE_MB
     denormalize_predictors_nonglobal normalize_predictors_global
     normalize_predictors_nonglobal downsize_orography).

Lemma store_cells_length {A : Type} (set : A -> nc_record -> nc_record)
    (data : list A) (records : list nc_record) :
  List.length (store_cells set data records) = List.length records.
Proof.
  revert records. induction data as [|v data IH]; intros [|r records]; simpl;
    try reflexivity.
  now rewrite IH.
Qed.

(** The cells given to a slice are as many as its records. *)
Lemma fitted_length {A : Type} (conforms : A -> bool)
    (fit : nat -> list A -> result (nat -> A)) (count : nat) (data cells : list A) :
  fitted conforms fit count data = Ok cells -> List.length cells = count.
Proof.
  unfold fitted. intros H.
  destruct ((List.length data =? count)%nat && forallb conforms data) eqn:E.
  - inversion H; subst. apply andb_true_iff in E as [E _].
    now apply Nat.eqb_eq in E.
  - destruct (fit count data); [|discriminate]. cbn [bind] in H.
    inversion H. now rewrite length_map, length_seq.
Qed.

Lemma fitted_conforming {A : Type} (conforms : A -> bool)
    (fit : nat -> list A -> result (nat -> A)) (count : nat) (data : list A) :
  List.length data = count -> forallb conforms data = true ->
  fitted conforms fit count data = Ok data.
Proof.
  intros Hl Hc. unfold fitted. now rewrite Hl, Nat.eqb_refl, Hc.
Qed.

(** A slice assignment leaves every record before [start] as it was and makes
    the dimension at least [start + count] long. *)
Lemma assign_slice_frame {A : Type} (set : A -> nc_record -> nc_record)
    (conforms : A -> bool) (fit : nat -> list A -> result (nat -> A))
    (start count : nat) (data : list A) (records res : list nc_record) :
  assign set conforms fit start count data records = Ok res ->
  (start <= List.length records)%nat ->
  firstn start res = firstn start records /\
  List.length res = Nat.max (List.length records) (start + count).
Proof.
  unfold assign_slice. intros H Hstart.
  destruct (fitted conforms fit count data) as [cells|] eqn:Ef; [|discriminate].
  cbn [bind] in H. inversion H; subst res; clear H.
  set (grown := records ++ repeat fill (start + count - List.length records)).
  assert (Hg : List.length grown = Nat.max (List.length records) (start + count)).
  { unfold grown. rewrite length_app, repeat_length. lia. }
  split.
  - rewrite firstn_app, length_firstn, Hg.
    replace (start - Nat.min start _)%nat with O by lia.
    rewrite firstn_O, List.app_nil_r, firstn_firstn, Nat.min_id.
    unfold grown. rewrite firstn_app.
    replace (start - List.length records)%nat with O by lia.
    now rewrite firstn_O, List.app_nil_r.
  - rewrite length_app, length_firstn, store_cells_length, length_skipn, Hg. lia.
Qed.

Lemma write_main_keys_frame (dims : dimensions) (d : example_dict)
    (start count : nat) (records res : list nc_record) :
  write_main_keys to_float32 fill_image fill_target fill_params library dims d
    start count records = Ok res ->
  (start <= List.length records)%nat ->
  firstn start res = firstn start records /\
  List.length res = Nat.max (List.length records) (start + count).
Proof.
  unfold write_main_keys. intros H Hstart. inv_ok H.
  repeat match goal with
    | E : assign_slice _ _ _ _ _ _ _ _ _ _ = Ok _ |- _ =>
        apply assign_slice_frame in E; [destruct E | lia]
    end.
  split; [congruence | lia].
Qed.

(** C3. Appending to a file that holds [E] examples a dictionary of [n]
    examples leaves the first [E] records, hence the first [E] rows of each of
    the seven example-indexed variables, as they were, makes the file
    [E + n] records long, and leaves the channel names, pressure levels,
    dilation distance, normalization type and mask of the file unchanged. *)
Theorem append_frame (f f' : dataset) (d : example_dict) :
  write (Some f) d true = Ok f' ->
  firstn (List.length (nc_records f)) (nc_records f') = nc_records f /\
  List.length (nc_records f') =
    (List.length (nc_records f) + List.length (target_times_unix_sec d))%nat /\
  nc_narr_predictor_names f' = nc_narr_predictor_names f /\
  nc_pressure_levels_mb f' = nc_pressure_levels_mb f /\
  nc_dilation_distance_metres f' = nc_dilation_distance_metres f /\
  nc_normalization_type_string f' = nc_normalization_type_string f /\
  nc_narr_mask_matrix f' = nc_narr_mask_matrix f.
Proof.
  unfold write_file. intros H. inv_ok H.
  inversion H; subst f'; clear H. cbn.
  rewrite length_map in *.
  match goal with
  | E : write_main_keys _ _ _ _ _ _ _ _ _ _ = Ok _ |- _ =>
      apply write_main_keys_frame in E; [destruct E as [Hfirst Hlen] | lia]
  end.
  rewrite firstn_all in Hfirst.
  repeat split; [exact Hfirst | lia].
Qed.

Lemma list_eqb_false {A : Type} (eqb : A -> A -> bool) (a b : list A) :
  (forall x y, eqb x y = true -> x = y) -> a <> b -> list_eqb eqb a b = false.
Proof.
  intros Heq. revert b. induction a as [|x a IH]; intros [|y b] Hne; simpl;
    try reflexivity; [congruence|].
  destruct (eqb x y) eqn:E; [|reflexivity]. simpl.
  apply IH. intros ->. apply Hne. f_equal. now apply Heq.
Qed.

(** The checks of the append path that do compare for equality: a
    normalization type, a pressure-level list, a name list or a mask that
    differs from the stored one makes the append raise, and so does a dilation
    distance that [numpy.isclose] tells apart from the stored one. *)
Lemma append_rejects_mismatch (f : dataset) (d : example_dict) :
  Py.isclose (nc_dilation_distance_metres f) (dilation_distance_metres d)
    Py.default_rtol TOLERANCE = false \/
  nc_normalization_type_string f <> Some (normalization_type_string d) \/
  nc_pressure_levels_mb f <> pressure_levels_mb d \/
  nc_narr_predictor_names f <> narr_predictor_names d \/
  nc_narr_mask_matrix f <> narr_mask_matrix d ->
  exists e, write (Some f) d true = Raises e.
Proof.
  intros H. unfold write_file.
  destruct (Py.isclose _ _ _ _) eqn:C; [|eexists; reflexivity].
  destruct H as [H|H]; [discriminate|]. cbn [assert bind].
  unfold getattr_normalization_type.
  destruct (nc_normalization_type_string f) as [t|]; [|eexists; reflexivity].
  cbn [bind].
  destruct (String.eqb_spec t (normalization_type_string d)) as [->|Ht];
    [|eexists; reflexivity].
  destruct H as [H|H]; [congruence|]. cbn [assert bind].
  destruct (list_eqb Z.eqb _ _) eqn:L; [|eexists; reflexivity].
  destruct H as [H|H].
  { rewrite list_eqb_false in L; [discriminate | apply Z.eqb_eq | exact H]. }
  cbn [assert bind].
  destruct (list_eqb String.eqb _ _) eqn:N; [|eexists; reflexivity].
  destruct H as [H|H].
  { rewrite list_eqb_false in N; [discriminate | apply String.eqb_eq | exact H]. }
  cbn [assert bind].
  rewrite list_eqb_false; [eexists; reflexivity | | exact H].
  intros x y Hxy. destruct (list_eq_dec Z.eq_dec x y) as [|Hne]; [assumption|].
  rewrite list_eqb_false in Hxy; [discriminate | apply Z.eqb_eq | exact Hne].
Qed.


Definition first_time_or_default (t : option Z) : Z :=
  match t with Some t => t | None => 0 end.

Definition last_time_or_default (t : option Z) : Z :=
  match t with Some t => t | None => LARGE_INTEGER end.


(** *** Round trip through the store *)

Lemma store_cells_other {A B : Type} (set : A -> nc_record -> nc_record)
    (p : nc_record -> B) (data : list A) (records : list nc_record) :
  (forall v r, p (set v r) = p r) ->
  map p (store_cells set data records) = map p records.
Proof.
  intros Hp. revert records.
  induction data as [|v data IH]; intros [|r records]; simpl; try reflexivity.
  now rewrite Hp, IH.
Qed.

Lemma store_cells_own {A B : Type} (set : A -> nc_record -> nc_record)
    (p : nc_record -> B) (c : A -> B) (data : list A) (records : list nc_record) :
  (forall v r, p (set v r) = c v) ->
  List.length data = List.length records ->
  map p (store_cells set data records) = map c data.
Proof.
  intros Hp. revert records.
  induction data as [|v data IH]; intros [|r records]; simpl; intros Hlen;
    try reflexivity; try discriminate.
  rewrite Hp, IH by lia. reflexivity.
Qed.

(** A slice assignment that starts right after the records already written. *)
Lemma assign_slice_append {A : Type} (set : A -> nc_record -> nc_record)
    (conforms : A -> bool) (fit : nat -> list A -> result (nat -> A))
    (count : nat) (data : list A) (records new : list nc_record) :
  List.length data = count -> forallb conforms data = true ->
  (List.length new <= count)%nat ->
  assign set conforms fit (List.length records) count data (records ++ new) =
  Ok (records ++ store_cells set data (new ++ repeat fill (count - List.length new))).
Proof.
  intros Hdata Hconf Hnew. unfold assign_slice.
  rewrite (fitted_conforming conforms fit count data Hdata Hconf). cbn [bind].
  f_equal.
  rewrite length_app.
  replace (List.length records + count - (List.length records + List.length new))%nat
    with (count - List.length new)%nat by lia.
  rewrite <- app_assoc.
  rewrite firstn_app, firstn_all, Nat.sub_diag, firstn_O, List.app_nil_r.
  rewrite skipn_app, skipn_all, Nat.sub_diag. reflexivity.
Qed.

Lemma assign_slice_first {A : Type} (set : A -> nc_record -> nc_record)
    (conforms : A -> bool) (fit : nat -> list A -> result (nat -> A))
    (count : nat) (data : list A) (records : list nc_record) :
  List.length data = count -> forallb conforms data = true ->
  assign set conforms fit (List.length records) count data records =
  Ok (records ++ store_cells set data (repeat fill count)).
Proof.
  intros Hdata Hconf.
  pose proof (assign_slice_append set conforms fit count data records []
                Hdata Hconf) as H.
  cbn [List.length app] in H. rewrite Nat.sub_0_r, List.app_nil_r in H.
  apply H. lia.
Qed.

(** The records that one dictionary contributes to the file. *)
Definition or_empty {A : Type} (field : option (list A)) : list A :=
  match field with Some l => l | None => [] end.

Definition rows_of (d : example_dict) : list nc_record :=
  store_cells (set_second_norm_param to_float32)
    (or_empty (second_normalization_param_matrix d))
    (store_cells (set_first_norm_param to_float32)
       (or_empty (first_normalization_param_matrix d))
       (store_cells set_column_index (column_indices d)
          (store_cells set_row_index (row_indices d)
             (store_cells set_valid_time (target_times_unix_sec d)
                (store_cells set_target (or_empty (target_matrix d))
                   (store_cells (set_predictor to_float32)
                      (or_empty (predictor_matrix d))
                      (repeat fill (List.length (target_times_unix_sec d))))))))).

Definition has_rows {A : Type} (n : nat) (field : option (list A)) : bool :=
  match field with
  | Some l => (List.length l =? n)%nat
  | None => false
  end.

(** All twelve keys are present and the seven example-indexed arrays agree on
    the number of examples. *)
Definition well_formed (d : example_dict) : bool :=
  let n := List.length (target_times_unix_sec d) in
  has_rows n (predictor_matrix d) && has_rows n (target_matrix d) &&
  (List.length (row_indices d) =? n)%nat &&
  (List.length (column_indices d) =? n)%nat &&
  has_rows n (first_normalization_param_matrix d) &&
  has_rows n (second_normalization_param_matrix d).

Lemma has_rows_inv {A : Type} (n : nat) (field : option (list A)) :
  has_rows n field = true -> exists l, field = Some l /\ List.length l = n.
Proof.
  destruct field as [l|]; simpl; [|discriminate].
  intros H. apply Nat.eqb_eq in H. now exists l.
Qed.

(** Every cell of the dictionary has the shape that the fixed dimensions give
    its variable. *)
Definition conforms_to (dims : dimensions) (d : example_dict) : bool :=
  forallb (conforms_predictor dims) (or_empty (predictor_matrix d)) &&
  forallb (conforms_target dims) (or_empty (target_matrix d)) &&
  forallb (conforms_params dims) (or_empty (first_normalization_param_matrix d)) &&
  forallb (conforms_params dims) (or_empty (second_normalization_param_matrix d)).

Lemma conforms_index_all (l : list Z) : forallb conforms_index l = true.
Proof. now induction l. Qed.

Lemma write_main_keys_append (dims : dimensions) (d : example_dict)
    (records : list nc_record) :
  well_formed d = true -> conforms_to dims d = true ->
  write_main_keys to_float32 fill_image fill_target fill_params library dims d
    (List.length records) (List.length (target_times_unix_sec d)) records
  = Ok (records ++ rows_of d).
Proof.
  unfold well_formed, conforms_to. rewrite !andb_true_iff.
  intros [[[[[Hp Ht] Hr] Hc] H1] H2] [[[Cp Ct] C1] C2].
  apply has_rows_inv in Hp as [pm [Ep Lp]], Ht as [tm [Et Lt]],
    H1 as [n1 [E1 L1]], H2 as [n2 [E2 L2]].
  apply Nat.eqb_eq in Hr, Hc.
  unfold write_main_keys, rows_of. rewrite Ep, Et, E1, E2 in *.
  cbn [get bind or_empty] in *.
  set (n := List.length (target_times_unix_sec d)) in *.
  rewrite (assign_slice_first _ _ _ _ _ _ Lp Cp). cbn [bind].
  repeat (rewrite assign_slice_append;
          [ cbn [bind]; rewrite ?store_cells_length, ?repeat_length, ?Nat.sub_diag;
            cbn [repeat]; rewrite ?List.app_nil_r
          | assumption || reflexivity
          | assumption || apply conforms_index_all
          | rewrite ?store_cells_length, ?repeat_length; lia ]).
  reflexivity.
Qed.

Ltac rows_of_projection :=
  unfold rows_of;
  repeat match goal with
    | |- map ?p (store_cells ?set ?data ?recs) = _ =>
        first
          [ rewrite (store_cells_other set p data recs (fun _ _ => eq_refl))
          | rewrite (store_cells_own set p _ data recs (fun _ _ => eq_refl))
              by (rewrite ?store_cells_length, ?repeat_length; (assumption || reflexivity));
            reflexivity ]
    end.

Lemma well_formed_lengths (d : example_dict) :
  well_formed d = true ->
  let n := List.length (target_times_unix_sec d) in
  List.length (or_empty (predictor_matrix d)) = n /\
  List.length (or_empty (target_matrix d)) = n /\
  List.length (row_indices d) = n /\
  List.length (column_indices d) = n /\
  List.length (or_empty (first_normalization_param_matrix d)) = n /\
  List.length (or_empty (second_normalization_param_matrix d)) = n.
Proof.
  unfold well_formed. rewrite !andb_true_iff.
  intros [[[[[Hp Ht] Hr] Hc] H1] H2].
  apply has_rows_inv in Hp as [pm [Ep Lp]], Ht as [tm [Et Lt]],
    H1 as [n1 [E1 L1]], H2 as [n2 [E2 L2]].
  apply Nat.eqb_eq in Hr, Hc. rewrite Ep, Et, E1, E2. cbn. auto 10.
Qed.

Lemma rows_of_columns (d : example_dict) :
  well_formed d = true ->
  map rec_predictor (rows_of d) =
    map (map (map (map to_float32))) (or_empty (predictor_matrix d)) /\
  map rec_target (rows_of d) = map (map Py.to_int32) (or_empty (target_matrix d)) /\
  map rec_valid_time (rows_of d) = map Py.to_int32 (target_times_unix_sec d) /\
  map rec_row_index (rows_of d) = map Py.to_int32 (row_indices d) /\
  map rec_column_index (rows_of d) = map Py.to_int32 (column_indices d) /\
  map rec_first_norm_param (rows_of d) =
    map (map to_float32) (or_empty (first_normalization_param_matrix d)) /\
  map rec_second_norm_param (rows_of d) =
    map (map to_float32) (or_empty (second_normalization_param_matrix d)).
Proof.
  intros H. destruct (well_formed_lengths d H) as (Lp & Lt & Lr & Lc & L1 & L2).
  repeat split; rows_of_projection.
Qed.

(** Creating a file and then appending to it, dictionary by dictionary. *)
Fixpoint append_all (f : dataset) (ds : list example_dict) : result dataset :=
  match ds with
  | [] => Ok f
  | d :: ds' => f' <- write (Some f) d true ;; append_all f' ds'
  end.

Definition write_then_append (d0 : example_dict) (ds : list example_dict)
    : result dataset :=
  f <- write None d0 false ;; append_all f ds.

(** The five schema assertions of the append path, taken together. *)
Definition accepts (f : dataset) (d : example_dict) : bool :=
  Py.isclose (nc_dilation_distance_metres f) (dilation_distance_metres d)
    Py.default_rtol TOLERANCE &&
  match nc_normalization_type_string f with
  | Some t => String.eqb t (normalization_type_string d)
  | None => false
  end &&
  list_eqb Z.eqb (nc_pressure_levels_mb f) (pressure_levels_mb d) &&
  list_eqb String.eqb (nc_narr_predictor_names f) (narr_predictor_names d) &&
  list_eqb (list_eqb Z.eqb) (nc_narr_mask_matrix f) (narr_mask_matrix d).

Definition with_records (f : dataset) (records : list nc_record) : dataset :=
  {| nc_dilation_distance_metres := nc_dilation_distance_metres f;
     nc_normalization_type_string := nc_normalization_type_string f;
     nc_narr_predictor_names := nc_narr_predictor_names f;
     nc_pressure_levels_mb := nc_pressure_levels_mb f;
     nc_narr_mask_matrix := nc_narr_mask_matrix f;
     nc_dimensions := nc_dimensions f;
     nc_records := records |}.

(** The longest name, at least one character: what the loop over the channels
    computes when there is a name for every channel. *)
Definition longest (names : list string) (num_predictor_chars : nat) : nat :=
  fold_left (fun n name => Nat.max n (String.length name)) names
    num_predictor_chars.

(** The fixed dimensions that the shapes of the arrays of a dictionary give a
    new file. *)
Definition dimensions_of (d : example_dict) : dimensions :=
  let shape :=
    match predictor_shape (or_empty (predictor_matrix d)) with
    | Some shape => shape
    | None => (O, O, O)
    end in
  {| narr_row := List.length (narr_mask_matrix d);
     narr_column := List.length (hd [] (narr_mask_matrix d));
     example_row := fst (fst shape);
     example_column := snd (fst shape);
     predictor_variable := snd shape;
     predictor_variable_char := longest (narr_predictor_names d) 1;
     class_dimension := List.length (hd [] (or_empty (target_matrix d))) |}.

(** The arrays of the dictionary are rectangular, none of their axes is
    empty, and there is one name and one pressure level per channel: the
    shapes give a new file its dimensions, and every array fills its
    variable. *)
Definition regular (d : example_dict) : bool :=
  match predictor_shape (or_empty (predictor_matrix d)),
        class_count (or_empty (target_matrix d)),
        mask_shape (narr_mask_matrix d) with
  | Some _, Some _, Some _ =>
      fits_dimensions (dimensions_of d) d && conforms_to (dimensions_of d) d
  | _, _, _ => false
  end.

(** The file that [write_file] creates from one dictionary. *)
Definition new_file (d : example_dict) : dataset :=
  {| nc_dilation_distance_metres := dilation_distance_metres d;
     nc_normalization_type_string := Some (normalization_type_string d);
     nc_narr_predictor_names := narr_predictor_names d;
     nc_pressure_levels_mb := map Py.to_int32 (pressure_levels_mb d);
     nc_narr_mask_matrix := map (map Py.to_int32) (narr_mask_matrix d);
     nc_dimensions := dimensions_of d;
     nc_records := rows_of d |}.

Lemma write_append_ok (f : dataset) (d : example_dict) :
  accepts f d = true -> well_formed d = true ->
  conforms_to (nc_dimensions f) d = true ->
  write (Some f) d true = Ok (with_records f (nc_records f ++ rows_of d)).
Proof.
  unfold accepts. rewrite !andb_true_iff.
  intros [[[[Hc Ht] Hl] Hn] Hm] Hwf Hcf.
  unfold write_file, getattr_normalization_type. rewrite Hc. cbn [assert bind].
  destruct (nc_normalization_type_string f) as [t|] eqn:En; [|discriminate].
  cbn [bind]. rewrite Ht, Hl, Hn, Hm. cbn [assert bind].
  rewrite length_map, write_main_keys_append by assumption.
  unfold with_records. rewrite En. reflexivity.
Qed.

Lemma assign_all_first {A : Type} (set : A -> nc_record -> nc_record)
    (conforms : A -> bool) (fit : nat -> list A -> result (nat -> A))
    (data : list A) :
  forallb conforms data = true ->
  assign_all fill_image fill_target fill_params set conforms fit data [] =
  Ok (store_cells set data (repeat fill (List.length data))).
Proof.
  intros Hc.
  exact (assign_slice_first set conforms fit (List.length data) data [] eq_refl Hc).
Qed.

Lemma assign_all_cells {A : Type} (set : A -> nc_record -> nc_record)
    (conforms : A -> bool) (fit : nat -> list A -> result (nat -> A))
    (data : list A) (new : list nc_record) :
  forallb conforms data = true ->
  List.length new = List.length data ->
  assign_all fill_image fill_target fill_params set conforms fit data new =
  Ok (store_cells set data new).
Proof.
  intros Hc Hlen.
  pose proof (assign_slice_append set conforms fit (List.length data) data []
                new eq_refl Hc) as H.
  rewrite Hlen, Nat.sub_diag in H. cbn [repeat app List.length] in H.
  rewrite List.app_nil_r in H. apply H. lia.
Qed.

Lemma longest_name_from (names : list string) :
  forall (before : list string) (num_predictor_chars : nat),
    longest_name
      (map Z.of_nat (seq (List.length before) (List.length names)))
      (before ++ names) num_predictor_chars
    = Ok (longest names num_predictor_chars).
Proof.
  induction names as [|name names IH]; intros before n; [reflexivity|].
  cbn [List.length seq map longest_name].
  rewrite (index_of_nat _ _ EmptyString) by (rewrite length_app; cbn; lia).
  rewrite nth_middle. cbn [bind].
  replace (before ++ name :: names) with ((before ++ [name]) ++ names)
    by now rewrite <- app_assoc.
  replace (S (List.length before)) with (List.length (before ++ [name]))
    by (rewrite length_app; cbn; lia).
  apply IH.
Qed.

Lemma write_new_ok (d : example_dict) :
  well_formed d = true -> regular d = true ->
  write None d false = Ok (new_file d).
Proof.
  intros Hwf Hreg.
  destruct (well_formed_lengths d Hwf) as (Lp & Lt & Lr & Lc & L1 & L2).
  unfold well_formed in Hwf. rewrite !andb_true_iff in Hwf.
  destruct Hwf as [[[[[Hp Ht] _] _] H1] H2].
  apply has_rows_inv in Hp as [pm [Ep _]], Ht as [tm [Et _]],
    H1 as [n1 [E1 _]], H2 as [n2 [E2 _]].
  unfold regular in Hreg. unfold write_file, new_file, dimensions_of in *.
  rewrite Ep, Et in *. cbn [get bind or_empty] in *.
  destruct (predictor_shape pm) as [[[M N] C]|] eqn:Es; [|discriminate].
  destruct tm as [|row tm]; [discriminate|]. cbn [class_count hd fst snd] in *.
  destruct (mask_shape (narr_mask_matrix d)) as [[R K]|] eqn:Em; [|discriminate].
  apply andb_true_iff in Hreg as [Hfit Hconf].
  assert (En : List.length (narr_predictor_names d) = C).
  { unfold fits_dimensions in Hfit. cbn [predictor_variable] in Hfit.
    rewrite !andb_true_iff in Hfit. destruct Hfit as [[[_ Hn] _] _].
    now apply Nat.eqb_eq in Hn. }
  pose proof (longest_name_from (narr_predictor_names d) [] 1) as Hl.
  cbn [List.length app] in Hl. rewrite En in Hl. rewrite Hl. cbn [bind].
  assert (Emask : R = List.length (narr_mask_matrix d) /\
                  K = List.length (hd [] (narr_mask_matrix d))).
  { unfold mask_shape in Em. destruct (narr_mask_matrix d) as [|[|v r] m];
      try discriminate. inversion Em. now split. }
  destruct Emask as [-> ->]. rewrite Hfit.
  unfold create_main_variables, rows_of, conforms_to in *.
  rewrite Ep, Et, E1, E2 in *. cbn [get bind or_empty] in *.
  rewrite !andb_true_iff in Hconf. destruct Hconf as [[[Cp Ct] C1] C2].
  rewrite assign_all_first by assumption. cbn [bind]. rewrite Lp.
  repeat (rewrite assign_all_cells;
          [ cbn [bind]
          | assumption || apply conforms_index_all
          | rewrite ?store_cells_length, ?repeat_length; congruence ]).
  reflexivity.
Qed.

Lemma append_all_ok (f : dataset) (ds : list example_dict) :
  Forall (fun d => accepts f d = true /\ well_formed d = true /\
                   conforms_to (nc_dimensions f) d = true) ds ->
  append_all f ds =
  Ok (with_records f (nc_records f ++ List.concat (map rows_of ds))).
Proof.
  intros H. revert f H. induction ds as [|d ds IH]; intros f H;
    cbn [append_all map List.concat].
  - rewrite List.app_nil_r. now destruct f.
  - inversion H as [|? ? (Ha & Hw & Hc) Hrest]; subst.
    rewrite write_append_ok by assumption. cbn [bind].
    rewrite IH by exact Hrest. cbn. now rewrite <- app_assoc.
Qed.

(** Reading everything back: every stored valid time lies in the default time
    window and there is at least one record. *)
Lemma where_from_all_true (start : nat) (flags : list bool) :
  Forall (fun b => b = true) flags ->
  Py.where_from start flags = map Z.of_nat (seq start (List.length flags)).
Proof.
  intros H. revert start. induction H as [|b flags -> _ IH]; intros start; simpl;
    [reflexivity | now rewrite IH].
Qed.

Lemma nth_seq_all {A : Type} (l : list A) (d : A) :
  map (fun i => nth i l d) (seq 0 (List.length l)) = l.
Proof.
  induction l as [|x l IH]; simpl; [reflexivity|].
  f_equal. rewrite <- seq_shift, map_map. exact IH.
Qed.

Lemma take_everything {A : Type} (l : list A) :
  Py.take l (map Z.of_nat (seq 0 (List.length l))) = Ok l.
Proof.
  destruct l as [|d l]; [reflexivity|].
  rewrite (take_of_nats _ _ d).
  - now rewrite nth_seq_all.
  - apply Forall_forall. intros i Hi. apply in_seq in Hi. lia.
Qed.

Lemma take_column {A : Type} (p : nc_record -> A) (records : list nc_record) :
  Py.take (map p records) (map Z.of_nat (seq 0 (List.length records))) =
  Ok (map p records).
Proof. rewrite <- (length_map p records). apply take_everything. Qed.

Lemma read_everything (f : dataset) :
  nc_records f <> [] ->
  (forall r, In r (nc_records f) -> 0 <= rec_valid_time r <= LARGE_INTEGER) ->
  read f false None None None None None None None None =
  Ok (Some
        {| predictor_matrix := Some (map rec_predictor (nc_records f));
           target_matrix := Some (map rec_target (nc_records f));
           target_times_unix_sec := map rec_valid_time (nc_records f);
           row_indices := map rec_row_index (nc_records f);
           column_indices := map rec_column_index (nc_records f);
           narr_predictor_names := nc_narr_predictor_names f;
           pressure_levels_mb := nc_pressure_levels_mb f;
           dilation_distance_metres := nc_dilation_distance_metres f;
           narr_mask_matrix := nc_narr_mask_matrix f;
           normalization_type_string :=
             match nc_normalization_type_string f with
             | Some t => t
             | None => Z_SCORE_STRING
             end;
           first_normalization_param_matrix :=
             Some (map rec_first_norm_param (nc_records f));
           second_normalization_param_matrix :=
             Some (map rec_second_norm_param (nc_records f)) |}).
Proof.
  intros Hne Htimes. unfold read_file.
  change (LARGE_INTEGER <? 0) with false. cbn [bind].
  unfold Py.where_. rewrite where_from_all_true.
  2:{ rewrite map_map. apply Forall_forall. intros b Hb.
      apply in_map_iff in Hb as [r [<- Hr]]. specialize (Htimes r Hr).
      destruct (Z.leb_spec 0 (rec_valid_time r)); [|lia].
      destruct (Z.leb_spec (rec_valid_time r) LARGE_INTEGER); [reflexivity | lia]. }
  rewrite ?length_map, ?length_seq.
  assert (Hlen : (List.length (nc_records f) =? 0)%nat = false).
  { apply Nat.eqb_neq. destruct (nc_records f); [congruence | discriminate]. }
  rewrite Hlen. unfold _read_specific_examples.
  rewrite !take_column. reflexivity.
Qed.

Definition in_int32 (z : Z) : bool := (- 2 ^ 31 <=? z) && (z <? 2 ^ 31).

(** The integers of the dictionary survive the [int32] variables, and its
    valid times also lie in the default time window of [read_file]. *)
Definition storable (d : example_dict) : bool :=
  forallb (fun t => (0 <=? t) && (t <? 2 ^ 31)) (target_times_unix_sec d) &&
  forallb in_int32 (row_indices d) &&
  forallb in_int32 (column_indices d) &&
  forallb (forallb in_int32) (or_empty (target_matrix d)).

Lemma to_int32_id (z : Z) : in_int32 z = true -> Py.to_int32 z = z.
Proof.
  unfold in_int32, Py.to_int32. rewrite andb_true_iff, Z.leb_le, Z.ltb_lt.
  intros [Hlo Hhi]. rewrite Z.mod_small; lia.
Qed.

Lemma map_to_int32_id (l : list Z) :
  forallb in_int32 l = true -> map Py.to_int32 l = l.
Proof.
  induction l as [|z l IH]; simpl; [reflexivity|].
  rewrite andb_true_iff. intros [Hz Hl]. now rewrite to_int32_id, IH.
Qed.

Lemma time_in_int32 (t : Z) :
  (0 <=? t) && (t <? 2 ^ 31) = true -> in_int32 t = true /\ 0 <= t <= LARGE_INTEGER.
Proof.
  unfold in_int32, LARGE_INTEGER. rewrite !andb_true_iff, !Z.leb_le, !Z.ltb_lt.
  lia.
Qed.

Lemma concat_map_ext {A B : Type} (g h : A -> list B) (l : list A) :
  (forall x, In x l -> g x = h x) ->
  List.concat (map g l) = List.concat (map h l).
Proof.
  intros H. f_equal. apply map_ext_in. exact H.
Qed.

Lemma map_concat_map {A B C : Type} (c : B -> C) (g : A -> list B) (l : list A) :
  List.concat (map (fun x => map c (g x)) l) = map c (List.concat (map g l)).
Proof. now rewrite concat_map, map_map. Qed.

Lemma storable_columns (d : example_dict) :
  well_formed d = true -> storable d = true ->
  map rec_target (rows_of d) = or_empty (target_matrix d) /\
  map rec_valid_time (rows_of d) = target_times_unix_sec d /\
  map rec_row_index (rows_of d) = row_indices d /\
  map rec_column_index (rows_of d) = column_indices d.
Proof.
  intros Hwf Hs.
  destruct (rows_of_columns d Hwf) as (_ & Ht & Hv & Hr & Hc & _).
  unfold storable in Hs. rewrite !andb_true_iff in Hs.
  destruct Hs as [[[Sv Sr] Sc] St].
  rewrite Ht, Hv, Hr, Hc. repeat split.
  - clear - St. induction (or_empty (target_matrix d)) as [|row rows IH];
      simpl in *; [reflexivity|].
    apply andb_true_iff in St as [Hrow Hrows].
    now rewrite map_to_int32_id, IH.
  - apply map_to_int32_id. clear - Sv.
    induction (target_times_unix_sec d) as [|t ts IH]; simpl in *; [reflexivity|].
    apply andb_true_iff in Sv as [Ht Hts].
    apply time_in_int32 in Ht as [Ht _]. now rewrite Ht, IH.
  - now apply map_to_int32_id.
  - now apply map_to_int32_id.
Qed.

Lemma storable_times (d : example_dict) (t : Z) :
  storable d = true -> In t (target_times_unix_sec d) -> 0 <= t <= LARGE_INTEGER.
Proof.
  unfold storable. rewrite !andb_true_iff. intros [[[Sv _] _] _] Ht.
  rewrite forallb_forall in Sv. now apply time_in_int32, Sv.
Qed.

(** X27. The round trip within the domain of the store.  A regular
    dictionary creates the file; dictionaries that pass the schema checks
    and whose cells have the shapes of the first one are appended; all hold
    all keys with consistent lengths, valid times in [0, 2^31 - 1] and other
    integers that fit in 32 bits.  Then the read with no option returns the
    arrays concatenated in write order: integer arrays exactly, float arrays
    through the 32-bit cast. *)
Theorem store_round_trip (d0 : example_dict) (ds : list example_dict) :
  well_formed d0 = true -> regular d0 = true -> storable d0 = true ->
  Forall (fun d => well_formed d = true /\ storable d = true /\
                   accepts (new_file d0) d = true /\
                   conforms_to (dimensions_of d0) d = true) ds ->
  exists f r,
    write_then_append d0 ds = Ok f /\
    read f false None None None None None None None None = Ok (Some r) /\
    predictor_matrix r =
      Some (map (map (map (map to_float32)))
              (List.concat (map (fun d => or_empty (predictor_matrix d)) (d0 :: ds)))) /\
    target_matrix r =
      Some (List.concat (map (fun d => or_empty (target_matrix d)) (d0 :: ds))) /\
    target_times_unix_sec r = List.concat (map target_times_unix_sec (d0 :: ds)) /\
    row_indices r = List.concat (map row_indices (d0 :: ds)) /\
    column_indices r = List.concat (map column_indices (d0 :: ds)) /\
    first_normalization_param_matrix r =
      Some (map (map to_float32)
              (List.concat (map (fun d => or_empty (first_normalization_param_matrix d))
                              (d0 :: ds)))) /\
    second_normalization_param_matrix r =
      Some (map (map to_float32)
              (List.concat (map (fun d => or_empty (second_normalization_param_matrix d))
                              (d0 :: ds)))).
Proof.
  intros Hwf0 Hreg0 Hs0 Hds.
  assert (Hne : List.concat (map target_times_unix_sec (d0 :: ds)) <> []).
  { cbn [map List.concat]. intros E. apply app_eq_nil in E as [E _].
    destruct (well_formed_lengths d0 Hwf0) as (Lp & _). rewrite E in Lp.
    unfold regular in Hreg0.
    destruct (or_empty (predictor_matrix d0)); [discriminate Hreg0 | discriminate Lp]. }
  assert (Hall : forall d, In d (d0 :: ds) -> well_formed d = true /\ storable d = true).
  { intros d [<-|Hd]; [now split|].
    rewrite Forall_forall in Hds. destruct (Hds d Hd) as (? & ? & _). now split. }
  set (f := with_records (new_file d0) (List.concat (map rows_of (d0 :: ds)))).
  assert (Hwrite : write_then_append d0 ds = Ok f).
  { unfold write_then_append. rewrite write_new_ok by assumption. cbn [bind].
    rewrite append_all_ok; [reflexivity|].
    eapply Forall_impl; [|exact Hds]. intros d (? & ? & ? & ?). now repeat split. }
  assert (Hcol : forall (B : Type) (p : nc_record -> B) (g : example_dict -> list B),
             (forall d, In d (d0 :: ds) -> map p (rows_of d) = g d) ->
             map p (nc_records f) = List.concat (map g (d0 :: ds))).
  { intros B p g Hg. unfold f. cbn [nc_records with_records].
    rewrite concat_map, map_map. now apply concat_map_ext. }
  assert (Htimes : map rec_valid_time (nc_records f)
                   = List.concat (map target_times_unix_sec (d0 :: ds))).
  { apply Hcol. intros d Hd. destruct (Hall d Hd) as [Hw Hs].
    now destruct (storable_columns d Hw Hs) as (_ & ? & _). }
  exists f. eexists. split; [exact Hwrite|]. split.
  - apply read_everything.
    + intros E. apply Hne. rewrite <- Htimes, E. reflexivity.
    + intros r Hr. apply (in_map rec_valid_time) in Hr. rewrite Htimes in Hr.
      apply in_concat in Hr as [ts [Hts Ht]]. apply in_map_iff in Hts as [d [<- Hd]].
      destruct (Hall d Hd) as [_ Hs]. now apply (storable_times d).
  - cbn [predictor_matrix target_matrix target_times_unix_sec row_indices
         column_indices first_normalization_param_matrix
         second_normalization_param_matrix].
    repeat split; try (f_equal); try rewrite <- map_concat_map; try exact Htimes;
      apply Hcol; intros d Hd; destruct (Hall d Hd) as [Hw Hs];
      destruct (rows_of_columns d Hw) as (Cp & _ & _ & _ & _ & C1 & C2);
      destruct (storable_columns d Hw Hs) as (Ct & Cv & Cr & Cc);
      assumption.
Qed.

(** *** Reading by identifier *)

(** The text of an identifier. *)
Definition id_text (t r c : Z) : string :=
  ("time" ++ Py.format_0d 10 t ++ "_row" ++ Py.format_0d 3 r ++
   "_column" ++ Py.format_0d 3 c)%string.

Lemma create_example_id_text (t r c : Z) (check_args : bool) :
  0 <= r -> 0 <= c -> create_example_id t r c check_args = Ok (id_text t r c).
Proof.
  intros Hr Hc. unfold create_example_id.
  destruct (Z.ltb_spec r 0); [lia|]. destruct (Z.ltb_spec c 0); [lia|].
  rewrite !andb_false_r. reflexivity.
Qed.

(** The identifiers of the examples stored in a file, in file order. *)
Definition stored_ids (records : list nc_record) : list string :=
  map (fun r => id_text (rec_valid_time r) (rec_row_index r) (rec_column_index r))
      records.

Definition stored_indices_ok (records : list nc_record) : bool :=
  forallb (fun r => 0 <=? rec_row_index r) records &&
  forallb (fun r => 0 <=? rec_column_index r) records.

Lemma zip3_maps {A B C D : Type} (f : A -> B) (g : A -> C) (h : A -> D) (l : list A) :
  zip3 (map f l) (map g l) (map h l) = map (fun x => (f x, g x, h x)) l.
Proof. induction l as [|x l IH]; simpl; [reflexivity | now rewrite IH]. Qed.

Lemma forallb_map {A B : Type} (p : B -> bool) (f : A -> B) (l : list A) :
  forallb p (map f l) = forallb (fun x => p (f x)) l.
Proof. induction l as [|x l IH]; simpl; [reflexivity | now rewrite IH]. Qed.

Lemma create_example_ids_records (records : list nc_record) :
  create_example_ids (map rec_valid_time records) (map rec_row_index records)
    (map rec_column_index records) =
  if stored_indices_ok records then Ok (stored_ids records)
  else if forallb (fun r => 0 <=? rec_row_index r) records
       then Raises (ValueError "column_indices")
       else Raises (ValueError "row_indices").
Proof.
  unfold create_example_ids, stored_indices_ok.
  rewrite !forallb_map, !length_map, Nat.eqb_refl.
  destruct (forallb (fun r => 0 <=? rec_row_index r) records) eqn:Er;
    [|reflexivity].
  destruct (forallb (fun r => 0 <=? rec_column_index r) records) eqn:Ec;
    [|reflexivity].
  cbn [bind andb]. rewrite zip3_maps. unfold stored_ids.
  rewrite <- (map_map (fun x => (rec_valid_time x, rec_row_index x, rec_column_index x))
                      (fun '(t, r, c) => id_text t r c)).
  apply mapM_ok. intros [[t r] c] Hin.
  apply in_map_iff in Hin as [rec [E Hrec]]. inversion E; subst.
  rewrite forallb_forall in Er, Ec.
  apply create_example_id_text; apply Z.leb_le; auto.
Qed.

(** The three arrays that locate the examples of a dictionary. *)
Definition same_examples (d d' : example_dict) : Prop :=
  target_times_unix_sec d' = target_times_unix_sec d /\
  row_indices d' = row_indices d /\
  column_indices d' = column_indices d.

Lemma add_orography_same_examples (d d' : example_dict) (file : option string) :
  _add_orography_to_examples Z_SCORE_STRING HEIGHT_NAME DUMMY_SURFACE_PRESSURE_MB
    normalize_predictors_global normalize_predictors_nonglobal downsize_orography
    d file = Ok d' ->
  same_examples d d'.
Proof.
  unfold _add_orography_to_examples. intros H. inv_ok H;
    inversion H; subst; repeat split.
Qed.

Lemma subset_channels_same_examples (d d' : example_dict) (metadata_only : bool)
    (names : list string) (levels : list Z) (file : option string) :
  _subset_channels Z_SCORE_STRING HEIGHT_NAME DUMMY_SURFACE_PRESSURE_MB
    normalize_predictors_global normalize_predictors_nonglobal downsize_orography
    d metadata_only names levels file = Ok d' ->
  same_examples d d'.
Proof.
  unfold _subset_channels. intros H. inv_ok H;
    try (inversion H; subst; repeat split; fail).
  apply add_orography_same_examples in H. exact H.
Qed.

Lemma denormalize_same_examples (d d' : example_dict) :
  denormalize_examples Z_SCORE_STRING denormalize_predictors_nonglobal d = Ok d' ->
  same_examples d d'.
Proof.
  unfold denormalize_examples. intros H. inv_ok H;
    inversion H; subst; repeat split.
Qed.

Lemma read_specific_examples_meta (f : dataset) (metadata_only : bool)
    (indices : list Z) (d : example_dict) :
  _read_specific_examples Z_SCORE_STRING f metadata_only indices = Ok d ->
  Py.take (map rec_valid_time (nc_records f)) indices = Ok (target_times_unix_sec d) /\
  Py.take (map rec_row_index (nc_records f)) indices = Ok (row_indices d) /\
  Py.take (map rec_column_index (nc_records f)) indices = Ok (column_indices d).
Proof.
  unfold _read_specific_examples. intros H. inv_ok H;
    inversion H; subst; repeat split.
Qed.

Lemma read_file_by_ids_inv (f : dataset) (metadata_only : bool)
    (names : option (list string)) (levels : option (list Z))
    (half_rows half_columns : option Z) (ids : list string)
    (first_time last_time : option Z) (file : option string)
    (res : option example_dict) :
  read f metadata_only names levels half_rows half_columns (Some ids)
    first_time last_time file = Ok res ->
  exists indices,
    stored_indices_ok (nc_records f) = true /\
    find_example_ids (stored_ids (nc_records f)) ids false = Ok indices /\
    match res with
    | None => indices = []
    | Some r =>
        indices <> [] /\
        Py.take (map rec_valid_time (nc_records f)) indices
          = Ok (target_times_unix_sec r) /\
        Py.take (map rec_row_index (nc_records f)) indices = Ok (row_indices r) /\
        Py.take (map rec_column_index (nc_records f)) indices
          = Ok (column_indices r)
    end.
Proof.
  unfold read_file. rewrite create_example_ids_records. intros H.
  destruct (stored_indices_ok (nc_records f)) eqn:Eok.
  2:{ destruct (forallb _ _); discriminate H. }
  cbn [bind] in H.
  destruct (find_example_ids (stored_ids (nc_records f)) ids false)
    as [indices|] eqn:Efind; [|discriminate H].
  cbn [bind] in H. exists indices. split; [reflexivity|]. split; [reflexivity|].
  destruct indices as [|i0 indices].
  { cbn in H. now inversion H. }
  cbn [List.length Nat.eqb] in H.
  destruct (_read_specific_examples _ _ _ _) as [d1|] eqn:Eread; [|discriminate H].
  cbn [bind] in H.
  apply read_specific_examples_meta in Eread.
  assert (Hsame : forall d2 r, same_examples d1 d2 ->
            match names, levels with
            | Some n, Some l =>
                example_dict <-
                  _subset_channels Z_SCORE_STRING HEIGHT_NAME DUMMY_SURFACE_PRESSURE_MB
                    normalize_predictors_global normalize_predictors_nonglobal
                    downsize_orography d2 metadata_only n l file ;;
                Ok (Some example_dict)
            | _, _ => Ok (Some d2)
            end = Ok r ->
            exists r', r = Some r' /\ same_examples d1 r').
  { intros d2 r (Ht & Hr & Hc) Hr2.
    destruct names as [n|]; [destruct levels as [l|]|].
    - destruct (_subset_channels _ _ _ _ _ _ _ _ _ _ _) as [d3|] eqn:Es;
        [|discriminate].
      cbn [bind] in Hr2. inversion Hr2; subst. exists d3. split; [reflexivity|].
      apply subset_channels_same_examples in Es as (Ht' & Hr' & Hc').
      repeat split; congruence.
    - inversion Hr2; subst. now exists d2.
    - inversion Hr2; subst. now exists d2. }
  assert (Hres : exists r', res = Some r' /\ same_examples d1 r').
  { destruct metadata_only.
    - cbn [bind] in H. apply (Hsame d1); [now repeat split | exact H].
    - match type of H with
      | bind ?m _ = _ => destruct m as [d2|] eqn:Emid; [|discriminate H]
      end.
      cbn [bind] in H. apply (Hsame d2); [|exact H].
      inv_ok Emid; inversion Emid; subst; try (now repeat split).
      match goal with
      | E : denormalize_examples _ _ _ = Ok _ |- _ =>
          apply denormalize_same_examples in E; destruct E as (Dt & Dr & Dc)
      end.
      cbn in Dt, Dr, Dc. repeat split; cbn; congruence. }
  destruct Hres as [r' [-> (Ht & Hr & Hc)]].
  destruct Eread as (Et & Er & Ec).
  rewrite Ht, Hr, Hc. repeat split; try assumption. discriminate.
Qed.

Lemma take_stored_column {B : Type} (p : nc_record -> B) (records : list nc_record)
    (ids : list string) (column : list B) :
  (forall v, In v ids ->
     (resolve (stored_ids records) v < List.length (stored_ids records))%nat) ->
  Py.take (map p records)
    (map (fun v => Z.of_nat (resolve (stored_ids records) v)) ids) = Ok column ->
  column = map (fun v => p (nth (resolve (stored_ids records) v) records fill)) ids.
Proof.
  intros Hlt H.
  rewrite (take_map_ok _ _
             (fun v => p (nth (resolve (stored_ids records) v) records fill))) in H.
  - now inversion H.
  - intros v Hv. specialize (Hlt v Hv).
    unfold stored_ids in Hlt at 2. rewrite length_map in Hlt.
    rewrite (index_of_nat _ _ (p fill)) by now rewrite length_map.
    now rewrite (map_nth p).
Qed.

(** C10. With a non-empty identifier list [read_file] never returns [None]:
    it raises, or returns a dictionary with one example per requested
    identifier, the [k]-th of which has the valid time, row and column that
    the [k]-th identifier encodes.  It raises when the stored identifiers hold
    a duplicate or a requested one is absent, and, when neither is the case,
    the stored indices are non-negative and no other option is given, it
    returns. *)
Theorem read_file_by_ids (f : dataset) (metadata_only : bool)
    (names : option (list string)) (levels : option (list Z))
    (half_rows half_columns : option Z) (ids : list string)
    (first_time last_time : option Z) (file : option string) :
  ids <> [] ->
  read f metadata_only names levels half_rows half_columns (Some ids)
    first_time last_time file <> Ok None /\
  (forall r,
     read f metadata_only names levels half_rows half_columns (Some ids)
       first_time last_time file = Ok (Some r) ->
     List.length (target_times_unix_sec r) = List.length ids /\
     List.length (row_indices r) = List.length ids /\
     List.length (column_indices r) = List.length ids /\
     forall k id, nth_error ids k = Some id ->
       exists t row column,
         nth_error (target_times_unix_sec r) k = Some t /\
         nth_error (row_indices r) k = Some row /\
         nth_error (column_indices r) k = Some column /\
         create_example_id t row column true = Ok id) /\
  (~ NoDup (stored_ids (nc_records f)) \/
   (exists id, In id ids /\ ~ In id (stored_ids (nc_records f))) ->
   exists e,
     read f metadata_only names levels half_rows half_columns (Some ids)
       first_time last_time file = Raises e) /\
  (stored_indices_ok (nc_records f) = true ->
   NoDup (stored_ids (nc_records f)) ->
   (forall id, In id ids -> In id (stored_ids (nc_records f))) ->
   exists r,
     read f metadata_only None None None None (Some ids) first_time last_time None
       = Ok (Some r)).
Proof.
  intros Hne. split; [|split; [|split]].
  - intros H. apply read_file_by_ids_inv in H as (indices & _ & Hfind & ->).
    apply find_example_ids_ok_inv in Hfind as [Hmap _].
    symmetry in Hmap. apply map_eq_nil in Hmap. contradiction.
  - intros r H.
    apply read_file_by_ids_inv in H as (indices & Hok & Hfind & _ & Ht & Hr & Hc).
    apply find_example_ids_ok_inv in Hfind as [-> Hres].
    assert (Hlt : forall v, In v ids ->
              (resolve (stored_ids (nc_records f)) v
               < List.length (stored_ids (nc_records f)))%nat)
      by (intros v Hv; now apply Hres).
    apply (take_stored_column _ _ _ _ Hlt) in Ht, Hr, Hc.
    rewrite Ht, Hr, Hc, !length_map. repeat split.
    intros k id Hk. rewrite !nth_error_map, Hk. cbn [option_map].
    set (j := resolve (stored_ids (nc_records f)) id).
    assert (Hin : In id ids) by (eapply nth_error_In; eauto).
    destruct (Hres id Hin) as [Hj Hid]. fold j in Hj, Hid.
    unfold stored_ids in Hj. rewrite length_map in Hj.
    do 3 eexists. repeat split.
    assert (Hrec : In (nth j (nc_records f) fill) (nc_records f))
      by now apply nth_In.
    unfold stored_indices_ok in Hok. apply andb_true_iff in Hok as [Hrow Hcol].
    rewrite forallb_forall in Hrow, Hcol.
    rewrite create_example_id_text by (apply Z.leb_le; auto).
    f_equal. rewrite <- Hid. unfold stored_ids.
    rewrite (nth_indep _ EmptyString
               (id_text (rec_valid_time fill) (rec_row_index fill)
                        (rec_column_index fill)))
      by now rewrite length_map.
    now rewrite (map_nth (fun r => id_text (rec_valid_time r) (rec_row_index r)
                                           (rec_column_index r))).
  - intros Hbad.
    destruct (read f metadata_only names levels half_rows half_columns (Some ids)
                first_time last_time file) as [res|e] eqn:H; [|now exists e].
    exfalso.
    apply read_file_by_ids_inv in H as (indices & _ & Hfind & _).
    destruct Hbad as [Hdup | (id & Hin & Habs)].
    + rewrite duplicate_ids_rejected in Hfind by exact Hdup.
      discriminate.
    + apply find_example_ids_ok_inv in Hfind as [_ Hres].
      destruct (Hres id Hin) as [Hj Hid]. apply Habs. rewrite <- Hid.
      now apply nth_In.
  - intros Hok Hnodup Hall.
    assert (Hrecs : stored_ids (nc_records f) <> []).
    { destruct ids as [|id0 ids']; [congruence|].
      intros E. specialize (Hall id0 (or_introl eq_refl)). now rewrite E in Hall. }
    unfold read_file. rewrite create_example_ids_records, Hok. cbn [bind].
    rewrite find_example_ids_all_present by assumption. cbn [bind].
    rewrite length_map.
    replace (List.length ids =? 0)%nat with false
      by (destruct ids; [congruence | reflexivity]).
    assert (Hlt : forall v, In v ids ->
              (resolve (stored_ids (nc_records f)) v < List.length (nc_records f))%nat).
    { intros v Hv. pose proof (resolve_lt (stored_ids (nc_records f)) v Hrecs) as L.
      unfold stored_ids in L at 2. now rewrite length_map in L. }
    assert (Htake : forall (B : Type) (p : nc_record -> B),
              Py.take (map p (nc_records f))
                (map (fun v => Z.of_nat (resolve (stored_ids (nc_records f)) v)) ids)
              = Ok (map (fun v => p (nth (resolve (stored_ids (nc_records f)) v)
                                         (nc_records f) fill)) ids)).
    { intros B p. apply take_map_ok. intros v Hv.
      rewrite (index_of_nat _ _ (p fill)) by (rewrite length_map; now apply Hlt).
      now rewrite (map_nth p). }
    unfold _read_specific_examples. rewrite !Htake. cbn [bind].
    destruct metadata_only; cbn; eexists; reflexivity.
Qed.

End StoreProperties.

(** ** A concrete store

    Floats are rationals here and the 32-bit cast is any fixed rounding; the
    external collaborators are never reached by the calls below. *)

Module Fixture.

Definition to_float32 (q : Q) : Q := Qred q.

Definition fill_image : image (F := Q) := [[[9969209968386869 # 1]]].
Definition fill_target : list Z := [NC_FILL_INT; NC_FILL_INT; NC_FILL_INT].
Definition fill_params : list Q := [9969209968386869 # 1].

Definition unavailable {A : Type} : result A := Raises (ExternalError "unavailable").

Definition example (t row column : Z) (dilation : Q) : example_dict (F := Q) :=
  {| predictor_matrix := Some [[[[1 # 2]]]];
     target_matrix := Some [[0; 1; 0]];
     target_times_unix_sec := [t];
     row_indices := [row];
     column_indices := [column];
     narr_predictor_names := ["temperature_kelvins"];
     pressure_levels_mb := [850];
     dilation_distance_metres := dilation;
     narr_mask_matrix := [[1; 1]; [1; 0]];
     normalization_type_string := "z_score";
     first_normalization_param_matrix := Some [[280 # 1]];
     second_normalization_param_matrix := Some [[10 # 1]] |}.

(** A library that refuses every array that has not the shape of its slice,
    and every irregular creation. *)
Definition library : netcdf4 (F := Q) :=
  {| fit_predictor := fun _ _ _ _ _ => unavailable;
     fit_target := fun _ _ _ => unavailable;
     fit_index := fun _ _ => unavailable;
     fit_params := fun _ _ _ => unavailable;
     create_irregular := fun _ => unavailable |}.

Definition write (existing : option dataset) (d : example_dict) (append_to_file : bool)
    : result (dataset (F := Q)) :=
  write_file to_float32 fill_image fill_target fill_params library existing d
    append_to_file.

Definition read (f : dataset (F := Q)) (metadata_only : bool)
    (id_strings_to_keep : option (list string))
    (first_time last_time : option Z) : result (option example_dict) :=
  read_file "z_score" "height_m_asl" 1013
    (fun _ _ => unavailable) (fun _ _ _ _ => unavailable)
    (fun _ _ => unavailable) (fun _ _ _ _ => unavailable)
    f metadata_only None None None None id_strings_to_keep first_time last_time None.

(** A file holding two examples of 1 January 2000, 00 and 03 UTC. *)
Definition two_examples : dataset (F := Q) :=
  {| nc_dilation_distance_metres := 50000 # 1;
     nc_normalization_type_string := Some "z_score";
     nc_narr_predictor_names := ["temperature_kelvins"];
     nc_pressure_levels_mb := [850];
     nc_narr_mask_matrix := [[1; 1]; [1; 0]];
     nc_dimensions :=
       {| narr_row := 2; narr_column := 2; example_row := 1; example_column := 1;
          predictor_variable := 1; predictor_variable_char := 19;
          class_dimension := 3 |};
     nc_records :=
       [ {| rec_predictor := [[[1 # 2]]]; rec_target := [0; 1; 0];
            rec_valid_time := 946684800; rec_row_index := 5;
            rec_column_index := 17;
            rec_first_norm_param := [280 # 1]; rec_second_norm_param := [10 # 1] |};
         {| rec_predictor := [[[1 # 2]]]; rec_target := [0; 1; 0];
            rec_valid_time := 946695600; rec_row_index := 6;
            rec_column_index := 18;
            rec_first_norm_param := [280 # 1]; rec_second_norm_param := [10 # 1] |} ] |}.

End Fixture.

Lemma append_frame_witness :
  exists f',
    Fixture.write (Some Fixture.two_examples)
      (Fixture.example 946706400 7 19 (50000 # 1)) true = Ok f' /\
    firstn 2 (nc_records f') = nc_records Fixture.two_examples /\
    List.length (nc_records f') = 3%nat.
Proof.
  eexists. split; [reflexivity|].
  pose proof (append_frame Fixture.to_float32 Fixture.fill_image Fixture.fill_target
                Fixture.fill_params Fixture.library Fixture.two_examples _
                (Fixture.example 946706400 7 19 (50000 # 1)) eq_refl) as H.
  destruct H as (H1 & H2 & _). split; [exact H1 | exact H2].
Defined.


Lemma store_round_trip_witness :
  exists f r,
    write_then_append Fixture.to_float32 Fixture.fill_image Fixture.fill_target
      Fixture.fill_params Fixture.library
      (Fixture.example 946684800 5 17 (50000 # 1))
      [Fixture.example 946695600 6 18 (50000 # 1)] = Ok f /\
    Fixture.read f false None None None = Ok (Some r) /\
    target_times_unix_sec r = [946684800; 946695600] /\
    row_indices r = [5; 6] /\
    column_indices r = [17; 18].
Proof.
  destruct (store_round_trip Fixture.to_float32 Fixture.fill_image
              Fixture.fill_target Fixture.fill_params "z_score" "height_m_asl" 1013
              (fun _ _ => Fixture.unavailable) (fun _ _ _ _ => Fixture.unavailable)
              (fun _ _ => Fixture.unavailable) (fun _ _ _ _ => Fixture.unavailable)
              Fixture.library
              (Fixture.example 946684800 5 17 (50000 # 1))
              [Fixture.example 946695600 6 18 (50000 # 1)])
    as (f & r & Hw & Hr & _ & _ & Ht & Hrow & Hcol & _).
  - reflexivity.
  - reflexivity.
  - reflexivity.
  - repeat constructor.
  - exists f, r. repeat split; assumption.
Defined.

Lemma read_file_by_ids_witness :
  exists r,
    Fixture.read Fixture.two_examples true
      (Some ["time0946695600_row006_column018"]) None None = Ok (Some r).
Proof.
  destruct (read_file_by_ids Fixture.fill_image Fixture.fill_target
              Fixture.fill_params "z_score" "height_m_asl" 1013
              (fun _ _ => Fixture.unavailable) (fun _ _ _ _ => Fixture.unavailable)
              (fun _ _ => Fixture.unavailable) (fun _ _ _ _ => Fixture.unavailable)
              Fixture.two_examples true None None None None
              ["time0946695600_row006_column018"] None None None)
    as (_ & _ & _ & H).
  - discriminate.
  - apply H.
    + reflexivity.
    + repeat constructor; cbn; intuition discriminate.
    + intros id [<-|[]]. cbn. auto.
Defined.

(** C2 (the case the code misses).  The stored dilation distance is 50000.0,
    the appended one 50000.5: they differ by far more than the tolerance, yet
    the append is accepted, because [numpy.isclose] adds its default relative
    tolerance, 1e-5 times the new distance, to the absolute one. *)
Theorem append_accepts_dilation_50000_5 :
  (TOLERANCE < Qabs ((50000 # 1) - (500005 # 10)))%Q /\
  Py.isclose (50000 # 1) (500005 # 10) Py.default_rtol TOLERANCE = true /\
  exists f',
    Fixture.write (Some Fixture.two_examples)
      (Fixture.example 946706400 7 19 (500005 # 10)) true = Ok f' /\
    List.length (nc_records f') = 3%nat.
Proof.
  split; [reflexivity|]. split; [reflexivity|].
  eexists. split; reflexivity.
Qed.

(** ** The augmenter *)

Import training_validation_io.

Section AugmentationProperties.

Context {Img Label Float Rng : Type}.
Variable is_nan : Float -> bool.
Variable shift_radar_images : list Img -> Z -> Z -> result (list Img).
Variable rotate_radar_images : list Img -> Float -> result (list Img).
Variable noise_radar_images :
  Rng -> list Img -> option Float -> result (list Img * Rng).

(** The transforms return one image per image they are given. *)
Hypothesis shift_length : forall m x y m',
  shift_radar_images m x y = Ok m' -> List.length m' = List.length m.
Hypothesis rotate_length : forall m a m',
  rotate_radar_images m a = Ok m' -> List.length m' = List.length m.
Hypothesis noise_length : forall g m sd m' g',
  noise_radar_images g m sd = Ok (m', g') -> List.length m' = List.length m.

(** [block] is one transform of [orig]. *)
Definition transform_of (sd : option Float) (orig block : list Img) : Prop :=
  (exists x y, shift_radar_images orig x y = Ok block) \/
  (exists a, rotate_radar_images orig a = Ok block) \/
  (exists g g', noise_radar_images g orig sd = Ok (block, g')).

Lemma firstn_app_keep {A : Type} (e : nat) (l extra : list A) :
  (e <= List.length l)%nat -> firstn e (l ++ extra) = firstn e l.
Proof.
  intros H. rewrite firstn_app.
  replace (e - List.length l)%nat with O by lia.
  now rewrite firstn_O, List.app_nil_r.
Qed.

Lemma translation_loop_spec (sd : option Float) (e : nat) (offsets : list (Z * Z)) :
  forall pm (tm : list Label) pm' tm',
    (e <= List.length pm)%nat -> (e <= List.length tm)%nat ->
    translation_loop shift_radar_images e offsets pm tm = Ok (pm', tm') ->
    exists blocks,
      List.length blocks = List.length offsets /\
      Forall (transform_of sd (firstn e pm)) blocks /\
      pm' = pm ++ List.concat blocks /\
      tm' = tm ++ List.concat (repeat (firstn e tm) (List.length offsets)).
Proof.
  induction offsets as [|[x y] offsets IH]; intros pm tm pm' tm' Hp Ht H;
    cbn [translation_loop] in H.
  - inversion H; subst. exists []. cbn. now rewrite !List.app_nil_r.
  - destruct (shift_radar_images (firstn e pm) x y) as [this|] eqn:E;
      [|discriminate]. cbn [bind] in H.
    apply IH in H as (blocks & Hlen & Hall & -> & ->);
      [|rewrite length_app; lia ..].
    rewrite !firstn_app_keep in * by assumption.
    exists (this :: blocks). cbn [List.length List.concat repeat].
    rewrite <- !app_assoc. repeat split; [now rewrite Hlen|].
    constructor; [|exact Hall]. left. now exists x, y.
Qed.

Lemma rotation_loop_spec (sd : option Float) (e : nat) (angles : list Float) :
  forall pm (tm : list Label) pm' tm',
    (e <= List.length pm)%nat -> (e <= List.length tm)%nat ->
    rotation_loop rotate_radar_images e angles pm tm = Ok (pm', tm') ->
    exists blocks,
      List.length blocks = List.length angles /\
      Forall (transform_of sd (firstn e pm)) blocks /\
      pm' = pm ++ List.concat blocks /\
      tm' = tm ++ List.concat (repeat (firstn e tm) (List.length angles)).
Proof.
  induction angles as [|a angles IH]; intros pm tm pm' tm' Hp Ht H;
    cbn [rotation_loop] in H.
  - inversion H; subst. exists []. cbn. now rewrite !List.app_nil_r.
  - destruct (rotate_radar_images (firstn e pm) a) as [this|] eqn:E;
      [|discriminate]. cbn [bind] in H.
    apply IH in H as (blocks & Hlen & Hall & -> & ->);
      [|rewrite length_app; lia ..].
    rewrite !firstn_app_keep in * by assumption.
    exists (this :: blocks). cbn [List.length List.concat repeat].
    rewrite <- !app_assoc. repeat split; [now rewrite Hlen|].
    constructor; [|exact Hall]. right. left. now exists a.
Qed.

Lemma noising_loop_spec (sd : option Float) (e : nat) (num_noisings : nat) :
  forall g pm (tm : list Label) pm' tm' g',
    (e <= List.length pm)%nat -> (e <= List.length tm)%nat ->
    noising_loop noise_radar_images e num_noisings sd g pm tm = Ok (pm', tm', g') ->
    exists blocks,
      List.length blocks = num_noisings /\
      Forall (transform_of sd (firstn e pm)) blocks /\
      pm' = pm ++ List.concat blocks /\
      tm' = tm ++ List.concat (repeat (firstn e tm) num_noisings).
Proof.
  induction num_noisings as [|k IH]; intros g pm tm pm' tm' g' Hp Ht H;
    cbn [noising_loop] in H.
  - inversion H; subst. exists []. cbn. now rewrite !List.app_nil_r.
  - destruct (noise_radar_images g (firstn e pm) sd) as [[this g1]|] eqn:E;
      [|discriminate]. cbn [bind] in H.
    apply IH in H as (blocks & Hlen & Hall & -> & ->);
      [|rewrite length_app; lia ..].
    rewrite !firstn_app_keep in * by assumption.
    exists (this :: blocks). cbn [List.length List.concat repeat].
    rewrite <- !app_assoc. repeat split; [now rewrite Hlen|].
    constructor; [|exact Hall]. right. right. now exists g, g1.
Qed.

Lemma transform_of_length (sd : option Float) (orig block : list Img) :
  transform_of sd orig block -> List.length block = List.length orig.
Proof.
  intros [(x & y & H) | [(a & H) | (g & g' & H)]]; eauto.
Qed.

Lemma concat_blocks_length {A : Type} (e : nat) (blocks : list (list A)) :
  Forall (fun b => List.length b = e) blocks ->
  List.length (List.concat blocks) = (e * List.length blocks)%nat.
Proof.
  induction 1 as [|b blocks Hb _ IH]; cbn [List.concat List.length]; [lia|].
  rewrite length_app, Hb, IH. lia.
Qed.

Lemma concat_repeat_nth_error {A : Type} (l : list A) (copies i j : nat) :
  (i < List.length l)%nat -> (j < copies)%nat ->
  nth_error (List.concat (repeat l copies)) (i + j * List.length l) = nth_error l i.
Proof.
  revert j. induction copies as [|c IH]; intros j Hi Hj; [lia|].
  cbn [repeat List.concat]. destruct j as [|j].
  - rewrite Nat.add_0_r. now apply nth_error_app1.
  - rewrite nth_error_app2 by (cbn; lia).
    replace (i + S j * List.length l - List.length l)%nat
      with (i + j * List.length l)%nat by (cbn; lia).
    apply IH; lia.
Qed.

Definition count_of {A : Type} (a : option (list A)) : nat :=
  match a with Some l => List.length l | None => O end.

(** C8. When [_do_data_augmentation] returns, the predictor matrix is the
    input followed by one block per translation, rotation and noising; each
    block has as many rows as the input and is a transform of the input
    itself; the target matrix is the input targets repeated once per block, so
    that rows [i], [i + e], [i + 2e], ... are the same. *)
Theorem augmentation_shape_and_labels (rng : Rng) (predictor_matrix : list Img)
    (target_matrix : list Label)
    (x_translations_pixels y_translations_pixels : option (list Z))
    (ccw_rotation_angles_deg : option (list Float))
    (noise_standard_deviation : option Float) (num_noisings : Z)
    (predictor_matrix' : list Img) (target_matrix' : list Label) (rng' : Rng) :
  List.length target_matrix = List.length predictor_matrix ->
  _do_data_augmentation is_nan shift_radar_images rotate_radar_images
    noise_radar_images rng predictor_matrix target_matrix
    x_translations_pixels y_translations_pixels ccw_rotation_angles_deg
    noise_standard_deviation num_noisings
  = Ok (predictor_matrix', target_matrix', rng') ->
  let e := List.length predictor_matrix in
  let copies := (1 + count_of x_translations_pixels + count_of ccw_rotation_angles_deg
                 + Z.to_nat num_noisings)%nat in
  List.length predictor_matrix' = (e * copies)%nat /\
  (exists blocks,
     predictor_matrix' = predictor_matrix ++ List.concat blocks /\
     List.length blocks = (copies - 1)%nat /\
     Forall (fun block =>
               List.length block = e /\
               transform_of noise_standard_deviation predictor_matrix block)
            blocks) /\
  target_matrix' = List.concat (repeat target_matrix copies) /\
  (forall i j, (i < e)%nat -> (j < copies)%nat ->
     nth_error target_matrix' (i + j * e) = nth_error target_matrix i).
Proof.
  intros Hlen H e copies. unfold _do_data_augmentation in H.
  destruct (check_translations x_translations_pixels y_translations_pixels)
    as [offsets|] eqn:Eo; [|discriminate]. cbn [bind] in H.
  destruct (check_rotations is_nan ccw_rotation_angles_deg) as [angles|] eqn:Ea;
    [|discriminate]. cbn [bind] in H.
  destruct (num_noisings <? 0) eqn:En; [discriminate|]. cbn [bind] in H.
  destruct (translation_loop _ _ _ _ _) as [[pm1 tm1]|] eqn:E1; [|discriminate].
  cbn [bind] in H.
  destruct (rotation_loop _ _ _ _ _) as [[pm2 tm2]|] eqn:E2; [|discriminate].
  cbn [bind] in H.
  assert (Ho : List.length offsets = count_of x_translations_pixels).
  { unfold check_translations in Eo.
    destruct x_translations_pixels as [xs|], y_translations_pixels as [ys|];
      try discriminate; [|now inversion Eo].
    destruct (Nat.eqb_spec (List.length ys) (List.length xs)); [|discriminate].
    cbn [negb] in Eo. destruct (negb _); [discriminate|].
    inversion Eo; subst. cbn. rewrite length_combine. lia. }
  assert (Hr : List.length angles = count_of ccw_rotation_angles_deg).
  { unfold check_rotations in Ea. destruct ccw_rotation_angles_deg as [l|];
      [|now inversion Ea].
    destruct (existsb is_nan l); [discriminate | now inversion Ea]. }
  apply (translation_loop_spec noise_standard_deviation) in E1
    as (b1 & L1 & F1 & -> & ->); [|lia ..].
  apply (rotation_loop_spec noise_standard_deviation) in E2
    as (b2 & L2 & F2 & -> & ->); [|rewrite length_app; lia ..].
  apply (noising_loop_spec noise_standard_deviation) in H
    as (b3 & L3 & F3 & -> & ->); [|rewrite !length_app; lia ..].
  rewrite !firstn_app_keep in * by (rewrite ?length_app; lia).
  rewrite firstn_all in F1, F2, F3.
  rewrite (firstn_all2 target_matrix) by lia.
  assert (Hblocks : Forall (fun block =>
                              List.length block = e /\
                              transform_of noise_standard_deviation predictor_matrix block)
                           (b1 ++ b2 ++ b3)).
  { rewrite !Forall_app. repeat split;
      (eapply Forall_impl; [|eassumption]); intros b Hb;
      (split; [now apply (transform_of_length noise_standard_deviation) | exact Hb]). }
  assert (Hcount : List.length (b1 ++ b2 ++ b3) = (copies - 1)%nat).
  { rewrite !length_app. unfold copies. lia. }
  assert (Htarget : target_matrix ++ List.concat (repeat target_matrix (List.length offsets))
                    ++ List.concat (repeat target_matrix (List.length angles))
                    ++ List.concat (repeat target_matrix (Z.to_nat num_noisings))
                    = List.concat (repeat target_matrix copies)).
  { unfold copies. rewrite <- Ho, <- Hr.
    rewrite !repeat_app, !concat_app. cbn [repeat List.concat].
    now rewrite List.app_nil_r, <- !app_assoc. }
  rewrite <- !app_assoc, Htarget.
  split; [|split; [|split]].
  - rewrite <- !concat_app, length_app.
    rewrite (concat_blocks_length e).
    + rewrite Hcount. fold e.
      assert (Hc : copies = S (copies - 1)) by (unfold copies; lia).
      rewrite Hc at 2. rewrite Nat.mul_succ_r. lia.
    + eapply Forall_impl; [|exact Hblocks]. now intros b [Hb _].
  - exists (b1 ++ b2 ++ b3). rewrite !concat_app. auto.
  - reflexivity.
  - intros i j Hi Hj. unfold e. rewrite <- Hlen.
    apply concat_repeat_nth_error; lia.
Qed.

End AugmentationProperties.

(** Four examples, two translations, one rotation and no noising: sixteen
    rows, and the targets of rows [i], [i + 4], [i + 8] and [i + 12] agree. *)
Lemma augmentation_shape_and_labels_witness :
  let shift := fun (m : list Z) (x y : Z) => Ok (map (fun v => v + x + 1000 * y) m) in
  let rotate := fun (m : list Z) (a : Z) => Ok (map (fun v => v * a) m) in
  let noise := fun (g : nat) (m : list Z) (_ : option Z) =>
                 Ok (map (Z.add (Z.of_nat g)) m, S g) in
  let targets := [[1; 0; 0]; [0; 1; 0]; [0; 0; 1]; [1; 0; 0]] in
  exists predictor_matrix' target_matrix' rng',
    _do_data_augmentation (fun _ : Z => false) shift rotate noise O
      [10; 20; 30; 40] targets (Some [1; 0]) (Some [0; -2]) (Some [90]) None 0
    = Ok (predictor_matrix', target_matrix', rng') /\
    List.length predictor_matrix' = 16%nat /\
    forall i j, (i < 4)%nat -> (j < 4)%nat ->
      nth_error target_matrix' (i + j * 4) = nth_error targets i.
Proof.
  intros shift rotate noise targets. do 3 eexists.
  split; [reflexivity|].
  destruct (augmentation_shape_and_labels (fun _ : Z => false) shift rotate noise
              ltac:(intros m x y m' H; inversion H; apply length_map)
              ltac:(intros m a m' H; inversion H; apply length_map)
              ltac:(intros g m sd m' g' H; inversion H; apply length_map)
              O [10; 20; 30; 40] targets (Some [1; 0]) (Some [0; -2]) (Some [90])
              None 0 _ _ _ eq_refl eq_refl)
    as (Hrows & _ & _ & Hlabels).
  split; [exact Hrows | exact Hlabels].
Defined.

(** ** create_examples *)

Section FactoryProperties.

Context {F front_table : Type}.

Local Abbreviation image := (image (F := F)).
Local Abbreviation normalization_dict := (normalization_dict (F := F)).

Variable MINMAX_STRING : string.
Variable normalize_predictors_nonglobal :
  list image -> string -> result (list image * normalization_dict).
Variable fronts_io_find_gridded_file : string -> Z -> string.
Variable os_path_isfile : string -> bool.
Variable predictor_io_find_file : string -> Z -> result string.
Variable predictor_io_read_file :
  string -> list Z -> list string -> result (list image).
Variable fill_nans_in_predictor_images :
  list (list (list F)) -> result (list (list (list F))).
Variable check_narr_mask : list (list Z) -> result unit.
Variable fronts_io_read_grid_from_file : string -> result front_table.
Variable front_table_to_images :
  front_table -> Z -> Z -> result (list (list (list Z))).
Variable dilate_ternary_target_images :
  list (list (list Z)) -> Q -> result (list (list (list Z))).
Variable random_shuffle : list Z -> list Z.
Variable to_categorical : list Z -> Z -> result (list (list Z)).
Variable sample_target_points :
  list (list (list Z)) -> list Q -> Z -> list (list Z) ->
  result (option target_point_dict).
Variable downsize_grids_around_selected_points :
  list image -> list (list (list Z)) -> Z -> Z -> target_point_dict ->
  result (list image * list Z * list Z * list Z * list Z).

Local Abbreviation create :=
  (create_examples MINMAX_STRING normalize_predictors_nonglobal
     fronts_io_find_gridded_file os_path_isfile predictor_io_find_file
     predictor_io_read_file fill_nans_in_predictor_images check_narr_mask
     fronts_io_read_grid_from_file front_table_to_images
     dilate_ternary_target_images random_shuffle to_categorical
     sample_target_points downsize_grids_around_selected_points).

(** C9 (what the code does).  With [class_fractions=None] and the front file
    present, [create_examples] never returns [None], whatever the mask, and so
    also when the mask has no cell equal to one: the uniform branch always
    builds a point dictionary, and only the class-balanced sampler can hand
    back [None]. *)
Theorem create_examples_uniform_never_none
    (top_predictor_dir_name top_gridded_front_dir_name : string)
    (valid_time_unix_sec : Z) (predictor_names : list string)
    (pressure_levels_mb : list Z) (num_half_rows num_half_columns : Z)
    (dilation_distance_metres : Q) (max_num_examples : Z)
    (normalization_type_string : string)
    (narr_mask_matrix : option (list (list Z))) :
  os_path_isfile
    (fronts_io_find_gridded_file top_gridded_front_dir_name valid_time_unix_sec)
    = true ->
  create top_predictor_dir_name top_gridded_front_dir_name valid_time_unix_sec
    predictor_names pressure_levels_mb num_half_rows num_half_columns
    dilation_distance_metres None max_num_examples normalization_type_string
    narr_mask_matrix <> Ok None.
Proof.
  intros Hfile H. unfold create_examples in H. rewrite Hfile in H.
  cbn [negb bind] in H. inv_ok H; try discriminate H.
  all: match goal with
       | E : bind (Py.take _ _) _ = Ok None |- _ => inv_ok E; discriminate E
       end.
Qed.

End FactoryProperties.

Module FactoryFixture.

Definition normalize (predictor_matrix : list (image (F := Q))) (_ : string)
    : result (list image * normalization_dict) :=
  Ok (predictor_matrix,
      {| min_value_matrix := Some [[0 # 1]]; max_value_matrix := Some [[1 # 1]];
         mean_value_matrix := Some [[0 # 1]]; stdev_matrix := Some [[1 # 1]] |}).

Definition one_hot (num_classes : Z) (v : Z) : list Z :=
  map (fun k => if Z.of_nat k =? v then 1 else 0) (seq 0 (Z.to_nat num_classes)).

(** A windower that returns one (empty) window per sampled point. *)
Definition downsize (_ : list (image (F := Q))) (_ : list (list (list Z)))
    (_ _ : Z) (points : target_point_dict)
    : result (list (image (F := Q)) * list Z * list Z * list Z * list Z) :=
  let rows := List.concat (row_indices_by_time points) in
  let columns := List.concat (column_indices_by_time points) in
  Ok (map (fun _ => []) rows, map (fun _ => 0) rows, map (fun _ => 0) rows,
      rows, columns).

Definition create (narr_mask_matrix : option (list (list Z)))
    : result (option (example_dict (F := Q))) :=
  create_examples (front_table := unit) "minmax" normalize
    (fun dir _ => (dir ++ "/fronts.nc")%string) (fun _ => true)
    (fun dir _ => Ok (dir ++ "/predictors.nc")%string)
    (fun _ _ _ => Ok [[[[271 # 1]; [272 # 1]]; [[273 # 1]; [274 # 1]]]])
    (fun channel => Ok channel) (fun _ => Ok tt) (fun _ => Ok tt)
    (fun _ _ _ => Ok [[[0; 0]; [0; 1]]]) (fun images _ => Ok images)
    (fun indices => rev indices)
    (fun values num_classes => Ok (map (one_hot num_classes) values))
    (fun _ _ _ _ => Ok None) downsize
    "predictors" "fronts" 946684800 ["temperature_kelvins"] [850] 0 0
    (50000 # 1) None 100 "z_score" narr_mask_matrix.

End FactoryFixture.

Lemma create_examples_uniform_never_none_witness :
  FactoryFixture.create (Some [[0; 0]; [0; 0]]) <> Ok None.
Proof.
  unfold FactoryFixture.create.
  apply create_examples_uniform_never_none. reflexivity.
Defined.

(** With a mask that has no cell equal to one, the call returns a dictionary
    that holds no example. *)
Lemma create_examples_empty_mask_returns_dictionary :
  exists d,
    FactoryFixture.create (Some [[0; 0]; [0; 0]]) = Ok (Some d) /\
    target_times_unix_sec d = [] /\ row_indices d = [] /\ column_indices d = [].
Proof. eexists. split; [reflexivity|]. repeat split. Qed.

(** * Further properties of the code *)

(** ** Identifiers *)

(** X1. Two non-negative triples that get the same identifier are the same
    triple: distinct examples never share an identifier. *)
Theorem create_example_id_injective (t r c t' r' c' : Z) (k k' : bool) (s : string) :
  0 <= t -> 0 <= r -> 0 <= c -> 0 <= t' -> 0 <= r' -> 0 <= c' ->
  create_example_id t r c k = Ok s ->
  create_example_id t' r' c' k' = Ok s ->
  (t, r, c) = (t', r', c').
Proof.
  intros Ht Hr Hc Ht' Hr' Hc' H H'.
  pose proof (decode_encode t r c k Ht Hr Hc) as D.
  pose proof (decode_encode t' r' c' k' Ht' Hr' Hc') as D'.
  rewrite H in D. rewrite H' in D'. cbn [bind] in D, D'. congruence.
Qed.

Lemma create_example_id_injective_witness :
  create_example_id 946684800 5 17 true = Ok "time0946684800_row005_column017" /\
  (946684800, 5, 17) = (946684800, 5, 17).
Proof.
  split; [reflexivity|].
  apply (create_example_id_injective 946684800 5 17 946684800 5 17 true false
           "time0946684800_row005_column017"); try lia; reflexivity.
Defined.

Fixpoint count_char (c : ascii) (s : string) : nat :=
  match s with
  | EmptyString => O
  | String a s' => if Ascii.eqb a c then S (count_char c s') else count_char c s'
  end.

Lemma split_length (sep : ascii) (s : string) :
  List.length (Py.split sep s) = S (count_char sep s).
Proof.
  induction s as [|a s IH]; simpl; [reflexivity|].
  destruct (Ascii.eqb a sep); simpl; [now rewrite IH|].
  destruct (Py.split sep s) as [|w ws]; simpl in *; [discriminate | exact IH].
Qed.

Lemma int_raises (s : string) (e : exception) :
  Py.int s = Raises e -> e <> AssertionError.
Proof.
  unfold Py.int. intros H E. subst.
  assert (U : forall t,
             match Py.digits_to_N t with
             | Some n => Ok (Z.of_N n)
             | None => Raises (ValueError "invalid literal for int()")
             end <> Raises AssertionError).
  { intros t. destruct (Py.digits_to_N t); discriminate. }
  destruct s as [|a s]; [now apply (U EmptyString)|].
  destruct a as [[] [] [] [] [] [] [] []];
    try (now apply (U _) in H);
    destruct (Py.digits_to_N s); discriminate H.
Qed.

(** X2. [example_id_to_metadata] fails its assertion exactly on text that does
    not hold exactly two underscores; with two underscores it returns or
    raises from the integer parse, never from the assertion. *)
Theorem example_id_to_metadata_assertion (s : string) :
  example_id_to_metadata s = Raises AssertionError <-> count_char "_" s <> 2%nat.
Proof.
  pose proof (split_length "_" s) as L. unfold example_id_to_metadata.
  destruct (Py.split "_" s) as [|w0 [|w1 [|w2 [|w3 ws]]]]; simpl in L;
    try (split; [intros _; lia | reflexivity]).
  assert (E : count_char "_" s = 2%nat) by lia. rewrite E.
  split; [|congruence]. intros H. exfalso.
  destruct (Py.int (Py.remove "time" w0)) eqn:E0; cbn [bind] in H.
  2:{ inversion H; subst. now apply int_raises in E0. }
  destruct (Py.int (Py.remove "row" w1)) eqn:E1; cbn [bind] in H.
  2:{ inversion H; subst. now apply int_raises in E1. }
  destruct (Py.int (Py.remove "column" w2)) eqn:E2; cbn [bind] in H.
  2:{ inversion H; subst. now apply int_raises in E2. }
  discriminate H.
Qed.

Lemma decode_id_text (t r c : Z) :
  0 <= t -> 0 <= r -> 0 <= c -> example_id_to_metadata (id_text t r c) = Ok (t, r, c).
Proof.
  intros Ht Hr Hc. pose proof (decode_encode t r c false Ht Hr Hc) as D.
  now rewrite (create_example_id_text t r c false Hr Hc) in D.
Qed.

Lemma decode_id_texts (l : list (Z * Z * Z)) :
  (forall t r c, In (t, r, c) l -> 0 <= t /\ 0 <= r /\ 0 <= c) ->
  mapM example_id_to_metadata (map (fun '(t, r, c) => id_text t r c) l) = Ok l.
Proof.
  induction l as [|[[t r] c] l IH]; intros H; [reflexivity|].
  cbn [map mapM].
  destruct (H t r c (or_introl eq_refl)) as (A & B & C).
  rewrite decode_id_text by assumption. cbn [bind].
  rewrite IH by (intros t' r' c' Hin; apply H; now right). reflexivity.
Qed.

Lemma zip3_components (ts rs cs : list Z) :
  List.length rs = List.length ts -> List.length cs = List.length ts ->
  map (fun '(t, _, _) => t) (zip3 ts rs cs) = ts /\
  map (fun '(_, r, _) => r) (zip3 ts rs cs) = rs /\
  map (fun '(_, _, c) => c) (zip3 ts rs cs) = cs.
Proof.
  revert rs cs. induction ts as [|t ts IH]; intros [|r rs] [|c cs] Hr Hc;
    try discriminate; simpl; [auto|].
  destruct (IH rs cs) as (A & B & C); [simpl in *; lia ..|].
  now rewrite A, B, C.
Qed.

Lemma zip3_in (ts rs cs : list Z) (t r c : Z) :
  In (t, r, c) (zip3 ts rs cs) -> In t ts /\ In r rs /\ In c cs.
Proof.
  revert rs cs. induction ts as [|t0 ts IH]; intros [|r0 rs] [|c0 cs] H;
    simpl in H; try contradiction.
  destruct H as [H|H].
  - inversion H; subst. simpl. auto.
  - destruct (IH _ _ H) as (A & B & C). simpl. auto.
Qed.

Lemma create_example_ids_ok (ts rs cs : list Z) :
  List.length rs = List.length ts -> List.length cs = List.length ts ->
  Forall (fun r => 0 <= r) rs -> Forall (fun c => 0 <= c) cs ->
  create_example_ids ts rs cs =
  Ok (map (fun '(t, r, c) => id_text t r c) (zip3 ts rs cs)).
Proof.
  intros Lr Lc Hr Hc. unfold create_example_ids.
  replace (forallb (fun r => 0 <=? r) rs) with true.
  2:{ symmetry. apply forallb_forall. intros r Hin. apply Z.leb_le.
      rewrite Forall_forall in Hr. auto. }
  replace (forallb (fun c => 0 <=? c) cs) with true.
  2:{ symmetry. apply forallb_forall. intros c Hin. apply Z.leb_le.
      rewrite Forall_forall in Hc. auto. }
  rewrite Lr, Lc, Nat.eqb_refl. cbn [bind].
  apply mapM_ok. intros [[t r] c] Hin.
  destruct (zip3_in _ _ _ _ _ _ Hin) as (_ & Hr' & Hc').
  rewrite Forall_forall in Hr, Hc.
  apply create_example_id_text; auto.
Qed.

(** X3. Identifiers made by [create_example_ids] from non-negative arrays of
    one length, at least one example long, are parsed back by
    [example_ids_to_metadata] into the same three arrays; for an empty list of
    identifiers the parse raises instead of returning three empty arrays. *)
Theorem example_ids_round_trip (ts rs cs : list Z) :
  ts <> [] ->
  List.length rs = List.length ts -> List.length cs = List.length ts ->
  Forall (fun t => 0 <= t) ts -> Forall (fun r => 0 <= r) rs ->
  Forall (fun c => 0 <= c) cs ->
  (ids <- create_example_ids ts rs cs ;; example_ids_to_metadata ids) = Ok (ts, rs, cs) /\
  exists e, example_ids_to_metadata [] = Raises e.
Proof.
  intros Hne Lr Lc Ht Hr Hc. split; [|eexists; reflexivity].
  rewrite create_example_ids_ok by assumption. cbn [bind].
  unfold example_ids_to_metadata.
  assert (M : mapM example_id_to_metadata
                (map (fun '(t, r, c) => id_text t r c) (zip3 ts rs cs))
              = Ok (zip3 ts rs cs)).
  { apply decode_id_texts. intros t r c Hin.
    destruct (zip3_in _ _ _ _ _ _ Hin) as (A & B & C).
    rewrite Forall_forall in Ht, Hr, Hc. auto. }
  rewrite M. cbn [bind].
  destruct (zip3_components ts rs cs Lr Lc) as (A & B & C).
  destruct (zip3 ts rs cs) as [|x l] eqn:Ez.
  - destruct ts; [congruence|]. destruct rs; [discriminate|].
    destruct cs; discriminate.
  - now rewrite A, B, C.
Qed.

Lemma example_ids_round_trip_witness :
  (ids <- create_example_ids [946684800; 946695600] [5; 6] [17; 18] ;;
   example_ids_to_metadata ids) = Ok ([946684800; 946695600], [5; 6], [17; 18]).
Proof.
  apply (example_ids_round_trip [946684800; 946695600] [5; 6] [17; 18]);
    try discriminate; try reflexivity; repeat constructor; lia.
Defined.

(** X4. [create_example_ids] returns exactly when no row or column index is
    negative and the three arrays have one length, and then returns one
    identifier per example. *)
Theorem create_example_ids_returns_iff (ts rs cs : list Z) :
  ((exists ids, create_example_ids ts rs cs = Ok ids) <->
   (Forall (fun r => 0 <= r) rs /\ Forall (fun c => 0 <= c) cs /\
    List.length rs = List.length ts /\ List.length cs = List.length ts)) /\
  (forall ids, create_example_ids ts rs cs = Ok ids ->
               List.length ids = List.length ts).
Proof.
  assert (Hdir : forall ids, create_example_ids ts rs cs = Ok ids ->
            Forall (fun r => 0 <= r) rs /\ Forall (fun c => 0 <= c) cs /\
            List.length rs = List.length ts /\ List.length cs = List.length ts).
  { intros ids H. unfold create_example_ids in H.
    destruct (forallb (fun r => 0 <=? r) rs) eqn:Er; [|discriminate].
    destruct (Nat.eqb_spec (List.length rs) (List.length ts)); [|discriminate].
    destruct (forallb (fun c => 0 <=? c) cs) eqn:Ec; [|discriminate].
    destruct (Nat.eqb_spec (List.length cs) (List.length ts)); [|discriminate].
    rewrite forallb_forall in Er, Ec.
    repeat split; try assumption; apply Forall_forall; intros x Hx;
      apply Z.leb_le; auto. }
  split; [split|].
  - intros [ids H]. now apply (Hdir ids).
  - intros (Hr & Hc & Lr & Lc). eexists. now apply create_example_ids_ok.
  - intros ids H. destruct (Hdir ids H) as (Hr & Hc & Lr & Lc).
    rewrite create_example_ids_ok in H by assumption. inversion H; subst.
    rewrite length_map.
    destruct (zip3_components ts rs cs Lr Lc) as (A & _ & _).
    rewrite <- A at 2. now rewrite length_map.
Qed.

(** ** Lookup *)

(** X5. On a non-empty duplicate-free universe, the lookup with
    [allow_missing] returns one entry per desired identifier, in request
    order: the position at which the universe holds that identifier, or [-1]
    when it does not hold it. *)
Theorem lookup_allow_missing_contract (all_id_strings desired_id_strings : list string) :
  NoDup all_id_strings -> all_id_strings <> [] ->
  exists indices,
    find_example_ids all_id_strings desired_id_strings true = Ok indices /\
    List.length indices = List.length desired_id_strings /\
    forall k v, nth_error desired_id_strings k = Some v ->
      (In v all_id_strings ->
         exists i, nth_error indices k = Some (Z.of_nat i) /\
                   nth_error all_id_strings i = Some v) /\
      (~ In v all_id_strings -> nth_error indices k = Some (-1)).
Proof. apply find_example_ids_allow_missing. Qed.

Lemma lookup_allow_missing_contract_witness :
  exists indices,
    find_example_ids ["b"; "a"; "d"] ["d"; "x"; "b"] true = Ok indices /\
    List.length indices = 3%nat.
Proof.
  destruct (lookup_allow_missing_contract ["b"; "a"; "d"] ["d"; "x"; "b"])
    as (indices & H & L & _).
  - repeat constructor; cbn; intuition discriminate.
  - discriminate.
  - now exists indices.
Defined.



(** X7. Whenever the strict lookup returns, whatever the universe, it returns
    one non-negative position per desired identifier, in request order, and
    the universe holds that identifier at that position: the sentinel never
    appears. *)
Theorem lookup_strict_sound (all_id_strings desired_id_strings : list string)
    (indices : list Z) :
  find_example_ids all_id_strings desired_id_strings false = Ok indices ->
  List.length indices = List.length desired_id_strings /\
  forall k v, nth_error desired_id_strings k = Some v ->
    exists i, nth_error indices k = Some (Z.of_nat i) /\
              nth_error all_id_strings i = Some v.
Proof.
  intros H. apply find_example_ids_ok_inv in H as [-> Hres].
  split; [now rewrite length_map|].
  intros k v Hk. exists (resolve all_id_strings v).
  rewrite nth_error_map, Hk. split; [reflexivity|].
  destruct (Hres v (nth_error_In _ _ Hk)) as [Hlt Hv].
  rewrite <- Hv at 2. now apply nth_error_nth'.
Qed.

Lemma lookup_strict_sound_witness :
  List.length [2; 0] = List.length ["d"; "b"] /\
  forall k v, nth_error ["d"; "b"] k = Some v ->
    exists i, nth_error [2; 0] k = Some (Z.of_nat i) /\
              nth_error ["b"; "a"; "d"] i = Some v.
Proof.
  apply (lookup_strict_sound ["b"; "a"; "d"] ["d"; "b"] [2; 0]). reflexivity.
Defined.

(** X8. With nothing to look up, the lookup returns an empty array on every
    duplicate-free universe, the empty one included, with either flag. *)
Theorem lookup_nothing (all_id_strings : list string) (allow_missing : bool) :
  NoDup all_id_strings ->
  find_example_ids all_id_strings [] allow_missing = Ok [].
Proof.
  intros Hnodup. destruct all_id_strings as [|a rest] eqn:E.
  - destruct allow_missing; reflexivity.
  - rewrite <- E in *. rewrite find_example_ids_unfold;
      [destruct allow_missing; reflexivity | assumption | rewrite E; discriminate].
Qed.

Lemma lookup_nothing_witness :
  find_example_ids ["b"; "a"; "d"] [] false = Ok [].
Proof.
  apply (lookup_nothing ["b"; "a"; "d"] false).
  repeat constructor; cbn; intuition discriminate.
Defined.

(** ** More on the example store *)

Section MoreStoreProperties.

Context {F : Type}.

Local Abbreviation image := (image (F := F)).
Local Abbreviation normalization_dict := (normalization_dict (F := F)).
Local Abbreviation example_dict := (example_dict (F := F)).
Local Abbreviation nc_record := (nc_record (F := F)).
Local Abbreviation dataset := (dataset (F := F)).

Variable to_float32 : F -> F.
Variable fill_image : image.
Variable fill_target : list Z.
Variable fill_params : list F.
Variable Z_SCORE_STRING : string.
Variable HEIGHT_NAME : string.
Variable DUMMY_SURFACE_PRESSURE_MB : Z.
Variable denormalize_predictors_nonglobal :
  list image -> normalization_dict -> result (list image).
Variable normalize_predictors_global :
  list image -> list string -> list Z -> string ->
  result (list image * normalization_dict).
Variable normalize_predictors_nonglobal :
  list image -> string -> result (list image * normalization_dict).
Variable downsize_orography :
  list Z -> list Z -> Z -> Z -> result (list image).
Variable library : netcdf4 (F := F).

Local Abbreviation fill := (fill_record fill_image fill_target fill_params).
Local Abbreviation write :=
  (write_file to_float32 fill_image fill_target fill_params library).
Local Abbreviation rows := (rows_of to_float32 fill_image fill_target fill_params).
Local Abbreviation subset :=
  (_subset_channels Z_SCORE_STRING HEIGHT_NAME DUMMY_SURFACE_PRESSURE_MB
     normalize_predictors_global normalize_predictors_nonglobal downsize_orography).
Local Abbreviation read :=
  (read_file Z_SCORE_STRING HEIGHT_NAME DUMMY_SURFACE_PRESSURE_MB
     denormalize_predictors_nonglobal normalize_predictors_global
     normalize_predictors_nonglobal downsize_orography).


Definition dict_schema (d : example_dict) : list string * list Z * Q * string * list (list Z) :=
  (narr_predictor_names d, pressure_levels_mb d, dilation_distance_metres d,
   normalization_type_string d, narr_mask_matrix d).





(** Positions selected by a mask, read back through one column. *)
Lemma take_where_from {A B : Type} (p : A -> B) (flag : A -> bool)
    (before l : list A) :
  Py.take (map p (before ++ l))
    (Py.where_from (List.length before) (map flag l))
  = Ok (map p (filter flag l)).
Proof.
  revert before. induction l as [|x l IH]; intros before; [reflexivity|].
  cbn [map Py.where_from filter].
  assert (E : before ++ x :: l = (before ++ [x]) ++ l)
    by now rewrite <- app_assoc.
  assert (L : S (List.length before) = List.length (before ++ [x]))
    by (rewrite length_app; simpl; lia).
  destruct (flag x).
  - unfold Py.take. cbn [mapM map].
    rewrite (index_of_nat _ _ (p x)).
    2:{ rewrite length_map, length_app. simpl. lia. }
    rewrite (map_nth p), app_nth2, Nat.sub_diag by lia. cbn [nth bind].
    rewrite L, E. fold (Py.take (map p ((before ++ [x]) ++ l))
                          (Py.where_from (List.length (before ++ [x])) (map flag l))).
    now rewrite IH.
  - rewrite L, E. apply IH.
Qed.

Lemma take_where {A B : Type} (p : A -> B) (flag : A -> bool) (l : list A) :
  Py.take (map p l) (Py.where_ (map flag l)) = Ok (map p (filter flag l)).
Proof. exact (take_where_from p flag [] l). Qed.

Definition in_window (first_time last_time : option Z) (r : nc_record) : bool :=
  (first_time_or_default first_time <=? rec_valid_time r) &&
  (rec_valid_time r <=? last_time_or_default last_time).

Lemma read_window (f : dataset) (metadata_only : bool)
    (names : option (list string)) (levels : option (list Z))
    (half_rows half_columns : option Z) (first_time last_time : option Z)
    (file : option string) (r : example_dict) :
  read f metadata_only names levels half_rows half_columns None
    first_time last_time file = Ok (Some r) ->
  let kept := filter (in_window first_time last_time) (nc_records f) in
  kept <> [] /\
  target_times_unix_sec r = map rec_valid_time kept /\
  row_indices r = map rec_row_index kept /\
  column_indices r = map rec_column_index kept.
Proof.
  intros H kept. unfold read_file in H.
  fold (first_time_or_default first_time) (last_time_or_default last_time) in H.
  destruct (last_time_or_default last_time <? first_time_or_default first_time);
    [discriminate|].
  cbn [bind] in H. rewrite map_map in H.
  change (fun x : nc_record =>
            (first_time_or_default first_time <=? rec_valid_time x) &&
            (rec_valid_time x <=? last_time_or_default last_time))
    with (in_window first_time last_time) in H.
  set (indices := Py.where_ (map (in_window first_time last_time) (nc_records f))) in *.
  destruct (List.length indices =? 0)%nat eqn:El; [discriminate|].
  destruct (_read_specific_examples _ _ _ _) as [d1|] eqn:Eread; [|discriminate].
  cbn [bind] in H.
  apply read_specific_examples_meta in Eread. unfold indices in Eread.
  rewrite !take_where in Eread. fold kept in Eread.
  destruct Eread as (Et & Er & Ec).
  inversion Et as [Ht1]. inversion Er as [Hr1]. inversion Ec as [Hc1].
  assert (Hkept : kept <> []).
  { intros E. rewrite E in Ht1. cbn in Ht1.
    assert (Hi : List.length indices = List.length (target_times_unix_sec d1)).
    { pose proof (take_where rec_valid_time (in_window first_time last_time)
                    (nc_records f)) as T.
      fold indices kept in T. unfold Py.take in T.
      clear - T Ht1 E. rewrite E in T. cbn in T. rewrite <- Ht1.
      revert T. generalize (map rec_valid_time (nc_records f)).
      induction indices as [|i l IH]; intros a T; [reflexivity|].
      cbn [mapM] in T. destruct (Py.index a i); [|discriminate].
      cbn [bind] in T. destruct (mapM (Py.index a) l); discriminate. }
    rewrite <- Ht1 in Hi. cbn in Hi. rewrite Hi in El. discriminate. }
  assert (Hres : same_examples d1 r).
  { assert (Hsame : forall d2 res, same_examples d1 d2 ->
              match names, levels with
              | Some n, Some l =>
                  example_dict <- subset d2 metadata_only n l file ;;
                  Ok (Some example_dict)
              | _, _ => Ok (Some d2)
              end = Ok (Some res) -> same_examples d1 res).
    { intros d2 res (A & B & C) Hr2.
      destruct names as [n|]; [destruct levels as [l|]|].
      - destruct (subset d2 metadata_only n l file) as [d3|] eqn:Es; [|discriminate].
        cbn [bind] in Hr2. inversion Hr2; subst.
        apply subset_channels_same_examples in Es as (A' & B' & C').
        repeat split; congruence.
      - inversion Hr2; subst. now repeat split.
      - inversion Hr2; subst. now repeat split. }
    destruct metadata_only.
    - cbn [bind] in H. apply (Hsame d1); [now repeat split | exact H].
    - match type of H with
      | bind ?m _ = _ => destruct m as [d2|] eqn:Emid; [|discriminate H]
      end.
      cbn [bind] in H. apply (Hsame d2); [|exact H].
      inv_ok Emid; inversion Emid; subst; try (now repeat split).
      match goal with
      | E : denormalize_examples _ _ _ = Ok _ |- _ =>
          apply denormalize_same_examples in E; destruct E as (Dt & Dr & Dc)
      end.
      cbn in Dt, Dr, Dc. repeat split; cbn; congruence. }
  destruct Hres as (A & B & C).
  repeat split; [exact Hkept | congruence ..].
Qed.


(** None of the four tensor keys is present. *)
Definition no_tensors (d : example_dict) : Prop :=
  predictor_matrix d = None /\ target_matrix d = None /\
  first_normalization_param_matrix d = None /\
  second_normalization_param_matrix d = None.

Lemma subset_channels_metadata_only (d d' : example_dict) (names : list string)
    (levels : list Z) (file : option string) :
  subset d true names levels file = Ok d' -> no_tensors d -> no_tensors d'.
Proof.
  unfold _subset_channels. intros H (A & B & C & D).
  inv_ok H; inversion H; subst; repeat split; assumption.
Qed.

Lemma metadata_only_read_no_tensors (f : dataset)
    (names : option (list string)) (levels : option (list Z))
    (half_rows half_columns : option Z) (ids : option (list string))
    (first_time last_time : option Z) (file : option string) (r : example_dict) :
  read f true names levels half_rows half_columns ids first_time last_time file
    = Ok (Some r) ->
  no_tensors r.
Proof.
  unfold read_file. intros H.
  match type of H with
  | bind ?m _ = _ => destruct m as [indices|]; [|discriminate H]
  end.
  cbn [bind] in H.
  destruct (List.length indices =? 0)%nat; [discriminate|].
  destruct (_read_specific_examples _ _ _ _) as [d1|] eqn:Eread; [|discriminate].
  cbn [bind] in H.
  assert (N1 : no_tensors d1).
  { unfold _read_specific_examples in Eread. inv_ok Eread.
    inversion Eread; subst. now repeat split. }
  destruct names as [n|]; [destruct levels as [l|]|].
  - destruct (subset d1 true n l file) as [d2|] eqn:Es; [|discriminate].
    cbn [bind] in H. inversion H; subst.
    now apply (subset_channels_metadata_only d1 _ n l file).
  - now inversion H; subst.
  - now inversion H; subst.
Qed.

(** X11. A read with [metadata_only] never returns a tensor: whatever the
    selection, channel, crop and normalization options, the dictionary it
    returns holds none of the predictor, target and normalization-parameter
    keys. *)
Theorem metadata_only_returns_no_tensors (f : dataset)
    (names : option (list string)) (levels : option (list Z))
    (half_rows half_columns : option Z) (ids : option (list string))
    (first_time last_time : option Z) (file : option string) (r : example_dict) :
  read f true names levels half_rows half_columns ids first_time last_time file
    = Ok (Some r) ->
  predictor_matrix r = None /\ target_matrix r = None /\
  first_normalization_param_matrix r = None /\
  second_normalization_param_matrix r = None.
Proof. apply metadata_only_read_no_tensors. Qed.

(** X12. A dictionary read with [metadata_only] cannot be written back:
    creating a file from it raises [KeyError] on the target matrix, and
    appending it to any file raises as well. *)
Theorem metadata_only_not_writable (f : dataset)
    (names : option (list string)) (levels : option (list Z))
    (half_rows half_columns : option Z) (ids : option (list string))
    (first_time last_time : option Z) (file : option string) (r : example_dict) :
  read f true names levels half_rows half_columns ids first_time last_time file
    = Ok (Some r) ->
  (forall existing, write existing r false = Raises (KeyError "target_matrix")) /\
  (forall f', exists e, write (Some f') r true = Raises e).
Proof.
  intros H. apply metadata_only_read_no_tensors in H as (Hp & Ht & _ & _).
  split.
  - intros existing. unfold write_file, create_main_variables.
    rewrite Ht. reflexivity.
  - intros f'. destruct (write (Some f') r true) as [f2|e] eqn:E;
      [|now exists e].
    exfalso. unfold write_file in E. inv_ok E.
    match goal with
    | W : write_main_keys _ _ _ _ _ _ _ _ _ _ = Ok _ |- _ =>
        unfold write_main_keys in W; rewrite Hp in W; discriminate W
    end.
Qed.

Lemma rows_of_count (d : example_dict) :
  List.length (rows d) = List.length (target_times_unix_sec d).
Proof. unfold rows_of. now rewrite !store_cells_length, repeat_length. Qed.

(** X13. Appending a well-formed dictionary that holds no example, and that
    passes the schema checks, leaves the file exactly as it was. *)
Theorem append_nothing (f : dataset) (d : example_dict) :
  accepts f d = true -> well_formed d = true ->
  target_times_unix_sec d = [] ->
  write (Some f) d true = Ok f.
Proof.
  intros Ha Hw Hn.
  assert (Hc : conforms_to (nc_dimensions f) d = true).
  { destruct (well_formed_lengths d Hw) as (Lp & Lt & _ & _ & L1 & L2).
    rewrite Hn in Lp, Lt, L1, L2. cbn [List.length] in Lp, Lt, L1, L2.
    apply length_zero_iff_nil in Lp, Lt, L1, L2.
    unfold conforms_to. now rewrite Lp, Lt, L1, L2. }
  rewrite write_append_ok by assumption.
  pose proof (rows_of_count d) as L. rewrite Hn in L.
  destruct (rows d); [|discriminate].
  rewrite List.app_nil_r. now destruct f.
Qed.

(** X14. A well-formed dictionary that passes the schema checks, and whose
    cells have the shapes of the fixed dimensions of the file, is always
    appended, and the records added after the [E] old ones hold its arrays:
    integers as cast to 32 bits, floats as cast to 32 bits. *)
Theorem append_stores_arrays (f : dataset) (d : example_dict) :
  accepts f d = true -> well_formed d = true ->
  conforms_to (nc_dimensions f) d = true ->
  exists f',
    write (Some f) d true = Ok f' /\
    let added := skipn (List.length (nc_records f)) (nc_records f') in
    map rec_predictor added =
      map (map (map (map to_float32))) (or_empty (predictor_matrix d)) /\
    map rec_target added = map (map Py.to_int32) (or_empty (target_matrix d)) /\
    map rec_valid_time added = map Py.to_int32 (target_times_unix_sec d) /\
    map rec_row_index added = map Py.to_int32 (row_indices d) /\
    map rec_column_index added = map Py.to_int32 (column_indices d) /\
    map rec_first_norm_param added =
      map (map to_float32) (or_empty (first_normalization_param_matrix d)) /\
    map rec_second_norm_param added =
      map (map to_float32) (or_empty (second_normalization_param_matrix d)).
Proof.
  intros Ha Hw Hc. eexists. split; [now apply write_append_ok|].
  cbn [nc_records with_records].
  rewrite skipn_app, skipn_all, Nat.sub_diag. cbn [skipn app].
  now apply rows_of_columns.
Qed.

(** *** The round trip and valid times before 1970 *)

Lemma map_filter {A B : Type} (p : A -> B) (q : B -> bool) (l : list A) :
  map p (filter (fun x => q (p x)) l) = filter q (map p l).
Proof.
  induction l as [|x l IH]; cbn; [reflexivity|].
  destruct (q (p x)); cbn; now rewrite IH.
Qed.

Lemma filter_length_lt {A : Type} (q : A -> bool) (l : list A) :
  (exists x, In x l /\ q x = false) ->
  (List.length (filter q l) < List.length l)%nat.
Proof.
  intros (x & Hin & Hq). induction l as [|y l IH]; [contradiction|].
  pose proof (filter_length_le q l) as L. cbn.
  destruct Hin as [->|Hin].
  - rewrite Hq. lia.
  - specialize (IH Hin). destruct (q y); cbn; lia.
Qed.

(** C1 (what the code does).  A well-formed, regular dictionary whose valid
    times fit in 32 bits is stored whole, every valid time as written, also
    those before 1970.  Yet a read with no option at all subsets by time: the
    dictionary it returns holds the examples with a valid time of 0 or more
    and no other, fewer examples than were written. *)
Theorem round_trip_loses_times_before_1970 (d : example_dict) :
  well_formed d = true -> regular d = true ->
  forallb in_int32 (target_times_unix_sec d) = true ->
  (exists t, In t (target_times_unix_sec d) /\ t < 0) ->
  exists f,
    write None d false = Ok f /\
    map rec_valid_time (nc_records f) = target_times_unix_sec d /\
    forall r,
      read f false None None None None None None None None = Ok (Some r) ->
      target_times_unix_sec r =
        filter (fun t => 0 <=? t) (target_times_unix_sec d) /\
      (List.length (target_times_unix_sec r)
       < List.length (target_times_unix_sec d))%nat.
Proof.
  intros Hwf Hreg Hint (t & Hin & Hneg).
  exists (new_file to_float32 fill_image fill_target fill_params d).
  split; [now apply write_new_ok|].
  assert (Hstored : map rec_valid_time (rows d) = target_times_unix_sec d).
  { destruct (rows_of_columns to_float32 fill_image fill_target fill_params d Hwf)
      as (_ & _ & Hv & _).
    rewrite Hv. now apply map_to_int32_id. }
  cbn [nc_records new_file]. split; [exact Hstored|].
  intros r Hr. apply read_window in Hr as (_ & Ht & _).
  cbn [nc_records new_file] in Ht.
  assert (Hkept : target_times_unix_sec r =
                  filter (fun t => 0 <=? t) (target_times_unix_sec d)).
  { rewrite Ht, <- Hstored at 1. rewrite <- map_filter. f_equal.
    apply filter_ext_in. intros rec Hrec. unfold in_window.
    cbn [first_time_or_default last_time_or_default].
    apply (in_map rec_valid_time) in Hrec. rewrite Hstored in Hrec.
    rewrite forallb_forall in Hint. specialize (Hint _ Hrec).
    unfold in_int32 in Hint. apply andb_true_iff in Hint as [_ Hhi].
    apply Z.ltb_lt in Hhi.
    destruct (Z.leb_spec (rec_valid_time rec) LARGE_INTEGER) as [|Hbig];
      [now rewrite andb_true_r|].
    unfold LARGE_INTEGER in Hbig. lia. }
  split; [exact Hkept|]. rewrite Hkept. apply filter_length_lt.
  exists t. split; [exact Hin|]. now apply Z.leb_gt.
Qed.

(** *** The centre crop *)

Lemma slice_inside {A : Type} (l : list A) (a b : Z) :
  0 <= a <= b -> b <= Z.of_nat (List.length l) ->
  Py.slice l a b = firstn (Z.to_nat (b - a)) (skipn (Z.to_nat a) l).
Proof.
  intros Ha Hb. unfold Py.slice.
  destruct (Z.ltb_spec a 0); [lia|]. destruct (Z.ltb_spec b 0); [lia|].
  now rewrite !Z.max_r, !Z.min_r by lia.
Qed.

Lemma slice_length_le {A : Type} (l : list A) (a b : Z) :
  (List.length (Py.slice l a b) <= List.length l)%nat.
Proof. unfold Py.slice. rewrite length_firstn, length_skipn. lia. Qed.

(** The [2 h + 1] entries centred on position [c]. *)
Definition center_crop {A : Type} (c h : Z) (l : list A) : list A :=
  firstn (Z.to_nat (2 * h + 1)) (skipn (Z.to_nat (c - h)) l).

Lemma center_crop_length {A : Type} (c h : Z) (l : list A) :
  0 < h <= c -> c + h < Z.of_nat (List.length l) ->
  List.length (center_crop c h l) = Z.to_nat (2 * h + 1).
Proof.
  intros Hh Hc. unfold center_crop. rewrite length_firstn, length_skipn. lia.
Qed.

Lemma in_center_crop {A : Type} (c h : Z) (l : list A) (x : A) :
  In x (center_crop c h l) -> In x l.
Proof.
  unfold center_crop. intros H.
  rewrite <- (firstn_skipn (Z.to_nat (c - h)) l). apply in_or_app. right.
  rewrite <- (firstn_skipn (Z.to_nat (2 * h + 1)) (skipn _ l)).
  apply in_or_app. now left.
Qed.

Lemma slice_center_crop {A : Type} (c h : Z) (l : list A) :
  0 < h <= c -> c + h < Z.of_nat (List.length l) ->
  Py.slice l (c - h) (c + h + 1) = center_crop c h l.
Proof.
  intros Hh Hc. rewrite slice_inside by lia. unfold center_crop.
  do 2 f_equal. lia.
Qed.

(** Every example is an [M] by [N] grid. *)
Definition rectangular (predictor_matrix : list image) (M N : nat) : Prop :=
  Forall (fun img => List.length img = M /\
                     Forall (fun row => List.length row = N) img)
         predictor_matrix.

(** X15. On a non-empty array of [M] by [N] grids, half-sizes that fit around
    the centre make [_shrink_predictor_grid] return, for every example, the
    [2 h + 1] rows and columns centred on row [M / 2] and column [N / 2]. *)
Theorem shrink_center_crop (predictor_matrix : list image) (M N : nat)
    (num_half_rows num_half_columns : Z) :
  predictor_matrix <> [] -> rectangular predictor_matrix M N ->
  0 < num_half_rows <= Z.of_nat M / 2 ->
  Z.of_nat M / 2 + num_half_rows < Z.of_nat M ->
  0 < num_half_columns <= Z.of_nat N / 2 ->
  Z.of_nat N / 2 + num_half_columns < Z.of_nat N ->
  let out :=
    map (fun img =>
           map (center_crop (Z.of_nat N / 2) num_half_columns)
               (center_crop (Z.of_nat M / 2) num_half_rows img))
        predictor_matrix in
  _shrink_predictor_grid predictor_matrix (Some num_half_rows)
    (Some num_half_columns) = Ok out /\
  rectangular out (Z.to_nat (2 * num_half_rows + 1))
    (Z.to_nat (2 * num_half_columns + 1)).
Proof.
  intros Hne Hrect Hr HM Hc HN out.
  assert (Hin : forall img, In img predictor_matrix ->
            List.length img = M /\ forall row, In row img -> List.length row = N).
  { intros img Hi. pose proof (proj1 (Forall_forall _ _) Hrect img Hi) as [L R].
    split; [exact L|]. now apply Forall_forall. }
  split.
  - unfold _shrink_predictor_grid.
    destruct (Z.leb_spec num_half_rows 0); [lia|]. cbn [bind].
    destruct (Z.leb_spec num_half_columns 0); [lia|].
    destruct predictor_matrix as [|img0 rest]; [congruence|].
    assert (S1 : shape1 (img0 :: rest) = Z.of_nat M).
    { cbn [shape1]. now rewrite (proj1 (Hin img0 (or_introl eq_refl))). }
    rewrite S1.
    match goal with
    | |- context [shape2 ?m] =>
        assert (E1 : m = map (center_crop (Z.of_nat M / 2) num_half_rows)
                           (img0 :: rest))
    end.
    { apply map_ext_in. intros img Hi. apply slice_center_crop; [lia|].
      now rewrite (proj1 (Hin img Hi)). }
    rewrite E1.
    assert (S2 : shape2 (map (center_crop (Z.of_nat M / 2) num_half_rows)
                           (img0 :: rest)) = Z.of_nat N).
    { cbn [map shape2].
      pose proof (center_crop_length (Z.of_nat M / 2) num_half_rows img0) as L.
      rewrite (proj1 (Hin img0 (or_introl eq_refl))) in L.
      specialize (L ltac:(lia) ltac:(lia)).
      destruct (center_crop _ _ img0) as [|row0 rows0] eqn:Ecrop;
        [cbn [List.length] in L; lia|].
      f_equal. apply (proj2 (Hin img0 (or_introl eq_refl))).
      assert (Hi : In row0 (center_crop (Z.of_nat M / 2) num_half_rows img0))
        by (rewrite Ecrop; now left).
      now apply in_center_crop in Hi. }
    rewrite S2. f_equal. unfold out. rewrite map_map.
    apply map_ext_in. intros img Hi. apply map_ext_in. intros row Hrow.
    apply slice_center_crop; [lia|].
    apply in_center_crop in Hrow.
    now rewrite (proj2 (Hin img Hi) row Hrow).
  - unfold rectangular, out. apply Forall_forall. intros o Ho.
    apply in_map_iff in Ho as (img & <- & Hi). split.
    + rewrite length_map. apply center_crop_length; [lia|].
      now rewrite (proj1 (Hin img Hi)).
    + apply Forall_forall. intros r Hr'.
      apply in_map_iff in Hr' as (row & <- & Hrow).
      apply center_crop_length; [lia|].
      apply in_center_crop in Hrow.
      now rewrite (proj2 (Hin img Hi) row Hrow).
Qed.

Lemma Forall2_map_le {A : Type} (f : list A -> list A) (l : list (list A)) :
  (forall x, (List.length (f x) <= List.length x)%nat) ->
  Forall2 (fun i o => (List.length o <= List.length i)%nat) l (map f l).
Proof. intros H. induction l; cbn; constructor; auto. Qed.

(** X16. [_shrink_predictor_grid] returns exactly when every half-size given
    is positive, however large: a half-size that does not fit is not
    rejected.  What it returns has as many examples as the input, and no
    example has gained a row. *)
Theorem shrink_returns_iff (predictor_matrix : list image)
    (num_half_rows num_half_columns : option Z) :
  ((exists out,
      _shrink_predictor_grid predictor_matrix num_half_rows num_half_columns
        = Ok out) <->
   (forall h, num_half_rows = Some h -> 0 < h) /\
   (forall h, num_half_columns = Some h -> 0 < h)) /\
  (forall out,
     _shrink_predictor_grid predictor_matrix num_half_rows num_half_columns
       = Ok out ->
     Forall2 (fun i o => (List.length o <= List.length i)%nat)
       predictor_matrix out).
Proof.
  unfold _shrink_predictor_grid.
  destruct num_half_rows as [hr|], num_half_columns as [hc|];
    try destruct (Z.leb_spec hr 0) as [Lr|Lr];
    try destruct (Z.leb_spec hc 0) as [Lc|Lc]; cbn [bind];
    (split;
     [ split;
       [ intros [out E]; try discriminate E; split; intros h Eh;
           try discriminate Eh; inversion Eh; subst; lia
       | intros [Hr Hc]; try (specialize (Hr _ eq_refl); lia);
           try (specialize (Hc _ eq_refl); lia); eexists; reflexivity ]
     | intros out E; try discriminate E; inversion E; subst; clear E ]).
  - rewrite map_map. apply Forall2_map_le. intros img.
    rewrite length_map. apply slice_length_le.
  - apply Forall2_map_le. intros img. apply slice_length_le.
  - apply Forall2_map_le. intros img. now rewrite length_map.
  - match goal with
    | |- Forall2 _ ?l ?l => induction l; constructor; auto
    end.
Qed.

(** *** Channel selection *)

Lemma where_from_head (flags : list bool) :
  forall (start : nat) (k : Z) (rest : list Z),
    Py.where_from start flags = k :: rest ->
    exists j, k = Z.of_nat (start + j) /\ nth_error flags j = Some true.
Proof.
  induction flags as [|b flags IH]; intros start k rest H; [discriminate|].
  cbn [Py.where_from] in H. destruct b.
  - inversion H; subst. exists O. split; [f_equal; lia | reflexivity].
  - apply IH in H as (j & -> & Hj). exists (S j). split; [f_equal; lia | exact Hj].
Qed.

Lemma nth_error_combine {A B : Type} (a : list A) (b : list B) :
  forall (j : nat) (x : A) (y : B),
    nth_error (combine a b) j = Some (x, y) ->
    nth_error a j = Some x /\ nth_error b j = Some y.
Proof.
  revert b. induction a as [|x0 a IH]; intros [|y0 b] [|j] x y H;
    try discriminate H.
  - inversion H; subst. now split.
  - cbn in H |- *. now apply IH.
Qed.

Lemma index_nth_error {A : Type} (a : list A) (j : nat) (x : A) :
  nth_error a j = Some x -> Py.index a (Z.of_nat j) = Ok x.
Proof.
  intros H. rewrite (index_of_nat a j x).
  - f_equal. now apply nth_error_nth.
  - apply nth_error_Some. congruence.
Qed.

Lemma find_channel_ok (all_names : list string) (all_levels : list Z)
    (n : string) (l : Z) (k : Z) :
  find_channel all_names all_levels n l = Ok k ->
  Py.index all_names k = Ok n /\ Py.index all_levels k = Ok l /\
  In (n, l) (combine all_names all_levels).
Proof.
  unfold find_channel, Py.where_. intros H.
  destruct (Py.where_from _ _) as [|k' rest] eqn:E; [discriminate|].
  inversion H; subst k'. clear H.
  apply where_from_head in E as (j & -> & Hj). cbn [Nat.add] in *.
  rewrite nth_error_map in Hj.
  destruct (nth_error (combine all_names all_levels) j) as [[an al]|] eqn:Ej;
    [|discriminate].
  cbn in Hj. injection Hj as Hj. apply andb_true_iff in Hj as [Hn Hl].
  apply String.eqb_eq in Hn. apply Z.eqb_eq in Hl. subst an al.
  pose proof (nth_error_In _ _ Ej) as Hin.
  apply nth_error_combine in Ej as [Ea Eb].
  repeat split; [now apply index_nth_error | now apply index_nth_error | exact Hin].
Qed.


Lemma find_channels_take (all_names : list string) (all_levels : list Z)
    (requested : list (string * Z)) :
  forall indices,
    mapM (fun '(n, l) => find_channel all_names all_levels n l) requested
      = Ok indices ->
    Py.take all_names indices = Ok (map fst requested) /\
    Py.take all_levels indices = Ok (map snd requested) /\
    Forall (fun c => In c (combine all_names all_levels)) requested.
Proof.
  induction requested as [|[n l] requested IH]; intros indices H; cbn [mapM] in H.
  - inversion H. repeat split; constructor.
  - destruct (find_channel all_names all_levels n l) as [k|] eqn:Ek; [|discriminate].
    cbn [bind] in H.
    destruct (mapM _ requested) as [ks|] eqn:Eks; [|discriminate].
    cbn [bind] in H. inversion H; subst. clear H.
    apply find_channel_ok in Ek as (Hn & Hl & Hin).
    destruct (IH ks eq_refl) as (Tn & Tl & Hall).
    unfold Py.take in *. cbn [mapM map fst snd].
    rewrite Hn, Hl, Tn, Tl. cbn [bind]. repeat split. now constructor.
Qed.

Lemma map_fst_combine {A B : Type} (a : list A) :
  forall b : list B, List.length b = List.length a -> map fst (combine a b) = a.
Proof.
  induction a as [|x a IH]; intros [|y b] H; try discriminate H; [reflexivity|].
  cbn. f_equal. apply IH. now injection H.
Qed.

Lemma map_snd_combine {A B : Type} (a : list A) :
  forall b : list B, List.length b = List.length a -> map snd (combine a b) = b.
Proof.
  induction a as [|x a IH]; intros [|y b] H; try discriminate H; [reflexivity|].
  cbn. f_equal. apply IH. now injection H.
Qed.

Lemma no_orography_requested (names : list string) (levels : list Z) :
  ~ In (HEIGHT_NAME, DUMMY_SURFACE_PRESSURE_MB) (combine names levels) ->
  existsb (fun f : bool => f)
    (map (fun '(n, l) => String.eqb n HEIGHT_NAME && (l =? DUMMY_SURFACE_PRESSURE_MB))
         (combine names levels)) = false.
Proof.
  intros Hno. destruct (existsb _ _) eqn:E; [|reflexivity]. exfalso.
  apply existsb_exists in E as (b & Hb & ->).
  apply in_map_iff in Hb as ([n l] & Hf & Hin).
  apply andb_true_iff in Hf as [Hn Hl].
  apply String.eqb_eq in Hn. apply Z.eqb_eq in Hl. subst. contradiction.
Qed.

(** X17. When the request holds no orography channel, a channel selection
    that returns has exactly the requested names and levels, in the order of
    the request; every requested channel was one of the dictionary's, and the
    examples' times and grid positions are untouched. *)
Theorem subset_channels_names (d r : example_dict) (metadata_only : bool)
    (names : list string) (levels : list Z) (file : option string) :
  subset d metadata_only names levels file = Ok r ->
  ~ In (HEIGHT_NAME, DUMMY_SURFACE_PRESSURE_MB) (combine names levels) ->
  narr_predictor_names r = names /\ pressure_levels_mb r = levels /\
  Forall (fun c => In c (combine (narr_predictor_names d) (pressure_levels_mb d)))
         (combine names levels) /\
  target_times_unix_sec r = target_times_unix_sec d /\
  row_indices r = row_indices d /\ column_indices r = column_indices d.
Proof.
  intros H Hno. unfold _subset_channels in H.
  destruct (List.length levels =? List.length names)%nat eqn:El;
    [|discriminate]. apply Nat.eqb_eq in El.
  cbn [bind] in H. rewrite (no_orography_requested _ _ Hno) in H.
  destruct (mapM _ (combine names levels)) as [indices|] eqn:Ei; [|discriminate].
  cbn [bind] in H.
  apply find_channels_take in Ei as (Tn & Tl & Hall).
  rewrite Tn, Tl in H. cbn [bind negb] in H.
  rewrite (map_fst_combine names levels El),
    (map_snd_combine names levels El) in H.
  destruct metadata_only.
  - inversion H; subst. cbn. auto 10.
  - inv_ok H. inversion H; subst. cbn. auto 10.
Qed.

Lemma mapM_raises {A B : Type} (f : A -> result B) (e : exception) (l : list A) :
  (forall x, In x l -> f x = Raises e \/ exists y, f x = Ok y) ->
  (exists x, In x l /\ f x = Raises e) ->
  mapM f l = Raises e.
Proof.
  induction l as [|a l IH]; intros Hall (x & Hin & Hx); [contradiction|].
  cbn [mapM]. destruct (Hall a (or_introl eq_refl)) as [Ea|[y Ea]]; rewrite Ea;
    [reflexivity|].
  cbn [bind]. rewrite IH; [reflexivity | |].
  - intros z Hz. apply Hall. now right.
  - destruct Hin as [<-|Hin]; [congruence|]. now exists x.
Qed.


(** *** Example selection *)

Lemma take_length {A : Type} (a : list A) (indices : list Z) :
  forall out, Py.take a indices = Ok out -> List.length out = List.length indices.
Proof.
  unfold Py.take. induction indices as [|i indices IH]; intros out H;
    cbn [mapM] in H.
  - now inversion H.
  - destruct (Py.index a i); [|discriminate]. cbn [bind] in H.
    destruct (mapM _ indices) as [rest|]; [|discriminate].
    cbn [bind] in H. inversion H; subst. cbn. f_equal. now apply IH.
Qed.

(** The position a Python index denotes in a sequence of [n] items. *)
Definition position (n : nat) (i : Z) : nat :=
  Z.to_nat (if i <? 0 then i + Z.of_nat n else i).

Lemma index_position {A : Type} (a : list A) (i : Z) (x : A) :
  Py.index a i = Ok x ->
  - Z.of_nat (List.length a) <= i < Z.of_nat (List.length a) /\
  nth_error a (position (List.length a) i) = Some x.
Proof.
  unfold Py.index, position. intros H.
  destruct (Z.ltb_spec i 0);
    repeat match type of H with
      | context [(?u <? ?v)] => destruct (Z.ltb_spec u v)
      | context [(?u <=? ?v)] => destruct (Z.leb_spec u v)
      end; cbn [orb] in H; try discriminate H;
    (destruct (nth_error a _) as [y|]; [|discriminate H]);
    (split; [lia | congruence]).
Qed.

Lemma take_nth_error {A : Type} (a : list A) (indices : list Z) :
  forall out (k : nat) (i : Z),
    Py.take a indices = Ok out -> nth_error indices k = Some i ->
    - Z.of_nat (List.length a) <= i < Z.of_nat (List.length a) /\
    nth_error out k = nth_error a (position (List.length a) i).
Proof.
  unfold Py.take. induction indices as [|i0 indices IH]; intros out k i H Hk;
    [destruct k; discriminate|].
  cbn [mapM] in H. destruct (Py.index a i0) as [x|] eqn:Ex; [|discriminate].
  cbn [bind] in H. destruct (mapM _ indices) as [rest|] eqn:Er; [|discriminate].
  cbn [bind] in H. inversion H; subst. clear H.
  destruct k as [|k]; cbn in Hk |- *.
  - inversion Hk; subst. apply index_position in Ex as [R E]. now rewrite E.
  - now apply (IH rest k i).
Qed.

Lemma index_out_of_range {A : Type} (a : list A) (i : Z) :
  i < - Z.of_nat (List.length a) \/ Z.of_nat (List.length a) <= i ->
  Py.index a i = Raises IndexError.
Proof.
  intros H. unfold Py.index.
  destruct (Z.ltb_spec i 0);
    repeat match goal with
      | |- context [(?u <? ?v)] => destruct (Z.ltb_spec u v)
      | |- context [(?u <=? ?v)] => destruct (Z.leb_spec u v)
      end; cbn [orb]; try reflexivity; lia.
Qed.

Lemma index_ok_or_index_error {A : Type} (a : list A) (i : Z) :
  Py.index a i = Raises IndexError \/ exists x, Py.index a i = Ok x.
Proof.
  unfold Py.index. destruct (_ || _); [now left|].
  destruct (nth_error a _); [right; eauto | now left].
Qed.

(** X19. Selecting every example of a well-formed dictionary, in order,
    returns the dictionary itself. *)
Theorem subset_examples_all (d : example_dict) :
  well_formed d = true ->
  subset_examples d
    (map Z.of_nat (seq 0 (List.length (target_times_unix_sec d)))) = Ok d.
Proof.
  unfold well_formed. rewrite !andb_true_iff.
  intros [[[[[Hp Ht] Hr] Hc] H1] H2].
  apply has_rows_inv in Hp as [pm [Ep Lp]], Ht as [tm [Et Lt]],
    H1 as [n1 [E1 L1]], H2 as [n2 [E2 L2]].
  apply Nat.eqb_eq in Hr, Hc.
  unfold subset_examples. rewrite Ep, Et, E1, E2.
  pose proof (take_everything pm) as Tp. rewrite Lp in Tp.
  pose proof (take_everything tm) as Tt. rewrite Lt in Tt.
  pose proof (take_everything (target_times_unix_sec d)) as Ts.
  pose proof (take_everything (row_indices d)) as Tr. rewrite Hr in Tr.
  pose proof (take_everything (column_indices d)) as Tc. rewrite Hc in Tc.
  pose proof (take_everything n1) as T1. rewrite L1 in T1.
  pose proof (take_everything n2) as T2. rewrite L2 in T2.
  rewrite Tp, Tt, Ts, Tr, Tc, T1, T2. cbn [bind].
  destruct d; cbn in *; congruence.
Qed.

(** X20. What [subset_examples] returns from a well-formed dictionary is well
    formed, has one example per index, keeps the schema, and its [k]-th
    example is the one the [k]-th index denotes, a negative index counting
    from the end; every index lies in [-E, E). *)
Theorem subset_examples_contract (d r : example_dict) (desired_indices : list Z) :
  well_formed d = true ->
  subset_examples d desired_indices = Ok r ->
  let E := List.length (target_times_unix_sec d) in
  well_formed r = true /\
  List.length (target_times_unix_sec r) = List.length desired_indices /\
  dict_schema r = dict_schema d /\
  forall (k : nat) (i : Z),
    nth_error desired_indices k = Some i ->
    - Z.of_nat E <= i < Z.of_nat E /\
    nth_error (target_times_unix_sec r) k =
      nth_error (target_times_unix_sec d) (position E i) /\
    nth_error (row_indices r) k = nth_error (row_indices d) (position E i) /\
    nth_error (column_indices r) k = nth_error (column_indices d) (position E i) /\
    nth_error (or_empty (predictor_matrix r)) k =
      nth_error (or_empty (predictor_matrix d)) (position E i) /\
    nth_error (or_empty (target_matrix r)) k =
      nth_error (or_empty (target_matrix d)) (position E i) /\
    nth_error (or_empty (first_normalization_param_matrix r)) k =
      nth_error (or_empty (first_normalization_param_matrix d)) (position E i) /\
    nth_error (or_empty (second_normalization_param_matrix r)) k =
      nth_error (or_empty (second_normalization_param_matrix d)) (position E i).
Proof.
  unfold well_formed at 1. rewrite !andb_true_iff.
  intros [[[[[Hp Ht] Hr] Hc] H1] H2] H.
  apply has_rows_inv in Hp as [pm [Ep Lp]], Ht as [tm [Et Lt]],
    H1 as [n1 [E1 L1]], H2 as [n2 [E2 L2]].
  apply Nat.eqb_eq in Hr, Hc.
  unfold subset_examples in H. rewrite Ep, Et, E1, E2 in H.
  destruct (Py.take pm desired_indices) as [pm'|] eqn:Tp; [|discriminate].
  destruct (Py.take tm desired_indices) as [tm'|] eqn:Tt; [|discriminate].
  destruct (Py.take (target_times_unix_sec d) desired_indices) as [ts'|] eqn:Ts;
    [|discriminate].
  destruct (Py.take (row_indices d) desired_indices) as [rs'|] eqn:Tr;
    [|discriminate].
  destruct (Py.take (column_indices d) desired_indices) as [cs'|] eqn:Tc;
    [|discriminate].
  destruct (Py.take n1 desired_indices) as [n1'|] eqn:T1; [|discriminate].
  destruct (Py.take n2 desired_indices) as [n2'|] eqn:T2; [|discriminate].
  cbn [bind] in H. inversion H; subst r. clear H.
  rewrite Ep, Et, E1, E2. cbn.
  pose proof (take_length _ _ _ Tp) as Np. pose proof (take_length _ _ _ Tt) as Nt.
  pose proof (take_length _ _ _ Ts) as Ns. pose proof (take_length _ _ _ Tr) as Nr.
  pose proof (take_length _ _ _ Tc) as Nc. pose proof (take_length _ _ _ T1) as N1.
  pose proof (take_length _ _ _ T2) as N2.
  split; [|split; [exact Ns|split; [reflexivity|]]].
  - unfold well_formed, has_rows.
    cbn [predictor_matrix target_matrix target_times_unix_sec row_indices
         column_indices first_normalization_param_matrix
         second_normalization_param_matrix].
    rewrite !andb_true_iff, !Nat.eqb_eq. repeat split; congruence.
  - intros k i Hk.
    destruct (take_nth_error _ _ _ _ _ Ts Hk) as [R Vs].
    destruct (take_nth_error _ _ _ _ _ Tr Hk) as [_ Vr].
    destruct (take_nth_error _ _ _ _ _ Tc Hk) as [_ Vc].
    destruct (take_nth_error _ _ _ _ _ Tp Hk) as [_ Vp].
    destruct (take_nth_error _ _ _ _ _ Tt Hk) as [_ Vt].
    destruct (take_nth_error _ _ _ _ _ T1 Hk) as [_ V1].
    destruct (take_nth_error _ _ _ _ _ T2 Hk) as [_ V2].
    rewrite Hr in Vr. rewrite Hc in Vc. rewrite Lp in Vp. rewrite Lt in Vt.
    rewrite L1 in V1. rewrite L2 in V2.
    repeat split; (lia || assumption).
Qed.

(** X21. On a well-formed dictionary of [E] examples, an index outside
    [-E, E) makes [subset_examples] raise [IndexError]. *)
Theorem subset_examples_out_of_range (d : example_dict) (desired_indices : list Z) :
  well_formed d = true ->
  (exists i, In i desired_indices /\
             (i < - Z.of_nat (List.length (target_times_unix_sec d)) \/
              Z.of_nat (List.length (target_times_unix_sec d)) <= i)) ->
  subset_examples d desired_indices = Raises IndexError.
Proof.
  unfold well_formed. rewrite !andb_true_iff.
  intros [[[[[Hp Ht] Hr] Hc] H1] H2] (i & Hin & Hi).
  apply has_rows_inv in Hp as [pm [Ep Lp]], Ht as [tm [Et Lt]],
    H1 as [n1 [E1 L1]], H2 as [n2 [E2 L2]].
  unfold subset_examples. rewrite Ep, Et, E1, E2.
  unfold Py.take at 1. rewrite (mapM_raises _ IndexError); [reflexivity | |].
  - intros x _. apply index_ok_or_index_error.
  - exists i. split; [exact Hin|]. apply index_out_of_range. now rewrite Lp.
Qed.

(** X22. A well-formed dictionary whose cells have the shapes of the fixed
    dimensions of the file is appended exactly when the file passes the five
    schema checks: dilation distance within the tolerance of [numpy.isclose],
    and normalization type, pressure levels, predictor names and mask equal
    to the file's. *)
Theorem append_returns_iff (f : dataset) (d : example_dict) :
  well_formed d = true -> conforms_to (nc_dimensions f) d = true ->
  ((exists f', write (Some f) d true = Ok f') <-> accepts f d = true).
Proof.
  intros Hwf Hcf. split.
  - intros [f' H]. unfold write_file, getattr_normalization_type in H.
    unfold accepts.
    destruct (Py.isclose _ _ _ _); [|discriminate H]. cbn [assert bind] in H.
    destruct (nc_normalization_type_string f) as [t|]; [|discriminate H].
    cbn [bind] in H.
    destruct (String.eqb t _); [|discriminate H]. cbn [assert bind] in H.
    destruct (list_eqb Z.eqb _ _); [|discriminate H]. cbn [assert bind] in H.
    destruct (list_eqb String.eqb _ _); [|discriminate H]. cbn [assert bind] in H.
    destruct (list_eqb (list_eqb Z.eqb) _ _); [|discriminate H]. reflexivity.
  - intros Ha. eexists. now apply write_append_ok.
Qed.

End MoreStoreProperties.

(** A dictionary of two examples on a 1 x 1 grid with two channels, and a
    5 x 5 grid of one channel whose pixels hold ten times the row plus the
    column. *)
Module SelectionFixture.

Definition pair : example_dict (F := Q) :=
  {| predictor_matrix := Some [[[[1 # 2; 3 # 2]]]; [[[5 # 2; 7 # 2]]]];
     target_matrix := Some [[0; 1; 0]; [1; 0; 0]];
     target_times_unix_sec := [946684800; 946695600];
     row_indices := [5; 6];
     column_indices := [17; 18];
     narr_predictor_names := ["temperature_kelvins"; "specific_humidity_kg_kg01"];
     pressure_levels_mb := [850; 1000];
     dilation_distance_metres := 50000 # 1;
     narr_mask_matrix := [[1; 1]; [1; 0]];
     normalization_type_string := "z_score";
     first_normalization_param_matrix := Some [[280 # 1; 1 # 100]; [281 # 1; 2 # 100]];
     second_normalization_param_matrix := Some [[10 # 1; 1 # 1000]; [11 # 1; 2 # 1000]] |}.

(** A dictionary with the schema of [Fixture.two_examples] and no example. *)
Definition nothing : example_dict (F := Q) :=
  {| predictor_matrix := Some [];
     target_matrix := Some [];
     target_times_unix_sec := [];
     row_indices := [];
     column_indices := [];
     narr_predictor_names := ["temperature_kelvins"];
     pressure_levels_mb := [850];
     dilation_distance_metres := 50000 # 1;
     narr_mask_matrix := [[1; 1]; [1; 0]];
     normalization_type_string := "z_score";
     first_normalization_param_matrix := Some [];
     second_normalization_param_matrix := Some [] |}.

Definition subset (d : example_dict (F := Q)) (metadata_only : bool)
    (names : list string) (levels : list Z) : result example_dict :=
  _subset_channels "z_score" "height_m_asl" 1013
    (fun _ _ _ _ => Fixture.unavailable) (fun _ _ => Fixture.unavailable)
    (fun _ _ _ _ => Fixture.unavailable) d metadata_only names levels None.

(** Two examples on a 1 x 1 grid, the first with a valid time one hour before
    1970. *)
Definition before_1970 : example_dict (F := Q) :=
  {| predictor_matrix := Some [[[[1 # 2]]]; [[[3 # 2]]]];
     target_matrix := Some [[0; 1; 0]; [1; 0; 0]];
     target_times_unix_sec := [-3600; 946684800];
     row_indices := [5; 6];
     column_indices := [17; 18];
     narr_predictor_names := ["temperature_kelvins"];
     pressure_levels_mb := [850];
     dilation_distance_metres := 50000 # 1;
     narr_mask_matrix := [[1; 1]; [1; 0]];
     normalization_type_string := "z_score";
     first_normalization_param_matrix := Some [[280 # 1]; [281 # 1]];
     second_normalization_param_matrix := Some [[10 # 1]; [11 # 1]] |}.

Definition pixel (row column : Z) : list Q := [(10 * row + column) # 1].

Definition grid : list (image (F := Q)) :=
  [map (fun row => map (pixel row) [0; 1; 2; 3; 4]) [0; 1; 2; 3; 4]].

End SelectionFixture.

(** Both examples are stored; the read with no option returns the second
    one alone. *)
Lemma round_trip_loses_times_before_1970_witness :
  exists f r,
    Fixture.write None SelectionFixture.before_1970 false = Ok f /\
    map rec_valid_time (nc_records f) = [-3600; 946684800] /\
    Fixture.read f false None None None = Ok (Some r) /\
    target_times_unix_sec r = [946684800].
Proof.
  destruct (round_trip_loses_times_before_1970 Fixture.to_float32 Fixture.fill_image
              Fixture.fill_target Fixture.fill_params "z_score" "height_m_asl" 1013
              (fun _ _ => Fixture.unavailable) (fun _ _ _ _ => Fixture.unavailable)
              (fun _ _ => Fixture.unavailable) (fun _ _ _ _ => Fixture.unavailable)
              Fixture.library SelectionFixture.before_1970 eq_refl eq_refl eq_refl)
    as (f & Hw & Hs & Hr).
  - exists (-3600). split; [now left | lia].
  - assert (Ef : Fixture.write None SelectionFixture.before_1970 false = Ok f)
      by exact Hw.
    vm_compute in Ef. injection Ef as <-.
    eexists. eexists. split; [vm_compute; reflexivity|].
    split; [exact Hs|].
    split; [vm_compute; reflexivity|].
    exact (proj1 (Hr _ eq_refl)).
Defined.



Lemma metadata_only_returns_no_tensors_witness :
  exists r,
    Fixture.read Fixture.two_examples true None None None = Ok (Some r) /\
    predictor_matrix r = None /\ target_matrix r = None.
Proof.
  eexists. split; [reflexivity|].
  destruct (metadata_only_returns_no_tensors "z_score" "height_m_asl" 1013
              (fun _ _ => Fixture.unavailable) (fun _ _ _ _ => Fixture.unavailable)
              (fun _ _ => Fixture.unavailable) (fun _ _ _ _ => Fixture.unavailable)
              Fixture.two_examples None None None None None None None None _ eq_refl)
    as (Hp & Ht & _).
  split; assumption.
Defined.

Lemma metadata_only_not_writable_witness :
  exists r,
    Fixture.read Fixture.two_examples true None None None = Ok (Some r) /\
    Fixture.write None r false = Raises (KeyError "target_matrix").
Proof.
  eexists. split; [reflexivity|].
  destruct (metadata_only_not_writable Fixture.to_float32 Fixture.fill_image
              Fixture.fill_target Fixture.fill_params "z_score" "height_m_asl" 1013
              (fun _ _ => Fixture.unavailable) (fun _ _ _ _ => Fixture.unavailable)
              (fun _ _ => Fixture.unavailable) (fun _ _ _ _ => Fixture.unavailable)
              Fixture.library Fixture.two_examples None None None None None None None None _ eq_refl)
    as (Hw & _).
  apply Hw.
Defined.

Lemma append_nothing_witness :
  Fixture.write (Some Fixture.two_examples) SelectionFixture.nothing true
    = Ok Fixture.two_examples.
Proof.
  apply (append_nothing Fixture.to_float32 Fixture.fill_image Fixture.fill_target
           Fixture.fill_params Fixture.library Fixture.two_examples
           SelectionFixture.nothing);
    reflexivity.
Defined.

Lemma append_stores_arrays_witness :
  exists f',
    Fixture.write (Some Fixture.two_examples)
      (Fixture.example 946706400 7 19 (50000 # 1)) true = Ok f' /\
    map rec_valid_time (skipn 2 (nc_records f')) = [946706400] /\
    map rec_row_index (skipn 2 (nc_records f')) = [7].
Proof.
  destruct (append_stores_arrays Fixture.to_float32 Fixture.fill_image
              Fixture.fill_target Fixture.fill_params Fixture.library
              Fixture.two_examples
              (Fixture.example 946706400 7 19 (50000 # 1)) eq_refl eq_refl eq_refl)
    as (f' & Hw & _ & _ & Ht & Hr & _).
  exists f'. repeat split; assumption.
Defined.

Lemma shrink_center_crop_witness :
  _shrink_predictor_grid SelectionFixture.grid (Some 1) (Some 1) =
  Ok [[[[11 # 1]; [12 # 1]; [13 # 1]];
       [[21 # 1]; [22 # 1]; [23 # 1]];
       [[31 # 1]; [32 # 1]; [33 # 1]]]].
Proof.
  destruct (shrink_center_crop SelectionFixture.grid 5 5 1 1) as [H _].
  - discriminate.
  - repeat constructor.
  - change (Z.of_nat 5 / 2) with 2. lia.
  - change (Z.of_nat 5 / 2) with 2. lia.
  - change (Z.of_nat 5 / 2) with 2. lia.
  - change (Z.of_nat 5 / 2) with 2. lia.
  - exact H.
Defined.

Lemma subset_channels_names_witness :
  exists r,
    SelectionFixture.subset SelectionFixture.pair false
      ["specific_humidity_kg_kg01"] [1000] = Ok r /\
    narr_predictor_names r = ["specific_humidity_kg_kg01"] /\
    pressure_levels_mb r = [1000].
Proof.
  eexists. split; [reflexivity|].
  destruct (subset_channels_names "z_score" "height_m_asl" 1013
              (fun _ _ _ _ => Fixture.unavailable) (fun _ _ => Fixture.unavailable)
              (fun _ _ _ _ => Fixture.unavailable)
              SelectionFixture.pair _ false ["specific_humidity_kg_kg01"] [1000]
              None eq_refl)
    as (Hn & Hl & _).
  - intros [E|[]]. discriminate E.
  - split; assumption.
Defined.


Lemma subset_examples_all_witness :
  subset_examples SelectionFixture.pair [0; 1] = Ok SelectionFixture.pair.
Proof. apply (subset_examples_all SelectionFixture.pair). reflexivity. Defined.

Lemma subset_examples_contract_witness :
  exists r,
    subset_examples SelectionFixture.pair [-1; 0; -1] = Ok r /\
    well_formed r = true /\
    List.length (target_times_unix_sec r) = 3%nat /\
    nth_error (target_times_unix_sec r) 0 = Some 946695600.
Proof.
  eexists. split; [reflexivity|].
  destruct (subset_examples_contract SelectionFixture.pair _ [-1; 0; -1]
              eq_refl eq_refl) as (Hw & Hn & _ & Hk).
  destruct (Hk O (-1) eq_refl) as (_ & Ht & _).
  repeat split; assumption.
Defined.

Lemma subset_examples_out_of_range_witness :
  subset_examples SelectionFixture.pair [0; 2] = Raises IndexError.
Proof.
  apply (subset_examples_out_of_range SelectionFixture.pair [0; 2]).
  - reflexivity.
  - exists 2. split; [right; now left | right; cbn; lia].
Defined.

Lemma append_returns_iff_witness :
  (exists f',
     Fixture.write (Some Fixture.two_examples)
       (Fixture.example 946706400 7 19 (50000 # 1)) true = Ok f') <->
  accepts Fixture.two_examples (Fixture.example 946706400 7 19 (50000 # 1)) = true.
Proof.
  apply (append_returns_iff Fixture.to_float32 Fixture.fill_image
           Fixture.fill_target Fixture.fill_params Fixture.library
           Fixture.two_examples (Fixture.example 946706400 7 19 (50000 # 1)));
    reflexivity.
Defined.

(** ** File names *)

Lemma string_app_assoc (a b c : string) :
  ((a ++ b) ++ c = a ++ (b ++ c))%string.
Proof. induction a as [|x a IH]; cbn; [reflexivity | now rewrite IH]. Qed.

Lemma count_char_app (c : ascii) (p q : string) :
  count_char c (p ++ q)%string = (count_char c p + count_char c q)%nat.
Proof.
  induction p as [|a p IH]; cbn; [reflexivity|].
  destruct (Ascii.eqb a c); cbn; now rewrite IH.
Qed.

Lemma last_split_app (sep : ascii) (p q : string) :
  last (Py.split sep (p ++ String sep q)) EmptyString =
  last (Py.split sep q) EmptyString.
Proof.
  induction p as [|a p IH]; cbn [append Py.split].
  - rewrite Ascii.eqb_refl.
    pose proof (split_length sep q) as L.
    destruct (Py.split sep q); [discriminate L | reflexivity].
  - pose proof (split_length sep (p ++ String sep q)) as L.
    rewrite count_char_app in L. cbn [count_char] in L.
    rewrite Ascii.eqb_refl in L.
    destruct (Py.split sep (p ++ String sep q)) as [|w [|w' ws]];
      [discriminate L | cbn in L; lia |].
    destruct (Ascii.eqb a sep); exact IH.
Qed.

Lemma basename_of_path (directory name : string) :
  all_chars (fun a => negb (Ascii.eqb a "/")) name = true ->
  Py.basename (directory ++ String "/" name) = name.
Proof.
  intros H. unfold Py.basename. rewrite last_split_app.
  now rewrite split_no_sep.
Qed.

Lemma rfind_last_dot (x ext : string) :
  Py.rfind_char "." ext = None ->
  Py.rfind_char "." (x ++ String "." ext) = Some (String.length x).
Proof.
  intros H. induction x as [|a x IH]; cbn [append Py.rfind_char String.length].
  - now rewrite H.
  - now rewrite IH.
Qed.

Lemma substring_prefix (x t : string) :
  String.substring 0 (String.length x) (x ++ t) = x.
Proof.
  induction x as [|a x IH]; cbn [append String.length String.substring].
  - now destruct t.
  - now rewrite IH.
Qed.

Lemma splitext_root_of (x ext : string) :
  Py.rfind_char "." ext = None -> Py.all_dots x = false ->
  Py.splitext_root (x ++ String "." ext) = x.
Proof.
  intros He Hx. unfold Py.splitext_root.
  now rewrite (rfind_last_dot x ext He), substring_prefix, Hx.
Qed.

Lemma prefix_app (s t : string) : String.prefix s (s ++ t) = true.
Proof.
  induction s as [|a s IH]; [apply prefix_empty|].
  cbn. destruct (ascii_dec a a); [exact IH | congruence].
Qed.

Lemma split_on_skip (sep t rest : string) :
  Py.split_on sep (String.length t) (t ++ rest) = Py.split_on sep 0 rest.
Proof.
  induction t as [|a t IH]; [reflexivity|].
  cbn [append String.length Py.split_on]. exact IH.
Qed.

Lemma split_on_prefix (c : ascii) (sep' rest : string) :
  Py.split_on (String c sep') 0 (String c sep' ++ rest) =
  EmptyString :: Py.split_on (String c sep') 0 rest.
Proof.
  pose proof (prefix_app (String c sep') rest) as P.
  cbn [append] in P |- *. cbn [Py.split_on]. rewrite P.
  cbn [String.length Nat.sub]. rewrite Nat.sub_0_r.
  now rewrite split_on_skip.
Qed.

Lemma split_on_absent (c : ascii) (sep' s : string) :
  all_chars (fun a => negb (Ascii.eqb a c)) s = true ->
  Py.split_on (String c sep') 0 s = [s].
Proof.
  induction s as [|a s IH]; [reflexivity|].
  intros H. cbn [all_chars] in H. apply andb_true_iff in H as [Ha Hs].
  apply negb_true_iff in Ha. cbn [Py.split_on String.prefix].
  destruct (ascii_dec c a) as [->|Hne].
  - now rewrite Ascii.eqb_refl in Ha.
  - now rewrite (IH Hs).
Qed.

Lemma digits_not (c : ascii) (s : string) :
  is_digit c = false -> all_chars is_digit s = true ->
  all_chars (fun a => negb (Ascii.eqb a c)) s = true.
Proof.
  intros Hc. apply all_chars_weaken. intros a Ha. now apply digit_neq.
Qed.

(** The batch number read back from a path whose last component is the
    prefix, [_batch], digits and [.nc]. *)
Lemma batch_number_of_path (directory digits : string) :
  all_chars is_digit digits = true ->
  _file_name_to_batch_number
    (directory ++ String "/" ("downsized_3d_examples_batch" ++ digits ++ ".nc"))
  = match Py.int digits with
    | Ok batch_number => Ok batch_number
    | Raises _ => Raises (ValueError "Batch number cannot be parsed from file name")
    end.
Proof.
  intros Hd. unfold _file_name_to_batch_number.
  rewrite basename_of_path.
  - change ("downsized_3d_examples_batch" ++ digits ++ ".nc")%string
      with (("downsized_3d_examples_batch" ++ digits) ++ String "." "nc")%string.
    rewrite splitext_root_of by reflexivity.
    change (PATHLESS_FILE_NAME_PREFIX ++ "_batch")%string
      with (String "d" "ownsized_3d_examples_batch").
    change ("downsized_3d_examples_batch" ++ digits)%string
      with (String "d" "ownsized_3d_examples_batch" ++ digits)%string.
    rewrite split_on_prefix, split_on_absent by (now apply digits_not).
    reflexivity.
  - cbn. rewrite all_chars_app, (digits_not "/" digits eq_refl Hd). reflexivity.
Qed.

Lemma mapM_combine {A B : Type} (f : A -> result B) (flag : B -> bool)
    (l : list A) :
  forall bs,
    mapM f l = Ok bs ->
    map fst (combine l bs) = l /\
    map (fun xb => flag (snd xb)) (combine l bs) = map flag bs /\
    map fst (filter (fun xb => flag (snd xb)) (combine l bs)) =
      filter (fun x => match f x with Ok b => flag b | Raises _ => false end) l /\
    Forall (fun x => exists b, f x = Ok b) l.
Proof.
  induction l as [|x l IH]; intros bs H; cbn [mapM] in H.
  - inversion H. repeat split; constructor.
  - destruct (f x) as [b|] eqn:Ex; [|discriminate]. cbn [bind] in H.
    destruct (mapM f l) as [bs'|]; [|discriminate]. cbn [bind] in H.
    inversion H; subst. clear H.
    destruct (IH bs' eq_refl) as (I1 & I2 & I3 & I4).
    cbn [combine map fst snd filter]. rewrite Ex, I1, I2.
    repeat split.
    + destruct (flag b); cbn [map fst]; now rewrite I3.
    + constructor; [now exists b | exact I4].
Qed.

Lemma take_where_mapM {A B : Type} (f : A -> result B) (flag : B -> bool)
    (l : list A) (bs : list B) :
  mapM f l = Ok bs ->
  Py.take l (Py.where_ (map flag bs)) =
  Ok (filter (fun x => match f x with Ok b => flag b | Raises _ => false end) l).
Proof.
  intros H. destruct (mapM_combine f flag l bs H) as (I1 & I2 & I3 & _).
  rewrite <- I1 at 1. rewrite <- I2, <- I3. apply take_where.
Qed.

Lemma mapM_pairs {A B C : Type} (g : A -> result (B * C)) (l : list A) :
  forall ss es,
    mapM (fun x => '(s, _) <- g x ;; Ok s) l = Ok ss ->
    mapM (fun x => '(_, e) <- g x ;; Ok e) l = Ok es ->
    mapM g l = Ok (combine ss es).
Proof.
  induction l as [|x l IH]; intros ss es Hs He; cbn [mapM] in *.
  - inversion Hs. reflexivity.
  - destruct (g x) as [[s e]|]; [|discriminate]. cbn [bind] in *.
    destruct (mapM _ l) as [ss'|] eqn:Es in Hs; [|discriminate].
    destruct (mapM _ l) as [es'|] eqn:Ee in He; [|discriminate].
    cbn [bind] in *. inversion Hs; inversion He; subst.
    now rewrite (IH ss' es' Es Ee).
Qed.

Section FileNameProperties.

Variable os_path_isfile : string -> bool.
Variable glob_glob : string -> list string.
Variable unix_sec_to_string : Z -> string -> result string.
Variable string_to_unix_sec : string -> string -> result Z.
Variable floor_to_nearest : Z -> Z -> Z.

Local Abbreviation find_file :=
  (find_file os_path_isfile unix_sec_to_string floor_to_nearest).
Local Abbreviation find_many_files :=
  (find_many_files glob_glob string_to_unix_sec).

(** X23. The name [find_file] gives a shuffled file carries its batch number:
    whatever the directory, and whatever the rounding puts in the directory
    name, [_file_name_to_batch_number] reads the batch number back. *)
Theorem batch_number_round_trip (top_directory_name : string)
    (first_time last_time : option Z) (batch_number : Z)
    (raise_error_if_missing : bool) (example_file_name : string) :
  find_file top_directory_name true first_time last_time (Some batch_number)
    raise_error_if_missing = Ok example_file_name ->
  _file_name_to_batch_number example_file_name = Ok batch_number.
Proof.
  unfold learning_examples_io.find_file.
  destruct (Z.ltb_spec batch_number 0) as [|Hb]; [discriminate|]. cbn [bind].
  destruct (raise_error_if_missing && _); [discriminate|].
  intros H. injection H as <-.
  transitivity
    (_file_name_to_batch_number
       ((top_directory_name ++ "/batches" ++
         Py.format_0d 7 (floor_to_nearest batch_number NUM_BATCHES_PER_DIRECTORY) ++
         "-" ++
         Py.format_0d 7 (floor_to_nearest batch_number NUM_BATCHES_PER_DIRECTORY
                         + NUM_BATCHES_PER_DIRECTORY - 1)) ++
        String "/" ("downsized_3d_examples_batch" ++
                    Py.format_0d 7 batch_number ++ ".nc"))%string);
    [rewrite !string_app_assoc; reflexivity|].
  rewrite batch_number_of_path.
  - now rewrite int_format_0d.
  - unfold Py.format_0d. destruct (Z.ltb_spec batch_number 0); [lia|].
    apply digits_zfill.
Qed.

(** The glob patterns of shuffled and of time-ordered files. *)
Definition shuffled_pattern (top_directory_name : string) : string :=
  (top_directory_name ++ "/batches" ++ BATCH_NUMBER_REGEX ++ "-" ++
   BATCH_NUMBER_REGEX ++ "/" ++ PATHLESS_FILE_NAME_PREFIX ++ "_batch" ++
   BATCH_NUMBER_REGEX ++ ".nc")%string.

Definition time_pattern (top_directory_name : string) : string :=
  (top_directory_name ++ "/" ++ PATHLESS_FILE_NAME_PREFIX ++ "_" ++
   TIME_FORMAT_REGEX ++ "-" ++ TIME_FORMAT_REGEX ++ ".nc")%string.

(** The batch number of the file lies in [first, last]. *)
Definition batch_in_range (first last : Z) (example_file_name : string) : bool :=
  match _file_name_to_batch_number example_file_name with
  | Ok b => (first <=? b) && (b <=? last)
  | Raises _ => false
  end.

(** The period of the file meets [first, last]. *)
Definition period_overlaps (first last : Z) (example_file_name : string) : bool :=
  match _file_name_to_times string_to_unix_sec example_file_name with
  | Ok (start_time, end_time) =>
      negb ((last <? start_time) || (end_time <? first))
  | Raises _ => false
  end.

(** X24. When the search for shuffled files returns, both batch numbers were
    given with [0 <= first <= last], every file matching the pattern has a
    readable batch number, and the result is, in the order of the glob,
    exactly the matching files with batch number in [first, last]; it is
    never empty. *)
Theorem find_many_files_shuffled (top_directory_name : string)
    (first_time last_time first_batch_number last_batch_number : option Z)
    (example_file_names : list string) :
  find_many_files top_directory_name true first_time last_time
    first_batch_number last_batch_number = Ok example_file_names ->
  exists first last,
    first_batch_number = Some first /\ last_batch_number = Some last /\
    0 <= first <= last /\
    example_file_names <> [] /\
    example_file_names =
      filter (batch_in_range first last)
        (glob_glob (shuffled_pattern top_directory_name)) /\
    Forall (fun name => exists b, _file_name_to_batch_number name = Ok b)
      (glob_glob (shuffled_pattern top_directory_name)).
Proof.
  unfold learning_examples_io.find_many_files.
  destruct first_batch_number as [first|], last_batch_number as [last|];
    try discriminate.
  destruct (Z.ltb_spec first 0) as [|Hf]; [discriminate|].
  destruct (Z.ltb_spec last first) as [|Hl]; [discriminate|]. cbn [bind].
  fold (shuffled_pattern top_directory_name).
  destruct (List.length (glob_glob _) =? 0)%nat; [discriminate|].
  destruct (mapM _file_name_to_batch_number _) as [batch_numbers|] eqn:Em;
    [|discriminate]. cbn [bind].
  destruct (List.length _ =? 0)%nat eqn:Eg; [discriminate|].
  intros H. exists first, last. split; [reflexivity|]. split; [reflexivity|].
  split; [lia|].
  pose proof (take_length _ _ _ H) as L.
  rewrite (take_where_mapM _ _ _ _ Em) in H. injection H as <-.
  repeat split.
  - intros E. unfold batch_in_range in E. rewrite E in L.
    apply Nat.eqb_neq in Eg. cbn in L. congruence.
  - now destruct (mapM_combine _ (fun _ => true) _ _ Em) as (_ & _ & _ & I).
Qed.

(** X25. When the search for time-ordered files returns, both times were
    given with [first <= last], every file matching the pattern has readable
    times, and the result is exactly the matching files, sorted by name,
    whose period meets [first, last]; it is never empty. *)
Theorem find_many_files_by_time (top_directory_name : string)
    (first_time last_time first_batch_number last_batch_number : option Z)
    (example_file_names : list string) :
  find_many_files top_directory_name false first_time last_time
    first_batch_number last_batch_number = Ok example_file_names ->
  exists first last,
    first_time = Some first /\ last_time = Some last /\ first <= last /\
    example_file_names <> [] /\
    example_file_names =
      filter (period_overlaps first last)
        (Py.sorted (glob_glob (time_pattern top_directory_name))) /\
    Forall (fun name => exists times,
              _file_name_to_times string_to_unix_sec name = Ok times)
      (Py.sorted (glob_glob (time_pattern top_directory_name))).
Proof.
  unfold learning_examples_io.find_many_files.
  destruct first_time as [first|], last_time as [last|]; try discriminate.
  destruct (Z.ltb_spec last first) as [|Hl]; [discriminate|]. cbn [bind].
  fold (time_pattern top_directory_name).
  destruct (List.length (glob_glob _) =? 0)%nat; [discriminate|].
  match goal with
  | |- bind ?m _ = _ -> _ => destruct m as [starts|] eqn:Es; [|discriminate]
  end.
  cbn [bind].
  match goal with
  | |- bind ?m _ = _ -> _ => destruct m as [ends|] eqn:Ee; [|discriminate]
  end.
  cbn [bind].
  destruct (List.length _ =? 0)%nat eqn:Eg; [discriminate|].
  intros H. exists first, last. split; [reflexivity|]. split; [reflexivity|].
  split; [lia|].
  pose proof (mapM_pairs _ _ _ _ Es Ee) as Em.
  pose proof (take_length _ _ _ H) as L.
  rewrite (take_where_mapM _ _ _ _ Em) in H. injection H as <-.
  repeat split.
  - intros E. apply Nat.eqb_neq in Eg. apply Eg. rewrite <- L.
    match type of E with ?l = [] => change (List.length l = O) end.
    now rewrite E.
  - now destruct (mapM_combine _ (fun _ => true) _ _ Em) as (_ & _ & _ & I).
Qed.

End FileNameProperties.

Lemma batch_number_round_trip_witness :
  _file_name_to_batch_number
    "/data/batches0001000-0001999/downsized_3d_examples_batch0001234.nc"
  = Ok 1234.
Proof.
  apply (batch_number_round_trip (fun _ => false) (fun _ _ => Fixture.unavailable)
           (fun x r => x / r * r) "/data" None None 1234 false).
  reflexivity.
Defined.

(** A directory listing of three shuffled files, and one of two time-ordered
    files whose time text is read as a plain number. *)
Module ListingFixture.

Definition shuffled_files (_ : string) : list string :=
  ["/data/batches0000000-0000999/downsized_3d_examples_batch0000500.nc";
   "/data/batches0000000-0000999/downsized_3d_examples_batch0000012.nc";
   "/data/batches0001000-0001999/downsized_3d_examples_batch0001234.nc"].

Definition time_files (_ : string) : list string :=
  ["/data/downsized_3d_examples_2000010200-2000010221.nc";
   "/data/downsized_3d_examples_2000010100-2000010121.nc"].

Definition string_to_unix_sec (time_string _ : string) : result Z :=
  Py.int time_string.

End ListingFixture.

Lemma find_many_files_shuffled_witness :
  find_many_files ListingFixture.shuffled_files ListingFixture.string_to_unix_sec
    "/data" true None None (Some 0) (Some 600)
  = Ok ["/data/batches0000000-0000999/downsized_3d_examples_batch0000500.nc";
        "/data/batches0000000-0000999/downsized_3d_examples_batch0000012.nc"] /\
  exists first last,
    Some 0 = Some first /\ Some 600 = Some last /\ 0 <= first <= last.
Proof.
  split; [reflexivity|].
  destruct (find_many_files_shuffled ListingFixture.shuffled_files
              ListingFixture.string_to_unix_sec "/data" None None (Some 0) (Some 600)
              _ eq_refl)
    as (first & last & H1 & H2 & H3 & _).
  now exists first, last.
Defined.

Lemma find_many_files_by_time_witness :
  find_many_files ListingFixture.time_files ListingFixture.string_to_unix_sec
    "/data" false (Some 2000010103) (Some 2000010106) None None
  = Ok ["/data/downsized_3d_examples_2000010100-2000010121.nc"] /\
  exists first last,
    Some 2000010103 = Some first /\ Some 2000010106 = Some last /\ first <= last.
Proof.
  split; [reflexivity|].
  destruct (find_many_files_by_time ListingFixture.time_files
              ListingFixture.string_to_unix_sec "/data" (Some 2000010103)
              (Some 2000010106) None None _ eq_refl)
    as (first & last & H1 & H2 & H3 & _).
  now exists first, last.
Defined.

(** ** The configurations the augmenter accepts *)

Section AugmentationReturns.

Context {Img Label Float Rng : Type}.
Variable is_nan : Float -> bool.
Variable shift_radar_images : list Img -> Z -> Z -> result (list Img).
Variable rotate_radar_images : list Img -> Float -> result (list Img).
Variable noise_radar_images :
  Rng -> list Img -> option Float -> result (list Img * Rng).

(** The transforms themselves never fail. *)
Hypothesis shift_returns : forall m x y, exists m', shift_radar_images m x y = Ok m'.
Hypothesis rotate_returns : forall m a, exists m', rotate_radar_images m a = Ok m'.
Hypothesis noise_returns : forall g m sd,
  exists m' g', noise_radar_images g m sd = Ok (m', g').

(** Translations are given in both directions or in none, one offset pair per
    translation and none of them (0, 0); no rotation angle is NaN; the number
    of noisings is not negative. *)
Definition valid_augmentation (x_translations_pixels y_translations_pixels : option (list Z))
    (ccw_rotation_angles_deg : option (list Float)) (num_noisings : Z) : Prop :=
  match x_translations_pixels, y_translations_pixels with
  | None, None => True
  | Some xs, Some ys =>
      List.length ys = List.length xs /\
      Forall (fun '(x, y) => (x, y) <> (0, 0)) (combine xs ys)
  | _, _ => False
  end /\
  match ccw_rotation_angles_deg with
  | None => True
  | Some angles => Forall (fun a => is_nan a = false) angles
  end /\
  0 <= num_noisings.

Lemma translation_loop_returns (e : nat) (offsets : list (Z * Z)) :
  forall (pm : list Img) (tm : list Label),
    exists out, translation_loop shift_radar_images e offsets pm tm = Ok out.
Proof.
  induction offsets as [|[x y] offsets IH]; intros pm tm; cbn [translation_loop].
  - eexists; reflexivity.
  - destruct (shift_returns (firstn e pm) x y) as [m' ->]. cbn [bind]. apply IH.
Qed.

Lemma rotation_loop_returns (e : nat) (angles : list Float) :
  forall (pm : list Img) (tm : list Label),
    exists out, rotation_loop rotate_radar_images e angles pm tm = Ok out.
Proof.
  induction angles as [|a angles IH]; intros pm tm; cbn [rotation_loop].
  - eexists; reflexivity.
  - destruct (rotate_returns (firstn e pm) a) as [m' ->]. cbn [bind]. apply IH.
Qed.

Lemma noising_loop_returns (e : nat) (sd : option Float) (n : nat) :
  forall (g : Rng) (pm : list Img) (tm : list Label),
    exists out, noising_loop noise_radar_images e n sd g pm tm = Ok out.
Proof.
  induction n as [|n IH]; intros g pm tm; cbn [noising_loop].
  - eexists; reflexivity.
  - destruct (noise_returns g (firstn e pm) sd) as (m' & g' & ->). cbn [bind].
    apply IH.
Qed.

Lemma no_zero_offset (offsets : list (Z * Z)) :
  forallb (fun '(x, y) => 0 <? Z.abs x + Z.abs y) offsets = true <->
  Forall (fun '(x, y) => (x, y) <> (0, 0)) offsets.
Proof.
  rewrite forallb_forall, Forall_forall.
  split; intros H [x y] Hin; specialize (H (x, y) Hin); cbn in H |- *.
  - apply Z.ltb_lt in H. intros E. inversion E. lia.
  - apply Z.ltb_lt. destruct (Z.eq_dec x 0) as [->|]; [|lia].
    destruct (Z.eq_dec y 0) as [->|]; [|lia]. congruence.
Qed.

Lemma no_nan_angle (angles : list Float) :
  existsb is_nan angles = false <-> Forall (fun a => is_nan a = false) angles.
Proof.
  induction angles as [|a angles IH]; cbn [existsb].
  - split; [constructor | reflexivity].
  - rewrite orb_false_iff, IH. split.
    + intros [Ha Hr]. now constructor.
    + intros H. inversion H. now split.
Qed.

(** X26. When the three image transforms themselves never fail, the
    augmenter returns exactly on the valid configurations: translations given
    in both directions or in none, with as many x as y offsets and no (0, 0)
    pair, no NaN rotation angle, and a number of noisings that is not
    negative. *)
Theorem augmentation_returns_iff (rng : Rng) (predictor_matrix : list Img)
    (target_matrix : list Label)
    (x_translations_pixels y_translations_pixels : option (list Z))
    (ccw_rotation_angles_deg : option (list Float))
    (noise_standard_deviation : option Float) (num_noisings : Z) :
  (exists out,
     _do_data_augmentation is_nan shift_radar_images rotate_radar_images
       noise_radar_images rng predictor_matrix target_matrix
       x_translations_pixels y_translations_pixels ccw_rotation_angles_deg
       noise_standard_deviation num_noisings = Ok out) <->
  valid_augmentation x_translations_pixels y_translations_pixels
    ccw_rotation_angles_deg num_noisings.
Proof.
  unfold _do_data_augmentation, valid_augmentation. split.
  - intros [out H].
    destruct (check_translations _ _) as [offsets|] eqn:Eo; [|discriminate].
    cbn [bind] in H.
    destruct (check_rotations _ _) as [angles|] eqn:Ea; [|discriminate].
    cbn [bind] in H.
    destruct (Z.ltb_spec num_noisings 0) as [|Hn]; [discriminate|].
    clear H. repeat split.
    + unfold check_translations in Eo.
      destruct x_translations_pixels as [xs|], y_translations_pixels as [ys|];
        try discriminate; [|exact I].
      destruct (List.length ys =? List.length xs)%nat eqn:El; [|discriminate].
      cbn [negb] in Eo.
      destruct (forallb _ _) eqn:Ef; [|discriminate].
      split; [now apply Nat.eqb_eq | now apply no_zero_offset].
    + unfold check_rotations in Ea.
      destruct ccw_rotation_angles_deg as [a|]; [|exact I].
      destruct (existsb is_nan a) eqn:En; [discriminate|].
      now apply no_nan_angle.
    + exact Hn.
  - intros (Ht & Ha & Hn).
    assert (Eo : exists offsets,
               check_translations x_translations_pixels y_translations_pixels
               = Ok offsets).
    { unfold check_translations.
      destruct x_translations_pixels as [xs|], y_translations_pixels as [ys|];
        try contradiction; [|eexists; reflexivity].
      destruct Ht as [El Hz]. rewrite (proj2 (Nat.eqb_eq _ _) El).
      rewrite (proj2 (no_zero_offset _) Hz). eexists; reflexivity. }
    assert (Ea : exists angles,
               check_rotations is_nan ccw_rotation_angles_deg = Ok angles).
    { unfold check_rotations. destruct ccw_rotation_angles_deg as [a|];
        [|eexists; reflexivity].
      rewrite (proj2 (no_nan_angle _) Ha). eexists; reflexivity. }
    destruct Eo as [offsets ->], Ea as [angles ->]. cbn [bind].
    destruct (Z.ltb_spec num_noisings 0); [lia|]. cbn [bind].
    destruct (translation_loop_returns (List.length predictor_matrix) offsets
                predictor_matrix target_matrix) as [[pm1 tm1] ->]. cbn [bind].
    destruct (rotation_loop_returns (List.length predictor_matrix) angles pm1 tm1)
      as [[pm2 tm2] ->]. cbn [bind].
    apply noising_loop_returns.
Qed.

End AugmentationReturns.

Lemma augmentation_returns_iff_witness :
  let shift := fun (m : list Z) (x y : Z) => Ok (map (fun v => v + x + 1000 * y) m) in
  let rotate := fun (m : list Z) (a : Z) => Ok (map (fun v => v * a) m) in
  let noise := fun (g : nat) (m : list Z) (_ : option Z) =>
                 Ok (map (Z.add (Z.of_nat g)) m, S g) in
  ~ exists out : list Z * list (list Z) * nat,
      _do_data_augmentation (fun _ : Z => false) shift rotate noise O
        [10; 20] [[1; 0; 0]; [0; 1; 0]] (Some [1; 0]) (Some [0; 0]) None None 0
      = Ok out.
Proof.
  intros shift rotate noise Hout.
  apply (augmentation_returns_iff (fun _ : Z => false) shift rotate noise
           ltac:(intros m x y; eexists; reflexivity)
           ltac:(intros m a; eexists; reflexivity)
           ltac:(intros g m sd; do 2 eexists; reflexivity)) in Hout.
  destruct Hout as [[_ Hz] _]. inversion Hz as [|p l Hp Hl]; subst.
  inversion Hl as [|p' l' Hp' Hl']; subst. now apply Hp'.
Defined.
